(** * Symbol-map extraction of the repository mapper (bin/mapper.ts)

    A shallow embedding of the per-file extraction engine and of the
    aggregation loop of the mapper script, followed by the properties of
    the extraction specification that were checked against it.

    Conventions of the embedding.
    - A JavaScript string is a [string]; a character stands for one UTF-16
      code unit below 256.
    - [undefined] and an absent object property are [None].
    - An array is a [list]; [push] appends at the end.  A [Set] is a list
      without repetitions in insertion order, which is the order
      [Array.from] and [forEach] observe.
    - The concrete syntax tree delivered by the tree-sitter parsers is a
      rose tree of nodes carrying [type], [text] and [children].  The
      parsers themselves and the file system are parameters; reading a
      file and parsing its content are taken to succeed.
    - A regular expression object is its expression and its [lastIndex];
      a [while] loop over [exec] is a recursion on fuel that is shown to
      be enough. *)

From Stdlib Require Import Bool Arith List Ascii String Lia.
Import ListNotations.
Open Scope string_scope.
Open Scope list_scope.
Open Scope nat_scope.

(* ================================================================== *)
(** * JavaScript string primitives *)
(* ================================================================== *)

Module Js.

(** The double quote character, as a one-character string. *)
Definition dq : string := String "034"%char EmptyString.

(** [truthy s]: a string is truthy when it is not empty. *)
Definition truthy (s : string) : bool :=
  match s with EmptyString => false | String _ _ => true end.

(** [s.startsWith(p)]. *)
Definition startsWith (s p : string) : bool := prefix p s.

(** [s.includes(p)]: [p] occurs at some position of [s]. *)
Fixpoint includes (s p : string) : bool :=
  prefix p s ||
  match s with
  | EmptyString => false
  | String _ s' => includes s' p
  end.

(** The suffix of [s] from position [n] on. *)
Fixpoint drop (n : nat) (s : string) : string :=
  match n, s with
  | O, _ => s
  | S n', String _ s' => drop n' s'
  | S _, EmptyString => EmptyString
  end.

(** [s.endsWith(p)]. *)
Definition endsWith (s p : string) : bool :=
  (length p <=? length s) && (drop (length s - length p) s =? p)%string.

(** [s.slice(1, -1)]: drops the first and the last code unit. *)
Definition slice_1_m1 (s : string) : string :=
  substring 1 (length s - 2) s.

(** [toLowerCase] on one code unit below 256: the letters A-Z and the
    Latin-1 capitals U+00C0..U+00DE (U+00D7 excepted) move up by 32. *)
Definition lowerChar (c : ascii) : ascii :=
  let n := nat_of_ascii c in
  if ((65 <=? n) && (n <=? 90))
     || ((192 <=? n) && (n <=? 222) && negb (n =? 215))
  then ascii_of_nat (n + 32) else c.

Fixpoint toLowerCase (s : string) : string :=
  match s with
  | EmptyString => EmptyString
  | String c s' => String (lowerChar c) (toLowerCase s')
  end.

(** [new Set([...]).has(x)] and [[...].includes(x)] on strings. *)
Definition has (set : list string) (x : string) : bool :=
  existsb (String.eqb x) set.

(** [set.add(x)]: insertion order is kept, a present element stays put. *)
Definition add (set : list string) (x : string) : list string :=
  if has set x then set else set ++ [x].

(** [arr.join(sep)]. *)
Fixpoint join (sep : string) (l : list string) : string :=
  match l with
  | [] => EmptyString
  | [x] => x
  | x :: l' => (x ++ sep ++ join sep l')%string
  end.

(** Node's [path.extname] on a POSIX path: the text from the last dot
    of the last path segment to the end of that segment; empty when the
    segment has no dot, starts at its only candidate dot, or is [..]. *)
Fixpoint stripTrailingSlashes (r : list ascii) : list ascii :=
  match r with
  | "/"%char :: r' => stripTrailingSlashes r'
  | _ => r
  end.

(** On the reversed segment: the characters up to the first dot. *)
Fixpoint revSegment (r : list ascii) : list ascii :=
  match r with
  | [] => []
  | "/"%char :: _ => []
  | c :: r' => c :: revSegment r'
  end.

Fixpoint revExt (r : list ascii) : option (list ascii * list ascii) :=
  match r with
  | [] => None
  | "."%char :: before => Some (["."%char], before)
  | c :: r' =>
      match revExt r' with
      | Some (e, before) => Some (c :: e, before)
      | None => None
      end
  end.

Definition extname (path : string) : string :=
  let seg := revSegment (stripTrailingSlashes (rev (list_ascii_of_string path))) in
  match revExt seg with
  | None => EmptyString
  | Some (e, before) =>
      match before with
      | [] => EmptyString
      | ["."%char] =>
          match e with
          | ["."%char] => EmptyString
          | _ => string_of_list_ascii (rev e)
          end
      | _ => string_of_list_ascii (rev e)
      end
  end.

End Js.

(* ================================================================== *)
(** * Regular expressions

    The fragment of ECMAScript regular expressions the script uses:
    literal text, one character of a class, a greedy [+] on a character
    class, sequence, a greedy optional non-capturing group and numbered
    capture groups.  Matching is the backtracking matcher of the language
    definition, written with continuations. *)
(* ================================================================== *)

Module Regex.

Inductive regex : Type :=
| Lit (l : string)
| Cls (p : ascii -> bool)
| Plus (p : ascii -> bool)
| Seq (r1 r2 : regex)
| Opt (r : regex)
| Grp (n : nat) (r : regex).

(** Captures: group number and captured text, latest binding first. *)
Definition caps : Type := list (nat * string).

Fixpoint group (cs : caps) (n : nat) : option string :=
  match cs with
  | [] => None
  | (m, t) :: cs' => if Nat.eqb m n then Some t else group cs' n
  end.

Fixpoint stripPrefix (l s : string) : option string :=
  match l with
  | EmptyString => Some s
  | String a l' =>
      match s with
      | String b s' => if Ascii.eqb a b then stripPrefix l' s' else None
      | EmptyString => None
      end
  end.

(** The text consumed between the suffix [s] and its own suffix [s']. *)
Definition consumed (s s' : string) : string :=
  substring 0 (length s - length s') s.

Section Matcher.
Variable R : Type.

(** Greedy [p*]: the longest run first, then shorter ones. *)
Fixpoint star (p : ascii -> bool) (s : string) (k : string -> option R)
  : option R :=
  match s with
  | String c s' =>
      if p c then
        match star p s' k with
        | Some r => Some r
        | None => k s
        end
      else k s
  | EmptyString => k s
  end.

Definition plus (p : ascii -> bool) (s : string) (k : string -> option R)
  : option R :=
  match s with
  | String c s' => if p c then star p s' k else None
  | EmptyString => None
  end.

Fixpoint run (r : regex) (s : string) (cs : caps)
         (k : string -> caps -> option R) : option R :=
  match r with
  | Lit l =>
      match stripPrefix l s with
      | Some s' => k s' cs
      | None => None
      end
  | Cls p =>
      match s with
      | String c s' => if p c then k s' cs else None
      | EmptyString => None
      end
  | Plus p => plus p s (fun s' => k s' cs)
  | Seq r1 r2 => run r1 s cs (fun s' cs' => run r2 s' cs' k)
  | Opt r1 =>
      match run r1 s cs k with
      | Some res => Some res
      | None => k s cs
      end
  | Grp n r1 => run r1 s cs (fun s' cs' => k s' ((n, consumed s s') :: cs'))
  end.
End Matcher.

Arguments star {R}.
Arguments plus {R}.
Arguments run {R}.

(** A match anchored at the start of [s]: captures and remaining text. *)
Definition matchAt (r : regex) (s : string) : option (caps * string) :=
  run r s [] (fun s' cs => Some (cs, s')).

(** The leftmost match in [s]. *)
Fixpoint search (r : regex) (s : string) : option (caps * string) :=
  match matchAt r s with
  | Some res => Some res
  | None =>
      match s with
      | String _ s' => search r s'
      | EmptyString => None
      end
  end.

(** [re.exec(content)] on a global regular expression whose [lastIndex]
    is [li]: the match, if any, and the new [lastIndex]. *)
Definition exec (r : regex) (content : string) (li : nat)
  : option caps * nat :=
  if length content <? li then (None, 0)
  else
    match search r (Js.drop li content) with
    | Some (cs, rest) => (Some cs, length content - length rest)
    | None => (None, 0)
    end.

(** [while ((m = re.exec(content)) !== null) { ... }]: the successive
    matches and the [lastIndex] the loop leaves behind.  Every turn of
    the loops of the script moves [lastIndex] forward, so [fuel] turns
    with [fuel] above the length of the content are never used up
    (lemma [execAll_fuel] below). *)
Fixpoint execAll (fuel : nat) (r : regex) (content : string) (li : nat)
  : list caps * nat :=
  match fuel with
  | O => ([], li)
  | S fuel' =>
      match exec r content li with
      | (Some cs, li') =>
          let (ms, final) := execAll fuel' r content li' in
          (cs :: ms, final)
      | (None, li') => ([], li')
      end
  end.

Definition loopFuel (content : string) : nat := S (S (length content)).

(** [content.match(re)] without the global flag: the first match. *)
Definition firstMatch (r : regex) (content : string) : option caps :=
  match search r content with
  | Some (cs, _) => Some cs
  | None => None
  end.

(** Character classes. *)
Definition inRange (lo hi : nat) (c : ascii) : bool :=
  let n := nat_of_ascii c in (lo <=? n) && (n <=? hi).

(** [\s] on code units below 256. *)
Definition ws (c : ascii) : bool :=
  let n := nat_of_ascii c in
  inRange 9 13 c || (n =? 32) || (n =? 160).

(** [\w]. *)
Definition word (c : ascii) : bool :=
  inRange 65 90 c || inRange 97 122 c || inRange 48 57 c || (nat_of_ascii c =? 95).

(** [[a-zA-Z]]. *)
Definition alpha (c : ascii) : bool :=
  inRange 97 122 c || inRange 65 90 c.

(** [[^...]] and [[...]] over an explicit list of characters. *)
Definition oneOf (l : list ascii) (c : ascii) : bool :=
  existsb (Ascii.eqb c) l.
Definition noneOf (l : list ascii) (c : ascii) : bool :=
  negb (oneOf l c).

End Regex.

Declare Scope regex_scope.
Delimit Scope regex_scope with re.
Infix ";;" := Regex.Seq (at level 61, right associativity) : regex_scope.

(* ================================================================== *)
(** * The mapper script *)
(* ================================================================== *)

Module Mapper.
Import Js Regex.

(** ** Output schema *)

(** [interface SymbolInfo]. *)
Record SymbolInfo : Type := mkSymbol {
  name : string;
  kind : string;
  properties : option (list string);
  methods : option (list string);
  extends : option string;
  isWidget : option bool;
  isStateful : option bool;
  isStateless : option bool;
  androidComponent : option string;
  stateManagement : option string;
  hasTests : option bool;
  annotations : option (list string);
  dependencies : option (list string)
}.

(** An element of [imports: (string | ImportInfo)[]]: a bare source
    string, or an [ImportInfo] object with its optional [specifiers]. *)
Inductive ImportEntry : Type :=
| Bare (source : string)
| Edge (source : string) (specifiers : option (list string)).

(** The [androidManifest] object. *)
Record ManifestInfo : Type := mkManifest {
  package : option string;
  components : list string
}.

(** [interface FileInfo]. *)
Record FileInfo : Type := mkFileInfo {
  file : string;
  symbols : option (list SymbolInfo);
  imports : option (list ImportEntry);
  hasJsx : option bool;
  jsxElements : option (list string);
  isDartFile : option bool;
  isFlutterFile : option bool;
  isAndroidFile : option bool;
  androidManifest : option ManifestInfo;
  isTestFile : option bool;
  hasWidgetTests : option bool;
  statePattern : option string
}.

(** ** Fixed registries *)

Definition FLUTTER_WIDGETS : list string :=
  [ "Widget"; "StatelessWidget"; "StatefulWidget";
    "MaterialApp"; "Scaffold"; "AppBar"; "Container"; "Row"; "Column";
    "Text"; "ListView"; "Stack"; "Card"; "ListTile";
    "FloatingActionButton"; "BottomNavigationBar"; "Drawer"; "SnackBar";
    "AlertDialog"; "TextField"; "ElevatedButton"; "TextButton";
    "IconButton"; "OutlinedButton";
    "Padding"; "Center"; "Align"; "SizedBox"; "Expanded"; "Flexible";
    "Wrap"; "GridView"; "CustomScrollView"; "SingleChildScrollView";
    "Navigator"; "Route"; "MaterialPageRoute"; "CupertinoPageRoute";
    "ChangeNotifier"; "ValueNotifier"; "StreamBuilder"; "FutureBuilder";
    "AnimationController"; "Animation"; "Tween"; "AnimatedBuilder";
    "GestureDetector"; "InkWell"; "DragTarget"; "Draggable";
    "Image"; "Icon"; "AssetImage"; "NetworkImage" ].

(** [DART_PATTERNS.stateManagement], in insertion order. *)
Definition DART_stateManagement : list string :=
  [ "ChangeNotifier"; "ValueNotifier"; "StreamController";
    "BehaviorSubject"; "Store"; "Cubit"; "Bloc"; "StateNotifier";
    "ChangeNotifierProvider"; "Provider"; "GetxController"; "MobXStore";
    "Riverpod" ].

(** [DART_PATTERNS.annotations]. *)
Definition DART_annotations : list string :=
  [ "@immutable"; "@required"; "@override"; "@visibleForTesting";
    "@protected"; "@mustCallSuper"; "@factory"; "@HiveType";
    "@JsonSerializable" ].

Definition ANDROID_COMPONENTS : list string :=
  [ "Activity"; "Fragment"; "Service"; "BroadcastReceiver";
    "ContentProvider"; "Application" ].

Definition WEB_ELEMENTS : list string :=
  [ "div"; "span"; "p"; "a"; "button"; "input"; "form"; "img";
    "h1"; "h2"; "h3"; "h4"; "h5"; "h6"; "ul"; "ol"; "li";
    "table"; "tr"; "td"; "th"; "nav"; "header"; "footer"; "main";
    "section"; "article"; "aside"; "label"; "select"; "option";
    "textarea"; "br"; "hr"; "canvas"; "svg"; "path"; "circle"; "rect";
    "video"; "audio"; "source"; "iframe"; "script"; "style"; "link";
    "meta"; "title"; "head"; "body"; "html" ].

(** ** The regular expressions of the heuristic extractors

    In the comments below DQ stands for the double quote character. *)

Local Open Scope regex_scope.

Definition quote2 : list ascii := ["'"%char; "034"%char].

(** [/class\s+(\w+)(?:\s+extends\s+(\w+))?(?:\s+implements\s+(\w+))?(?:\s+with\s+([^{]+))?/g] *)
Definition dartClassRegex : regex :=
  Lit "class" ;; Plus ws ;; Grp 1 (Plus word) ;;
  Opt (Plus ws ;; Lit "extends" ;; Plus ws ;; Grp 2 (Plus word)) ;;
  Opt (Plus ws ;; Lit "implements" ;; Plus ws ;; Grp 3 (Plus word)) ;;
  Opt (Plus ws ;; Lit "with" ;; Plus ws ;; Grp 4 (Plus (noneOf ["{"%char]))).

(** [/@([a-zA-Z]+)/g] *)
Definition annotationRegex : regex :=
  Lit "@" ;; Grp 1 (Plus alpha).

(** [/import\s+[' DQ]([^' DQ]+)[' DQ]/g] *)
Definition dartImportRegex : regex :=
  Lit "import" ;; Plus ws ;; Cls (oneOf quote2) ;;
  Grp 1 (Plus (noneOf quote2)) ;; Cls (oneOf quote2).

(** [/import\s+[' DQ]package:([^\/' DQ]+)/g] *)
Definition dartPackageRegex : regex :=
  Lit "import" ;; Plus ws ;; Cls (oneOf quote2) ;; Lit "package:" ;;
  Grp 1 (Plus (noneOf ("/"%char :: quote2))).

(** [/class\s+(\w+)(?:\s+extends\s+(\w+))?(?:\s+implements\s+([^{]+))?/g] *)
Definition androidClassRegex : regex :=
  Lit "class" ;; Plus ws ;; Grp 1 (Plus word) ;;
  Opt (Plus ws ;; Lit "extends" ;; Plus ws ;; Grp 2 (Plus word)) ;;
  Opt (Plus ws ;; Lit "implements" ;; Plus ws ;; Grp 3 (Plus (noneOf ["{"%char]))).

(** [/package=DQ([^DQ]+)DQ/] *)
Definition packageRegex : regex :=
  Lit ("package=" ++ dq)%string ;; Grp 1 (Plus (noneOf ["034"%char])) ;; Lit dq.

(** [/android:name=DQ([^DQ]+)DQ/g] *)
Definition componentRegex : regex :=
  Lit ("android:name=" ++ dq)%string ;; Grp 1 (Plus (noneOf ["034"%char])) ;; Lit dq.

Local Close Scope regex_scope.


(** ** Concrete syntax trees *)

(** A tree-sitter [SyntaxNode]: [children] is also what [child(i)] and
    [childCount] range over. *)
#[warnings="-register-all"]
Inductive Node : Type :=
| mkNode (type : string) (text : string) (children : list Node).

Definition type (n : Node) : string := let (t, _, _) := n in t.
Definition text (n : Node) : string := let (_, x, _) := n in x.
Definition children (n : Node) : list Node := let (_, _, c) := n in c.

Definition hasType (t : string) (n : Node) : bool := (type n =? t)%string.

(** [l.find(p)?.text], with [undefined] read as the empty (falsy) text:
    every use of the result is guarded by a truthiness test. *)
Definition findText (p : Node -> bool) (l : list Node) : string :=
  match find p l with
  | Some n => text n
  | None => EmptyString
  end.

Section WithFirst.
Context {A : Type}.
Variable p : Node -> bool.
Variable f : Node -> A.
Variable dflt : A.

(** [x = l.find(p); x ? f(x) : dflt], in a form that lets [f] recurse
    on the node found. *)
Fixpoint withFirst (l : list Node) : A :=
  match l with
  | [] => dflt
  | x :: l' => if p x then f x else withFirst l'
  end.
End WithFirst.

(** ** The grammar-based extractor *)

(** The accumulators the visitor closes over. *)
Record Visit : Type := mkVisit {
  v_symbols : list SymbolInfo;
  v_imports : list ImportEntry;
  v_hasJsx : bool;
  v_jsxElements : list string
}.

Definition emptyVisit : Visit := mkVisit [] [] false [].

Definition pushSymbol (s : SymbolInfo) (v : Visit) : Visit :=
  mkVisit (v_symbols v ++ [s]) (v_imports v) (v_hasJsx v) (v_jsxElements v).

Definition pushImport (i : ImportEntry) (v : Visit) : Visit :=
  mkVisit (v_symbols v) (v_imports v ++ [i]) (v_hasJsx v) (v_jsxElements v).

Definition setHasJsx (v : Visit) : Visit :=
  mkVisit (v_symbols v) (v_imports v) true (v_jsxElements v).

Definition addJsxElement (e : string) (v : Visit) : Visit :=
  mkVisit (v_symbols v) (v_imports v) (v_hasJsx v) (add (v_jsxElements v) e).

(** [{ name, kind: 'function' }] and [{ name, kind: 'class' }]. *)
Definition plainSymbol (n k : string) : SymbolInfo :=
  mkSymbol n k None None None None None None None None None None None.

Definition withExtends (e : string) (s : SymbolInfo) : SymbolInfo :=
  mkSymbol (name s) (kind s) (properties s) (methods s) (Some e)
           (isWidget s) (isStateful s) (isStateless s) (androidComponent s)
           (stateManagement s) (hasTests s) (annotations s) (dependencies s).

Definition withProperties (l : list string) (s : SymbolInfo) : SymbolInfo :=
  mkSymbol (name s) (kind s) (Some l) (methods s) (extends s)
           (isWidget s) (isStateful s) (isStateless s) (androidComponent s)
           (stateManagement s) (hasTests s) (annotations s) (dependencies s).

Definition withMethods (l : list string) (s : SymbolInfo) : SymbolInfo :=
  mkSymbol (name s) (kind s) (properties s) (Some l) (extends s)
           (isWidget s) (isStateful s) (isStateless s) (androidComponent s)
           (stateManagement s) (hasTests s) (annotations s) (dependencies s).

(** [case 'function_declaration']. *)
Definition onFunctionDeclaration (ch : list Node) (v : Visit) : Visit :=
  let funcName := findText (hasType "identifier") ch in
  if truthy funcName then pushSymbol (plainSymbol funcName "function") v else v.

(** [case 'lexical_declaration']. *)
Definition onLexicalDeclaration (ch : list Node) (v : Visit) : Visit :=
  match find (hasType "variable_declarator") ch with
  | Some declarator =>
      let name := findText (hasType "identifier") (children declarator) in
      let value :=
        find (fun n => hasType "arrow_function" n || hasType "function" n)
             (children declarator) in
      match value with
      | Some _ =>
          if truthy name then pushSymbol (plainSymbol name "function") v else v
      | None => v
      end
  | None => v
  end.

(** The test of [case 'export_statement']. *)
Definition isExportedDeclaration (n : Node) : bool :=
  has ["lexical_declaration"; "function_declaration"; "class_declaration"]
      (type n).

(** The superclass read in [case 'class_declaration']. *)
Definition superclassOf (ch : list Node) : string :=
  match find (hasType "class_heritage") ch with
  | Some heritage =>
      match find (hasType "extends_clause") (children heritage) with
      | Some clause => findText (hasType "identifier") (children clause)
      | None => EmptyString
      end
  | None => EmptyString
  end.

Section ClassMembers.
Variable self : Node -> Visit -> Visit.

(** The loop over the members of a class body: the visitor state, the
    collected field names and the collected method names. *)
Fixpoint classMembers (members : list Node)
         (acc : Visit * list string * list string)
  : Visit * list string * list string :=
  match members with
  | [] => acc
  | member :: rest =>
      let '(v, props, meths) := acc in
      classMembers rest
        (if hasType "method_definition" member then
           let methodName :=
             findText (hasType "property_identifier") (children member) in
           if truthy methodName then (v, props, meths ++ [methodName])
           else acc
         else if hasType "public_field_definition" member
                 || hasType "private_field_definition" member then
           let fieldName :=
             findText (hasType "property_identifier") (children member) in
           if truthy fieldName then (v, props ++ [fieldName], meths)
           else acc
         else if hasType "class_declaration" member then
           (self member v, props, meths)
         else acc)
  end.
End ClassMembers.

(** The end of [case 'class_declaration']: the optional member lists are
    attached and the class is pushed. *)
Definition finishClass (classInfo : SymbolInfo)
           (r : Visit * list string * list string) : Visit :=
  let '(v, props, meths) := r in
  let c1 := match props with [] => classInfo | _ => withProperties props classInfo end in
  let c2 := match meths with [] => c1 | _ => withMethods meths c1 end in
  pushSymbol c2 v.

(** [case 'import_statement']. *)
Definition onImportStatement (ch : list Node) (v : Visit) : Visit :=
  let source := slice_1_m1 (findText (hasType "string") ch) in
  if truthy source then
    let specifiers :=
      filter truthy
        (map (fun spec => findText (hasType "identifier") (children spec))
             (filter (hasType "import_specifier") ch)) in
    match specifiers with
    | [] => pushImport (Bare source) v
    | _ => pushImport (Edge source (Some specifiers)) v
    end
  else v.

(** [case 'call_expression']. *)
Definition onCallExpression (ch : list Node) (v : Visit) : Visit :=
  match ch with
  | callee :: rest =>
      if (text callee =? "require")%string then
        match rest with
        | args :: _ =>
            match children args with
            | arg :: _ =>
                if hasType "string" arg
                then pushImport (Bare (slice_1_m1 (text arg))) v
                else v
            | [] => v
            end
        | [] => v
        end
      else v
  | [] => v
  end.

(** The common part of the two element cases: [hasJsx = true] and the
    name test against [WEB_ELEMENTS]. *)
Definition onJsxName (elementName : string) (v : Visit) : Visit :=
  let v' := setHasJsx v in
  if truthy elementName && negb (has WEB_ELEMENTS (toLowerCase elementName))
  then addJsxElement elementName v' else v'.

(** [node.children[0]?.children[0]?.text] *)
Definition jsxElementName (ch : list Node) : string :=
  match ch with
  | opening :: _ =>
      match children opening with
      | n :: _ => text n
      | [] => EmptyString
      end
  | [] => EmptyString
  end.

(** [node.children[0]?.text] *)
Definition jsxSelfClosingName (ch : list Node) : string :=
  match ch with
  | n :: _ => text n
  | [] => EmptyString
  end.

(** [processNode]: the [switch] on the node type, then the unconditional
    recursion into every child. *)
Fixpoint processNode (node : Node) (v : Visit) {struct node} : Visit :=
  match node with
  | mkNode ty _ ch =>
      let v1 :=
        if (ty =? "function_declaration")%string then
          onFunctionDeclaration ch v
        else if (ty =? "lexical_declaration")%string then
          onLexicalDeclaration ch v
        else if (ty =? "export_statement")%string then
          withFirst isExportedDeclaration
                    (fun declaration => processNode declaration v) v ch
        else if (ty =? "class_declaration")%string then
          let className := findText (hasType "identifier") ch in
          if truthy className then
            let classInfo0 := plainSymbol className "class" in
            let superclass := superclassOf ch in
            let classInfo :=
              if truthy superclass then withExtends superclass classInfo0
              else classInfo0 in
            withFirst (hasType "class_body")
              (fun body =>
                 match body with
                 | mkNode _ _ members =>
                     finishClass classInfo
                       (classMembers processNode members (v, [], []))
                 end)
              (pushSymbol classInfo v) ch
          else v
        else if (ty =? "import_statement")%string then
          onImportStatement ch v
        else if (ty =? "call_expression")%string then
          onCallExpression ch v
        else if (ty =? "jsx_element")%string then
          onJsxName (jsxElementName ch) v
        else if (ty =? "jsx_self_closing_element")%string then
          onJsxName (jsxSelfClosingName ch) v
        else if (ty =? "jsx_fragment")%string then
          setHasJsx v
        else v in
      fold_left (fun acc child => processNode child acc) ch v1
  end.


(** ** The heuristic extractors *)

(** [match[n]] for a group that takes part in every match. *)
Definition groupText (cs : caps) (n : nat) : string :=
  match group cs n with
  | Some t => t
  | None => EmptyString
  end.

(** [x || ''] on an optional string. *)
Definition orEmpty (x : option string) : string :=
  match x with
  | Some t => t
  | None => EmptyString
  end.

(** [arr?.push(x)]. *)
Definition optPush {A : Type} (arr : option (list A)) (x : A)
  : option (list A) :=
  match arr with
  | Some l => Some (l ++ [x])
  | None => None
  end.

(** The template literals of the widget tests. *)
Definition statelessPattern (className : string) : string :=
  ("class " ++ className ++ " extends StatelessWidget")%string.
Definition statefulPattern (className : string) : string :=
  ("class " ++ className ++ " extends StatefulWidget")%string.

(** The predicate given to [find] over the state-management registry. *)
Definition stateManagementTest (content : string)
           (extendsClass : option string) (pattern : string) : bool :=
  includes content pattern
  || match extendsClass with
     | Some e => truthy e && includes e pattern
     | None => false
     end.

(** [getDartDependencies]. *)
Definition getDartDependencies (content : string) : list string :=
  fold_left (fun deps m => add deps (groupText m 1))
            (fst (execAll (loopFuel content) dartPackageRegex content 0)) [].

(** The scan for annotations, from the [lastIndex] the shared
    [annotationRegex] object holds: the recognised annotations and the
    [lastIndex] left behind. *)
Definition scanAnnotations (content : string) (lastIndex : nat)
  : list string * nat :=
  let (ms, lastIndex') :=
    execAll (loopFuel content) annotationRegex content lastIndex in
  (filter (has DART_annotations)
          (map (fun m => ("@" ++ groupText m 1)%string) ms),
   lastIndex').

(** The object pushed for one class match of [parseDartFile]. *)
Definition dartClassSymbol (content : string) (m : caps)
           (annotations : list string) : SymbolInfo :=
  let className := groupText m 1 in
  let extendsClass := group m 2 in
  let isWidget :=
    has FLUTTER_WIDGETS (orEmpty extendsClass)
    || includes content (statelessPattern className)
    || includes content (statefulPattern className) in
  let isStateless := includes content (statelessPattern className) in
  let isStateful := includes content (statefulPattern className) in
  let stateManagement :=
    find (stateManagementTest content extendsClass) DART_stateManagement in
  mkSymbol className "class" None None extendsClass
           (Some isWidget) (Some isStateful) (Some isStateless) None
           stateManagement None
           (match annotations with [] => None | _ => Some annotations end)
           (Some (getDartDependencies content)).

(** One turn of the class loop of [parseDartFile]; the state is the
    [symbols] array of the record and [annotationRegex.lastIndex]. *)
Definition dartClassStep (content : string)
           (st : option (list SymbolInfo) * nat) (m : caps)
  : option (list SymbolInfo) * nat :=
  let (syms, annotationLastIndex) := st in
  let (annotations, annotationLastIndex') :=
    scanAnnotations content annotationLastIndex in
  (optPush syms (dartClassSymbol content m annotations),
   annotationLastIndex').

(** One turn of the import loop of [parseDartFile]; the state is the
    [imports] array of the record and the [statePatterns] set. *)
Definition dartImportStep (st : option (list ImportEntry) * list string)
           (m : caps) : option (list ImportEntry) * list string :=
  let (imps, statePatterns) := st in
  let importPath := groupText m 1 in
  let sp1 := if includes importPath "provider" then add statePatterns "Provider" else statePatterns in
  let sp2 := if includes importPath "bloc" then add sp1 "BLoC" else sp1 in
  let sp3 := if includes importPath "get" then add sp2 "GetX" else sp2 in
  let sp4 := if includes importPath "mobx" then add sp3 "MobX" else sp3 in
  let sp5 := if includes importPath "riverpod" then add sp4 "Riverpod" else sp4 in
  (optPush imps (Edge importPath (Some [])), sp5).

(** [parseDartFile]. *)
Definition parseDartFile (filePath content : string) (fileInfo : FileInfo)
  : FileInfo :=
  let isTestFile :=
    includes filePath "_test.dart" || includes filePath ".test.dart" in
  let hasWidgetTests :=
    includes content "testWidgets(" || includes content "WidgetTester" in
  let classMatches := fst (execAll (loopFuel content) dartClassRegex content 0) in
  let syms := fst (fold_left (dartClassStep content) classMatches
                             (symbols fileInfo, 0)) in
  let importMatches := fst (execAll (loopFuel content) dartImportRegex content 0) in
  let (imps, statePatterns) :=
    fold_left dartImportStep importMatches (imports fileInfo, []) in
  mkFileInfo (file fileInfo) syms imps (hasJsx fileInfo)
             (jsxElements fileInfo) (isDartFile fileInfo)
             (isFlutterFile fileInfo) (isAndroidFile fileInfo)
             (androidManifest fileInfo)
             (Some isTestFile) (Some hasWidgetTests)
             (match statePatterns with
              | [] => statePattern fileInfo
              | _ => Some (join ", " statePatterns)
              end).

(** One turn of the class loop of [parseAndroidFile]. *)
Definition androidClassStep (syms : option (list SymbolInfo)) (m : caps)
  : option (list SymbolInfo) :=
  let className := groupText m 1 in
  let extendsClass := group m 2 in
  let androidComponent :=
    if has ANDROID_COMPONENTS (orEmpty extendsClass) then extendsClass
    else None in
  optPush syms
    (mkSymbol className "class" None None extendsClass None None None
              androidComponent None None None None).

(** [parseAndroidFile]. *)
Definition parseAndroidFile (filePath content : string) (fileInfo : FileInfo)
  : FileInfo :=
  let classMatches :=
    fst (execAll (loopFuel content) androidClassRegex content 0) in
  mkFileInfo (file fileInfo)
             (fold_left androidClassStep classMatches (symbols fileInfo))
             (imports fileInfo) (hasJsx fileInfo)
             (jsxElements fileInfo) (isDartFile fileInfo)
             (isFlutterFile fileInfo) (isAndroidFile fileInfo)
             (androidManifest fileInfo) (isTestFile fileInfo)
             (hasWidgetTests fileInfo) (statePattern fileInfo).

(** [parseAndroidManifest]. *)
Definition parseAndroidManifest (content : string) : ManifestInfo :=
  mkManifest
    (match firstMatch packageRegex content with
     | Some packageMatch => group packageMatch 1
     | None => None
     end)
    (map (fun m => groupText m 1)
         (fst (execAll (loopFuel content) componentRegex content 0))).

(** ** The dispatcher and the aggregation loop *)

Section Script.
(** [readFileSync(path, 'utf8')]. *)
Variable readFileSync : string -> string.
(** [jsParser.parse(content).rootNode] and
    [tsParser.parse(content).rootNode]. *)
Variable jsParser : string -> Node.
Variable tsParser : string -> Node.

(** The tail of [parseFile]: what the visitor collected is stored in
    the record. *)
Definition storeVisit (fileInfo : FileInfo) (v : Visit) : FileInfo :=
  mkFileInfo (file fileInfo)
             (match v_symbols v with
              | [] => symbols fileInfo
              | _ => Some (v_symbols v)
              end)
             (match v_imports v with
              | [] => imports fileInfo
              | _ => Some (v_imports v)
              end)
             (if v_hasJsx v then Some true else hasJsx fileInfo)
             (if v_hasJsx v then
                match v_jsxElements v with
                | [] => jsxElements fileInfo
                | _ => Some (v_jsxElements v)
                end
              else jsxElements fileInfo)
             (isDartFile fileInfo) (isFlutterFile fileInfo)
             (isAndroidFile fileInfo) (androidManifest fileInfo)
             (isTestFile fileInfo) (hasWidgetTests fileInfo)
             (statePattern fileInfo).

(** The object literal [parseFile] starts from. *)
Definition initialFileInfo (filePath content ext : string) : FileInfo :=
  mkFileInfo filePath (Some []) (Some []) None None
             (Some (ext =? ".dart")%string)
             (Some ((ext =? ".dart")%string && includes content "package:flutter"))
             (Some (has [".java"; ".kt"; ".xml"] ext))
             None None None None.

(** [fileInfo.androidManifest = m]. *)
Definition setAndroidManifest (m : ManifestInfo) (fileInfo : FileInfo) : FileInfo :=
  mkFileInfo (file fileInfo) (symbols fileInfo) (imports fileInfo)
             (hasJsx fileInfo) (jsxElements fileInfo)
             (isDartFile fileInfo) (isFlutterFile fileInfo)
             (isAndroidFile fileInfo) (Some m)
             (isTestFile fileInfo) (hasWidgetTests fileInfo)
             (statePattern fileInfo).

(** [parseFile]. *)
Definition parseFile (filePath : string) : FileInfo :=
  let content := readFileSync filePath in
  let ext := toLowerCase (extname filePath) in
  let parser := if has [".ts"; ".tsx"] ext then tsParser else jsParser in
  let fileInfo := initialFileInfo filePath content ext in
  if endsWith filePath "AndroidManifest.xml" then
    setAndroidManifest (parseAndroidManifest content) fileInfo
  else if (ext =? ".dart")%string then
    parseDartFile filePath content fileInfo
  else if has [".java"; ".kt"; ".xml"] ext && negb (ext =? ".xml")%string then
    parseAndroidFile filePath content fileInfo
  else storeVisit fileInfo (processNode (parser content) emptyVisit).

(** [arr && arr.length > 0]. *)
Definition nonEmpty {A : Type} (arr : option (list A)) : bool :=
  match arr with
  | Some (_ :: _) => true
  | _ => false
  end.

(** The [hasContent] test of the main loop. *)
Definition hasContent (fileInfo : FileInfo) : bool :=
  nonEmpty (symbols fileInfo)
  || nonEmpty (imports fileInfo)
  || nonEmpty (jsxElements fileInfo).

(** The test under [imports?.some(...)]. *)
Definition importsReact (imp : ImportEntry) : bool :=
  match imp with
  | Bare source => includes source "react"
  | Edge source _ => includes source "react"
  end.

(** The state of the script around the main loop. *)
Record Project : Type := mkProject {
  results : list FileInfo;
  hasReactFiles : bool;
  allCustomElements : list string
}.

Definition emptyProject : Project := mkProject [] false [].

(** The body of the main loop for one discovered file. *)
Definition visitFile (pr : Project) (filePath : string) : Project :=
  let fileInfo := parseFile filePath in
  if hasContent fileInfo then
    mkProject
      (results pr ++ [fileInfo])
      (if orb (match hasJsx fileInfo with Some b => b | None => false end)
              (match imports fileInfo with
               | Some imps => existsb importsReact imps
               | None => false
               end)
       then true else hasReactFiles pr)
      (match jsxElements fileInfo with
       | Some els => fold_left add els (allCustomElements pr)
       | None => allCustomElements pr
       end)
  else pr.

(** The main loop over the files [getJSFiles] yields, in its order;
    the result carries [files], [hasReact] and [customJsxElements] of
    the output. *)
Definition mainLoop (files : list string) : Project :=
  fold_left visitFile files emptyProject.

End Script.

End Mapper.

(* ================================================================== *)
(** * File discovery *)
(* ================================================================== *)

Module Traversal.
Import Js.

(** An entry [readdirSync(dir, { withFileTypes: true })] returns: its
    name and what [isFile()] and [isDirectory()] say.  A directory entry
    carries the entries a later [readdirSync] of that directory returns;
    [Other] is an entry that is neither (a link, a socket). *)
#[warnings="-register-all"]
Inductive Dirent : Type :=
| File (name : string)
| Directory (name : string) (entries : list Dirent)
| Other (name : string).

Definition IGNORE_DIRS : list string :=
  [ "node_modules"; ".git"; "build"; ".dart_tool"; ".pub-cache" ].

Definition ROOT_DIR : string := ".".

(** The extensions [getJSFiles] lets through. *)
Definition DISCOVERED_EXTENSIONS : list string :=
  [ ".js"; ".jsx"; ".ts"; ".tsx"; ".dart"; ".java"; ".kt"; ".xml" ].

(** Node's [path.join(dir, name)] on a normalised [dir] and an entry name
    as [readdirSync] returns it (not empty, no separator, neither [.] nor
    [..]): the two joined by a separator, the leading [.] of the root
    dropped. *)
Definition join (dir name : string) : string :=
  if (dir =? ".")%string then name else (dir ++ "/" ++ name)%string.

(** One turn of the loop of [getJSFiles] over the entries of [dir]. *)
Fixpoint visitEntry (dir : string) (entry : Dirent) : list string :=
  match entry with
  | File name =>
      if has IGNORE_DIRS name then []
      else if has DISCOVERED_EXTENSIONS (toLowerCase (extname name))
           then [join dir name] else []
  | Directory name entries =>
      if has IGNORE_DIRS name then []
      else flat_map (visitEntry (join dir name)) entries
  | Other name => []
  end.

(** [getJSFiles(dir)], given the entries of [dir]: the paths it yields,
    in the order it yields them. *)
Definition getJSFiles (dir : string) (entries : list Dirent) : list string :=
  flat_map (visitEntry dir) entries.

End Traversal.

(* ================================================================== *)
(** * Notions used to state the properties *)
(* ================================================================== *)

Module Props.
Import Js Regex Mapper.

(** The least number of characters a match of [r] consumes. *)
Fixpoint minLen (r : regex) : nat :=
  match r with
  | Lit l => length l
  | Cls _ => 1
  | Plus _ => 1
  | Seq r1 r2 => minLen r1 + minLen r2
  | Opt _ => 0
  | Grp _ r1 => minLen r1
  end.

(** [t] occurs in [s]. *)
Definition infix (t s : string) : Prop :=
  exists pre post, s = (pre ++ t ++ post)%string.


(** The number of nodes of type [t] in a tree. *)
Fixpoint countType (t : string) (n : Node) : nat :=
  match n with
  | mkNode ty _ ch =>
      (if (ty =? t)%string then 1 else 0) + list_sum (map (countType t) ch)
  end.

Definition classDeclarations (root : Node) : nat :=
  countType "class_declaration" root.

(** A tree on which no class declaration is reached twice: it has no
    export statement, no class body with a class declaration as a direct
    member, and every class declaration carries a name. *)
Fixpoint singleVisit (n : Node) : bool :=
  match n with
  | mkNode ty _ ch =>
      negb (ty =? "export_statement")%string
      && (if (ty =? "class_declaration")%string
          then truthy (findText (hasType "identifier") ch) else true)
      && (if (ty =? "class_body")%string
          then forallb (fun c => negb (hasType "class_declaration" c)) ch
          else true)
      && forallb singleVisit ch
  end.

Definition isClassSymbol (s : SymbolInfo) : bool := (kind s =? "class")%string.

Definition classSymbols (l : list SymbolInfo) : nat :=
  List.length (filter isClassSymbol l).

(** An import entry as the output schema wants it: a bare source, or an
    object whose [specifiers] are present and not empty. *)
Definition wellFormedImport (i : ImportEntry) : bool :=
  match i with
  | Bare _ => true
  | Edge _ (Some (_ :: _)) => true
  | Edge _ _ => false
  end.

Definition isNil {A : Type} (l : list A) : bool :=
  match l with
  | [] => true
  | _ :: _ => false
  end.

(** A name is a custom element name when its lower-case form is not in
    [WEB_ELEMENTS]. *)
Definition customName (e : string) : bool :=
  negb (has WEB_ELEMENTS (toLowerCase e)).

(** The elements of an optional array. *)
Definition elems {A : Type} (arr : option (list A)) : list A :=
  match arr with
  | Some l => l
  | None => []
  end.

(** An optional array that is absent or not empty. *)
Definition absentOrNonEmpty {A : Type} (arr : option (list A)) : bool :=
  match arr with
  | Some [] => false
  | _ => true
  end.

(** The optional member lists of a symbol that are absent or not empty. *)
Definition memberListsOk (s : SymbolInfo) : bool :=
  absentOrNonEmpty (properties s) && absentOrNonEmpty (methods s)
  && absentOrNonEmpty (annotations s).

(** A record without symbols, imports and custom element names. *)
Definition noContent (fi : FileInfo) : bool :=
  isNil (elems (symbols fi)) && isNil (elems (imports fi))
  && isNil (elems (jsxElements fi)).

Fixpoint allChars (p : ascii -> bool) (s : string) : bool :=
  match s with
  | EmptyString => true
  | String c s' => p c && allChars p s'
  end.

(** A non-empty text without a double quote: what [[^DQ]+] captures in
    full when a double quote follows. *)
Definition attributeValue (v : string) : bool :=
  truthy v && allChars (noneOf ["034"%char]) v.

(** The literal heads of the two manifest expressions. *)
Definition packageHead : string := ("package=" ++ dq)%string.
Definition componentHead : string := ("android:name=" ++ dq)%string.




(** ** Sample inputs *)

Definition leaf (t x : string) : Node := mkNode t x [].

(** The tree of [export class A {}]. *)
Definition exportClassTree : Node :=
  mkNode "program" "export class A {}"
    [ mkNode "export_statement" "export class A {}"
        [ leaf "export" "export";
          mkNode "class_declaration" "class A {}"
            [ leaf "class" "class";
              leaf "identifier" "A";
              mkNode "class_body" "{}" [ leaf "{" "{"; leaf "}" "}" ] ] ] ].

(** A class declaration that is a direct member of a class body: the
    shape the member loop of [processNode] has its case
    ['class_declaration'] for.  It is not the tree of a script: a class
    body holds methods and fields, and for the text carried here the
    grammar puts the inner class under an error node. *)
Definition nestedClassTree : Node :=
  mkNode "program" "class Outer { class Inner {} }"
    [ mkNode "class_declaration" "class Outer { class Inner {} }"
        [ leaf "class" "class";
          leaf "identifier" "Outer";
          mkNode "class_body" "{ class Inner {} }"
            [ leaf "{" "{";
              mkNode "class_declaration" "class Inner {}"
                [ leaf "class" "class";
                  leaf "identifier" "Inner";
                  mkNode "class_body" "{}" [ leaf "{" "{"; leaf "}" "}" ] ];
              leaf "}" "}" ] ] ].

(** The tree of [function f() {}]. *)
Definition functionTree : Node :=
  mkNode "program" "function f() {}"
    [ mkNode "function_declaration" "function f() {}"
        [ leaf "function" "function";
          leaf "identifier" "f";
          mkNode "formal_parameters" "()" [ leaf "(" "("; leaf ")" ")" ];
          mkNode "statement_block" "{}" [ leaf "{" "{"; leaf "}" "}" ] ] ].

Definition newline : string := String "010"%char EmptyString.

Definition sampleDart : string :=
  ("import 'package:flutter/material.dart';" ++ newline ++
   "class HomePage extends StatefulWidget {}" ++ newline ++
   "class Counter extends ChangeNotifier {}")%string.

(** Both widget patterns for one class name in one text. *)
Definition twoPatternsDart : string :=
  ("class A extends StatelessWidget {}" ++ newline ++
   "// class A extends StatefulWidget")%string.

Definition plainDart : string := "class Point {}".

(** A manifest with a package attribute and two components. *)
Definition manifestOpening : string :=
  ("<manifest xmlns:android=" ++ dq
   ++ "http://schemas.android.com/apk/res/android" ++ dq ++ " ")%string.

Definition manifestApplication : string :=
  (">" ++ newline ++ "<application android:label=" ++ dq ++ "App" ++ dq ++ ">"
   ++ newline ++ "<activity ")%string.

Definition manifestBetween : string :=
  ("/>" ++ newline ++ "<service ")%string.

Definition manifestClosing : string :=
  ("/>" ++ newline ++ "</application></manifest>")%string.

Definition manifestComponents : string :=
  (componentHead ++ ".MainActivity" ++ dq ++ manifestBetween
   ++ componentHead ++ ".SyncService" ++ dq ++ manifestClosing)%string.

Definition sampleManifest : string :=
  (manifestOpening ++ packageHead ++ "com.app" ++ dq
   ++ manifestApplication ++ manifestComponents)%string.

(** The symbol of [HomePage] in [sampleDart]. *)
Definition homePageSymbol : SymbolInfo :=
  mkSymbol "HomePage" "class" None None (Some "StatefulWidget")
           (Some true) (Some true) (Some false) None
           (Some "ChangeNotifier") None None (Some ["flutter"]).

(** The symbol of [Counter] in [sampleDart]. *)
Definition counterSymbol : SymbolInfo :=
  mkSymbol "Counter" "class" None None (Some "ChangeNotifier")
           (Some true) (Some false) (Some false) None
           (Some "ChangeNotifier") None None (Some ["flutter"]).

(** The tree of a script with one self-closing element: the element
    node starts with the token of its opening bracket, and the name is
    its second child. *)
Definition selfClosingTree (tag : string) : Node :=
  mkNode "program" ("<" ++ tag ++ "/>")%string
    [ mkNode "expression_statement" ("<" ++ tag ++ "/>")%string
        [ mkNode "jsx_self_closing_element" ("<" ++ tag ++ "/>")%string
            [ leaf "<" "<"; leaf "identifier" tag; leaf "/>" "/>" ] ] ].

(** Three script files: two use [Foo], one uses [div]. *)
Definition markupFiles (path : string) : string :=
  if (path =? "src/plain.jsx")%string then "<div/>" else "<Foo/>".

(** The parser on the two texts of [markupFiles]. *)
Definition markupParser (content : string) : Node :=
  if (content =? "<div/>")%string then selfClosingTree "div"
  else selfClosingTree "Foo".

(** A file system with one file of each dialect. *)
Definition sampleFiles (path : string) : string :=
  if (path =? "lib/main.dart")%string then sampleDart
  else if (path =? "lib/two.dart")%string then twoPatternsDart
  else if (path =? "lib/point.dart")%string then plainDart
  else if (path =? "app/src/main/AndroidManifest.xml")%string then sampleManifest
  else if (path =? "src/f.js")%string then "function f() {}"
  else if (path =? "src/a.js")%string then "export class A {}"
  else EmptyString.

(** A parser table for the sample files. *)
Definition sampleParser (content : string) : Node :=
  if (content =? "function f() {}")%string then functionTree
  else if (content =? "export class A {}")%string then exportClassTree
  else mkNode "program" content [].

(** The body of [processNode] on a node. *)
Definition switchOn (ty : string) (ch : list Node) (v : Visit) : Visit :=
  if (ty =? "function_declaration")%string then
    onFunctionDeclaration ch v
  else if (ty =? "lexical_declaration")%string then
    onLexicalDeclaration ch v
  else if (ty =? "export_statement")%string then
    withFirst isExportedDeclaration
              (fun declaration => processNode declaration v) v ch
  else if (ty =? "class_declaration")%string then
    let className := findText (hasType "identifier") ch in
    if truthy className then
      let classInfo0 := plainSymbol className "class" in
      let superclass := superclassOf ch in
      let classInfo :=
        if truthy superclass then withExtends superclass classInfo0
        else classInfo0 in
      withFirst (hasType "class_body")
        (fun body =>
           finishClass classInfo
             (classMembers processNode (children body) (v, [], [])))
        (pushSymbol classInfo v) ch
    else v
  else if (ty =? "import_statement")%string then
    onImportStatement ch v
  else if (ty =? "call_expression")%string then
    onCallExpression ch v
  else if (ty =? "jsx_element")%string then
    onJsxName (jsxElementName ch) v
  else if (ty =? "jsx_self_closing_element")%string then
    onJsxName (jsxSelfClosingName ch) v
  else if (ty =? "jsx_fragment")%string then
    setHasJsx v
  else v.

(** [processNode] on [n] keeps the property [I] of the accumulators. *)
Definition keeps (I : Visit -> Prop) (n : Node) : Prop :=
forall v, I v -> I (processNode n v).

Local Open Scope regex_scope.

(** The common shape of [packageRegex] and [componentRegex]. *)
Definition attrRegex (head : string) : regex :=
  Lit head ;; Grp 1 (Plus (noneOf ["034"%char])) ;; Lit dq.

Local Close Scope regex_scope.

End Props.

(* ================================================================== *)
(** * Further notions *)
(* ================================================================== *)

Module MoreProps.
Import Js Regex Mapper Traversal Props.

(** The name of an entry. *)
Definition direntName (e : Dirent) : string :=
  match e with
  | File n => n
  | Directory n _ => n
  | Other n => n
  end.

(** A name as [readdirSync] returns it: not empty, without separator,
    neither [.] nor [..]. *)
Definition entryName (n : string) : bool :=
  truthy n && allChars (noneOf ["/"%char]) n
  && negb (n =? ".")%string && negb (n =? "..")%string.

(** A directory listing all of whose names, at every depth, are entry
    names. *)
Fixpoint wellNamed (e : Dirent) : bool :=
  match e with
  | File n => entryName n
  | Directory n es => entryName n && forallb wellNamed es
  | Other n => entryName n
  end.

(** The segments of a path: the texts between its separators. *)
Fixpoint segmentsFrom (cur : string) (s : string) : list string :=
  match s with
  | EmptyString => [cur]
  | String c s' =>
      if Ascii.eqb c "/"%char then cur :: segmentsFrom EmptyString s'
      else segmentsFrom (cur ++ String c EmptyString)%string s'
  end.

Definition segments (path : string) : list string :=
  segmentsFrom EmptyString path.

(** The segments [join] keeps of the directory it is given. *)
Definition dirSegments (dir : string) : list string :=
  if (dir =? ".")%string then [] else segments dir.

(** A non-empty text of word characters. *)
Definition wordText (s : string) : bool := truthy s && allChars word s.

(** Every capture group of [r] is a [+] on a character class. *)
Fixpoint simpleGroups (r : regex) : bool :=
  match r with
  | Grp _ (Plus _) => true
  | Grp _ _ => false
  | Seq r1 r2 => simpleGroups r1 && simpleGroups r2
  | Opt r1 => simpleGroups r1
  | _ => true
  end.

(** The capture groups of [r] with their character classes. *)
Fixpoint groupClasses (r : regex) : list (nat * (ascii -> bool)) :=
  match r with
  | Grp n (Plus p) => [(n, p)]
  | Grp _ r1 => groupClasses r1
  | Seq r1 r2 => groupClasses r1 ++ groupClasses r2
  | Opt r1 => groupClasses r1
  | _ => []
  end.

(** The capture groups every match of [r] fills. *)
Fixpoint mandatoryGroups (r : regex) : list nat :=
  match r with
  | Grp n r1 => n :: mandatoryGroups r1
  | Seq r1 r2 => mandatoryGroups r1 ++ mandatoryGroups r2
  | _ => []
  end.

(** A capture as an expression with simple groups makes it: a non-empty
    text of the class of its group. *)
Definition classCapture (r : regex) (n : nat) (t : string) : Prop :=
  exists p, In (n, p) (groupClasses r) /\ truthy t = true /\ allChars p t = true.

(** What is known of a match of an expression with simple groups. *)
Definition matchOk (r : regex) (m : caps) : Prop :=
  (forall n t, In (n, t) m -> classCapture r n t)
  /\ (forall n, In n (mandatoryGroups r) -> group m n <> None).

(** The test of the main loop for a file that uses the markup framework. *)
Definition usesReact (fi : FileInfo) : bool :=
  orb (match hasJsx fi with Some b => b | None => false end)
      (match imports fi with
       | Some imps => existsb importsReact imps
       | None => false
       end).

(** The fragments of import paths [parseDartFile] looks for, with the
    pattern names it records for them, in the order of its tests. *)
Definition statePatternTable : list (string * string) :=
  [ ("provider", "Provider"); ("bloc", "BLoC"); ("get", "GetX");
    ("mobx", "MobX"); ("riverpod", "Riverpod") ].

(** An absent field. *)
Definition absent {A : Type} (x : option A) : bool :=
  match x with
  | None => true
  | Some _ => false
  end.

(** An optional text that is absent or not empty. *)
Definition absentOrTruthy (x : option string) : bool :=
  match x with
  | None => true
  | Some t => truthy t
  end.

(** A symbol as the grammar-based extractor builds it: a non-empty name,
    kind [function] or [class], no field of the heuristic extractors,
    non-empty member and superclass names, and no class-only field on a
    function. *)
Definition grammarSymbol (s : SymbolInfo) : bool :=
  truthy (name s)
  && ((kind s =? "function")%string || (kind s =? "class")%string)
  && absent (isWidget s) && absent (isStateful s) && absent (isStateless s)
  && absent (androidComponent s) && absent (stateManagement s)
  && absent (hasTests s) && absent (annotations s) && absent (dependencies s)
  && forallb truthy (elems (properties s))
  && forallb truthy (elems (methods s))
  && absentOrTruthy (extends s)
  && (if (kind s =? "function")%string
      then absent (properties s) && absent (methods s) && absent (extends s)
      else true).

(** An import entry as the grammar-based extractor builds it: a bare
    source, or an object with a non-empty source and a non-empty list of
    non-empty names. *)
Definition grammarImport (i : ImportEntry) : bool :=
  match i with
  | Bare _ => true
  | Edge source (Some (x :: l)) => truthy source && forallb truthy (x :: l)
  | Edge _ _ => false
  end.

(** An optional text that is absent or a non-empty text of word
    characters. *)
Definition absentOrWord (x : option string) : bool :=
  match x with
  | None => true
  | Some t => wordText t
  end.

(** The object [parseAndroidFile] pushes for one class match. *)
Definition androidSymbol (m : caps) : SymbolInfo :=
  mkSymbol (groupText m 1) "class" None None (group m 2) None None None
           (if has ANDROID_COMPONENTS (orEmpty (group m 2)) then group m 2
            else None)
           None None None None.

(** A symbol as the platform-language extractor builds it: a class whose
    name and superclass are words, with no member list and no field of
    the widget-language extractor. *)
Definition platformSymbol (s : SymbolInfo) : bool :=
  wordText (name s) && (kind s =? "class")%string && absentOrWord (extends s)
  && absent (properties s) && absent (methods s)
  && absent (isWidget s) && absent (isStateful s) && absent (isStateless s)
  && absent (stateManagement s) && absent (hasTests s)
  && absent (annotations s) && absent (dependencies s).

(** A symbol as the widget-language extractor builds it: a class whose
    name and superclass are words, with the three widget flags and the
    dependencies present, and no member list and no platform component. *)
Definition widgetSymbol (s : SymbolInfo) : bool :=
  wordText (name s) && (kind s =? "class")%string && absentOrWord (extends s)
  && absent (properties s) && absent (methods s)
  && negb (absent (isWidget s)) && negb (absent (isStateful s))
  && negb (absent (isStateless s)) && negb (absent (dependencies s))
  && absent (androidComponent s) && absent (hasTests s).

(** The value of a flag, an absent flag read as false. *)
Definition flag (x : option bool) : bool :=
  match x with
  | Some b => b
  | None => false
  end.

(** The source of an import entry. *)
Definition importSource (i : ImportEntry) : string :=
  match i with
  | Bare source => source
  | Edge source _ => source
  end.

(** The Java file of the sample inputs: its first symbol. *)
Definition mainActivitySymbol : SymbolInfo :=
  mkSymbol "MainActivity" "class" None None (Some "Activity") None None None
           (Some "Activity") None None None None.

(** ** More sample inputs *)

Definition sampleJava : string :=
  ("package com.app;" ++ newline ++
   "public class MainActivity extends Activity {}" ++ newline ++
   "class Helper extends Base implements Runnable {}")%string.

Definition annotatedDart : string :=
  ("import 'package:provider/provider.dart';" ++ newline ++
   "import 'package:flutter/widgets.dart';" ++ newline ++
   "@immutable" ++ newline ++
   "class A extends StatelessWidget { @override build() {} }" ++ newline ++
   "@Injectable class B {}")%string.

Definition moreFiles (path : string) : string :=
  if (path =? "app/src/MainActivity.java")%string then sampleJava
  else if (path =? "lib/a.dart")%string then annotatedDart
  else sampleFiles path.

(** The first symbol of [annotatedDart]. *)
Definition annotatedSymbol : SymbolInfo :=
  mkSymbol "A" "class" None None (Some "StatelessWidget")
           (Some true) (Some false) (Some true) None None None
           (Some ["@immutable"; "@override"]) (Some ["provider"; "flutter"]).

(** Some source of [sources] contains the fragment [frag]. *)
Definition patternFound (sources : list string) (frag : string) : bool :=
  existsb (fun src => includes src frag) sources.

(** The pattern names recorded for [sources]: the names of the table
    one of whose fragments is found. *)
Definition patternName (sources : list string) (n : string) : Prop :=
  exists frag, In (frag, n) statePatternTable /\ patternFound sources frag = true.

(** Accumulators as the grammar-based extractor fills them. *)
Definition grammarVisit (v : Visit) : bool :=
  forallb grammarSymbol (v_symbols v) && forallb grammarImport (v_imports v)
  && forallb truthy (v_jsxElements v).

(** The paths [parseFile] hands to the grammar-based extractor: every
    path that is not a manifest and has none of the extensions [.dart],
    [.java] and [.kt]; an [.xml] file other than a manifest is one. *)
Definition grammarPath (filePath : string) : bool :=
  negb (endsWith filePath "AndroidManifest.xml")
  && negb (has [".dart"; ".java"; ".kt"] (toLowerCase (extname filePath))).

(** [packageImportAt content n rest]: the first [package:] of [content]
    stands in an import directive, after the word [import], white space
    and a quote; the package name [n] follows it and ends before the
    slash or quote that starts [rest]. *)
Definition packageImportAt (content n rest : string) : Prop :=
  exists (before w : string) (q d : ascii) (rest' : string),
    content
    = (before ++ "import" ++ w ++ String q ("package:" ++ n ++ rest))%string
    /\ rest = String d rest'
    /\ includes before "package:" = false
    /\ truthy w = true /\ allChars ws w = true
    /\ oneOf quote2 q = true
    /\ truthy n = true /\ allChars (noneOf ("/"%char :: quote2)) n = true
    /\ oneOf ("/"%char :: quote2) d = true.

(** Every [package:] of the text stands in such an import directive, and
    the package names of these directives are [names], in source
    order. *)
Fixpoint packageImports (content : string) (names : list string) : Prop :=
  match names with
  | [] => includes content "package:" = false
  | n :: names' =>
      exists rest, packageImportAt content n rest /\ packageImports rest names'
  end.

(** A character other than the letter [i]. *)
Definition notI (c : ascii) : bool := negb (Ascii.eqb c "i"%char).

(** The node types [processNode] has a case for. *)
Definition visitedTypes : list string :=
  [ "function_declaration"; "lexical_declaration"; "export_statement";
    "class_declaration"; "import_statement"; "call_expression";
    "jsx_element"; "jsx_self_closing_element"; "jsx_fragment" ].

(** A tree without a node of one of these types. *)
Fixpoint plainTree (n : Node) : bool :=
  match n with
  | mkNode ty _ ch => negb (has visitedTypes ty) && forallb plainTree ch
  end.

(** The parser [parseFile] chooses for a path. *)
Definition parserFor (jsParser tsParser : string -> Node) (filePath : string)
  : string -> Node :=
  if has [".ts"; ".tsx"] (toLowerCase (extname filePath)) then tsParser
  else jsParser.

(** A project tree: sources, an ignored directory and a linked entry. *)
Definition sampleTree : list Dirent :=
  [ Directory "src" [ File "index.TS"; File "notes.md"; Other "link.js" ];
    Directory "node_modules" [ Directory "pkg" [ File "index.js" ] ];
    Directory "android"
      [ Directory "build" [ File "Gen.java" ];
        Directory "app" [ File "AndroidManifest.xml"; File "Main.kt" ] ];
    File "main.dart" ].

End MoreProps.

(* ================================================================== *)
(** * Facts about strings *)
(* ================================================================== *)

Module StringFacts.
Import Js Props.

Lemma append_empty_r (s : string) : (s ++ "")%string = s.
Proof. induction s as [|c s IH]; simpl; [reflexivity | now rewrite IH]. Qed.

Lemma append_assoc (s t u : string) :
  ((s ++ t) ++ u)%string = (s ++ t ++ u)%string.
Proof. induction s as [|c s IH]; simpl; [reflexivity | now rewrite IH]. Qed.

Lemma length_append (s t : string) :
  length (s ++ t) = length s + length t.
Proof. induction s as [|c s IH]; simpl; [reflexivity | now rewrite IH]. Qed.

Lemma prefix_iff (p s : string) :
  prefix p s = true <-> exists t, s = (p ++ t)%string.
Proof.
  revert s. induction p as [|a p IH]; intros s; simpl.
  - destruct s; split; intros; eauto.
  - destruct s as [|b s].
    + split; [discriminate | intros [t Ht]; discriminate].
    + simpl. destruct (ascii_dec a b) as [Heq|Hne].
      * subst a. rewrite IH. split; intros [t Ht]; exists t.
        -- now rewrite Ht.
        -- now inversion Ht.
      * split; [discriminate | intros [t Ht]; congruence].
Qed.

Lemma prefix_app (p t : string) : prefix p (p ++ t) = true.
Proof. apply prefix_iff. now exists t. Qed.

Lemma includes_iff (s p : string) : includes s p = true <-> infix p s.
Proof.
  induction s as [|c s IH]; cbn [includes].
  - rewrite orb_false_r, prefix_iff. split.
    + intros [t Ht]. exists EmptyString, t. exact Ht.
    + intros [pre [post H]]. destruct pre; simpl in H.
      * now exists post.
      * discriminate.
  - rewrite orb_true_iff, prefix_iff, IH. split.
    + intros [[t Ht] | [pre [post H]]].
      * exists EmptyString, t. exact Ht.
      * exists (String c pre), post. simpl. now rewrite H.
    + intros [pre [post H]]. destruct pre as [|a pre]; simpl in H.
      * left. now exists post.
      * right. inversion H. now exists pre, post.
Qed.


Lemma infix_trans (a b c : string) : infix a b -> infix b c -> infix a c.
Proof.
  intros [p1 [q1 H1]] [p2 [q2 H2]]. subst.
  exists (p2 ++ p1)%string, (q1 ++ q2)%string.
  now rewrite !append_assoc.
Qed.

Lemma infix_app_r (t u s : string) : infix t s -> infix t (u ++ s).
Proof.
  intros [pre [post H]]. subst. exists (u ++ pre)%string, post.
  now rewrite append_assoc.
Qed.

Lemma infix_app_l (t s u : string) : infix t s -> infix t (s ++ u).
Proof.
  intros [pre [post H]]. subst. exists pre, (post ++ u)%string.
  now rewrite !append_assoc.
Qed.

Lemma includes_mono (s t p : string) :
  infix t s -> includes t p = true -> includes s p = true.
Proof.
  intros Hts Hp. apply includes_iff. apply includes_iff in Hp.
  eapply infix_trans; eassumption.
Qed.

Lemma drop_app_length (u v : string) : drop (length u) (u ++ v) = v.
Proof. induction u as [|c u IH]; simpl; [now destruct v | exact IH]. Qed.

Lemma drop_split (n : nat) (s : string) :
  exists u, s = (u ++ drop n s)%string /\ length u = Nat.min n (length s).
Proof.
  revert s. induction n as [|n IH]; intros s.
  - exists EmptyString. split; [now destruct s | reflexivity].
  - destruct s as [|c s]; simpl.
    + exists EmptyString. now split.
    + destruct (IH s) as [u [Hu Hl]]. exists (String c u). simpl.
      split; [now rewrite <- Hu | now rewrite Hl].
Qed.

Lemma drop_length_suffix (u v : string) :
  drop (length (u ++ v) - length v) (u ++ v) = v.
Proof.
  rewrite length_append.
  replace (length u + length v - length v) with (length u) by lia.
  apply drop_app_length.
Qed.

Lemma substring_0_app (u v : string) : substring 0 (length u) (u ++ v) = u.
Proof.
  induction u as [|c u IH]; simpl.
  - now destruct v.
  - now rewrite IH.
Qed.

Lemma append_eq_append (p x l w : string) :
  (p ++ x)%string = (l ++ w)%string ->
  (exists d, l = (p ++ d)%string /\ x = (d ++ w)%string)
  \/ (exists d, p = (l ++ d)%string /\ w = (d ++ x)%string).
Proof.
  revert l. induction p as [|a p IH]; intros l H; simpl in H.
  - left. exists l. now split.
  - destruct l as [|b l]; simpl in H.
    + right. exists (String a p). now split.
    + inversion H; subst. destruct (IH l H2) as [[d [H3 H4]] | [d [H3 H4]]].
      * left. exists d. simpl. now rewrite H3.
      * right. exists d. simpl. now rewrite H3.
Qed.

Lemma append_inj_l (u v w : string) :
  (u ++ v)%string = (u ++ w)%string -> v = w.
Proof. induction u as [|c u IH]; simpl; intros H; [exact H | inversion H; auto]. Qed.



End StringFacts.

(* ================================================================== *)
(** * Facts about the matcher and the [exec] loops *)
(* ================================================================== *)

Module RegexFacts.
Import Js Regex Props StringFacts.

Lemma consumed_app (u v : string) : consumed (u ++ v) v = u.
Proof.
  unfold consumed. rewrite length_append.
  replace (length u + length v - length v) with (length u) by lia.
  apply substring_0_app.
Qed.

Lemma stripPrefix_app (l s : string) : stripPrefix l (l ++ s) = Some s.
Proof.
  induction l as [|a l IH]; simpl; [reflexivity|].
  now rewrite Ascii.eqb_refl.
Qed.

Lemma stripPrefix_some (l s s' : string) :
  stripPrefix l s = Some s' -> s = (l ++ s')%string.
Proof.
  revert s. induction l as [|a l IH]; intros s H; simpl in H.
  - now inversion H.
  - destruct s as [|b s]; [discriminate|].
    destruct (Ascii.eqb a b) eqn:E; [|discriminate].
    apply Ascii.eqb_eq in E. subst b. simpl. f_equal. now apply IH.
Qed.

Lemma stripPrefix_none (l s : string) :
  prefix l s = false -> stripPrefix l s = None.
Proof.
  intros H. destruct (stripPrefix l s) as [s'|] eqn:E; [|reflexivity].
  apply stripPrefix_some in E. subst s. now rewrite prefix_app in H.
Qed.

Lemma group_In (cs : caps) (n : nat) (t : string) :
  group cs n = Some t -> In (n, t) cs.
Proof.
  induction cs as [|[m x] cs IH]; simpl; [discriminate|].
  destruct (Nat.eqb m n) eqn:E.
  - intros H. inversion H. apply Nat.eqb_eq in E. subst. now left.
  - intros H. right. now apply IH.
Qed.

Section Continuations.
Variable R : Type.

Lemma star_inv (p : ascii -> bool) (k : string -> option R)
      (s : string) (res : R) :
  star p s k = Some res ->
  exists u s', s = (u ++ s')%string /\ k s' = Some res.
Proof.
  induction s as [|c s IH]; simpl.
  - intros H. now exists EmptyString, EmptyString.
  - destruct (p c).
    + destruct (star p s k) as [r|] eqn:E.
      * intros H. inversion H; subst r.
        destruct (IH eq_refl) as [u [s' [Hs Hk]]].
        exists (String c u), s'. simpl. now rewrite <- Hs.
      * intros H. now exists EmptyString, (String c s).
    + intros H. now exists EmptyString, (String c s).
Qed.

(** A successful run consumed a prefix [u] of at least [minLen r]
    characters before calling its continuation, and every capture it
    passes on is old or a piece of the text it ran on. *)
Lemma run_inv (r : regex) :
  forall (s : string) (cs : caps) (k : string -> caps -> option R) (res : R),
    run r s cs k = Some res ->
    exists u s' cs',
      s = (u ++ s')%string /\ minLen r <= length u /\
      k s' cs' = Some res /\
      (forall n t, In (n, t) cs' -> In (n, t) cs \/ infix t s).
Proof.
  induction r as [l | p | p | r1 IH1 r2 IH2 | r1 IH1 | n r1 IH1];
    intros s cs k res H; simpl in H.
  - destruct (stripPrefix l s) as [s'|] eqn:E; [|discriminate].
    apply stripPrefix_some in E. exists l, s', cs.
    repeat split; auto.
  - destruct s as [|c s']; [discriminate|].
    destruct (p c); [|discriminate].
    exists (String c EmptyString), s', cs. simpl. repeat split; auto.
  - unfold plus in H. destruct s as [|c s0]; [discriminate|].
    destruct (p c); [|discriminate].
    apply star_inv in H. destruct H as [u [s' [Hs Hk]]].
    exists (String c u), s', cs. simpl. rewrite <- Hs.
    repeat split; auto. lia.
  - apply IH1 in H. destruct H as [u1 [s1 [cs1 [Hs1 [Hl1 [Hk1 Hc1]]]]]].
    apply IH2 in Hk1. destruct Hk1 as [u2 [s2 [cs2 [Hs2 [Hl2 [Hk2 Hc2]]]]]].
    exists (u1 ++ u2)%string, s2, cs2. simpl.
    rewrite append_assoc, <- Hs2, <- Hs1, length_append.
    repeat split; auto; [lia|].
    intros m t Hin. destruct (Hc2 m t Hin) as [Hold | Hinf].
    + now apply Hc1.
    + right. rewrite Hs1. now apply infix_app_r.
  - destruct (run r1 s cs k) as [res'|] eqn:E.
    + inversion H; subst res'. apply IH1 in E.
      destruct E as [u [s' [cs' [Hs [_ [Hk Hc]]]]]].
      exists u, s', cs'. simpl. repeat split; auto. lia.
    + exists EmptyString, s, cs. simpl. repeat split; auto.
  - apply IH1 in H. destruct H as [u [s' [cs' [Hs [Hl [Hk Hc]]]]]].
    exists u, s', ((n, consumed s s') :: cs'). simpl.
    repeat split; auto.
    intros m t [Heq | Hin].
    + inversion Heq; subst m t. right. rewrite Hs at 1.
      rewrite consumed_app. rewrite Hs.
      exists EmptyString, s'. reflexivity.
    + now apply Hc.
Qed.
End Continuations.

Lemma matchAt_inv (r : regex) (s rest : string) (cs : caps) :
  matchAt r s = Some (cs, rest) ->
  exists u, s = (u ++ rest)%string /\ minLen r <= length u /\
            (forall n t, In (n, t) cs -> infix t s).
Proof.
  unfold matchAt. intros H. apply run_inv in H.
  destruct H as [u [s' [cs' [Hs [Hl [Hk Hc]]]]]].
  inversion Hk; subst cs' s'. exists u. repeat split; auto.
  intros n t Hin. destruct (Hc n t Hin) as [[] | Hi]. exact Hi.
Qed.

Lemma search_inv (r : regex) (s rest : string) (cs : caps) :
  search r s = Some (cs, rest) ->
  exists u, s = (u ++ rest)%string /\ minLen r <= length u /\
            (forall n t, In (n, t) cs -> infix t s).
Proof.
  induction s as [|c s IH]; simpl.
  - destruct (matchAt r EmptyString) as [res|] eqn:E; [|discriminate].
    intros H. inversion H; subst res. now apply matchAt_inv.
  - destruct (matchAt r (String c s)) as [res|] eqn:E.
    + intros H. inversion H; subst res. now apply matchAt_inv.
    + intros H. destruct (IH H) as [u [Hs [Hl Hc]]].
      exists (String c u). simpl. rewrite <- Hs. repeat split; auto.
      intros n t Hin. apply (infix_app_r t (String c EmptyString) s).
      exact (Hc n t Hin).
Qed.

(** A match found by [exec] moves [lastIndex] forward and its captures
    are pieces of the content. *)
Lemma exec_some (r : regex) (content : string) (li li' : nat) (cs : caps) :
  0 < minLen r ->
  exec r content li = (Some cs, li') ->
  li < li' /\ li' <= length content /\
  (forall n t, In (n, t) cs -> infix t content).
Proof.
  intros Hpos. unfold exec.
  destruct (length content <? li) eqn:Hli; [discriminate|].
  apply Nat.ltb_ge in Hli.
  destruct (search r (drop li content)) as [[cs' rest]|] eqn:E; [|discriminate].
  intros H. inversion H; subst cs' li'. clear H.
  apply search_inv in E. destruct E as [u [Hs [Hl Hc]]].
  destruct (drop_split li content) as [v [Hv Hlv]].
  assert (Hlen : length content = length v + (length u + length rest)).
  { rewrite Hv at 1. rewrite length_append, Hs, length_append. reflexivity. }
  rewrite Nat.min_l in Hlv by exact Hli.
  repeat split; [lia | lia |].
  intros n t Hin. rewrite Hv. apply infix_app_r. exact (Hc n t Hin).
Qed.

Lemma exec_none (r : regex) (content : string) (li li' : nat) :
  exec r content li = (None, li') -> li' = 0.
Proof.
  unfold exec. destruct (length content <? li).
  - intros H. now inversion H.
  - destruct (search r (drop li content)) as [[cs rest]|].
    + discriminate.
    + intros H. now inversion H.
Qed.

(** Fuel above the distance of [lastIndex] to the end of the content is
    never used up: the loop gives the same matches with any such fuel. *)
Lemma execAll_stable (r : regex) (content : string) :
  0 < minLen r ->
  forall f1 f2 li,
    length content - li < f1 -> length content - li < f2 ->
    execAll f1 r content li = execAll f2 r content li.
Proof.
  intros Hpos. induction f1 as [|f1 IH]; intros f2 li H1 H2; [lia|].
  destruct f2 as [|f2]; [lia|]. simpl.
  destruct (exec r content li) as [[cs|] li'] eqn:E; [|reflexivity].
  destruct (exec_some _ _ _ _ _ Hpos E) as [Hlt [Hle _]].
  rewrite (IH f2 li'); [reflexivity | lia | lia].
Qed.

(** The loop equation at the fuel the script's loops are run with. *)
Lemma execAll_step (r : regex) (content : string) (li : nat) :
  0 < minLen r ->
  execAll (loopFuel content) r content li =
  match exec r content li with
  | (Some cs, li') =>
      let (ms, final) := execAll (loopFuel content) r content li' in
      (cs :: ms, final)
  | (None, li') => ([], li')
  end.
Proof.
  intros Hpos.
  change (execAll (loopFuel content) r content li)
    with (match exec r content li with
          | (Some cs, li') =>
              let (ms, final) := execAll (S (length content)) r content li' in
              (cs :: ms, final)
          | (None, li') => ([], li')
          end).
  destruct (exec r content li) as [[cs|] li'] eqn:E; [|reflexivity].
  rewrite (execAll_stable r content Hpos (S (length content)) (loopFuel content) li');
    [reflexivity | lia | unfold loopFuel; lia].
Qed.

(** With the fuel of the script's loops the loop ends on a failed
    [exec], which leaves [lastIndex] at 0. *)
Lemma execAll_final (r : regex) (content : string) :
  0 < minLen r ->
  forall f li, length content - li < f -> snd (execAll f r content li) = 0.
Proof.
  intros Hpos. induction f as [|f IH]; intros li Hf; [lia|]. simpl.
  destruct (exec r content li) as [[cs|] li'] eqn:E.
  - destruct (exec_some _ _ _ _ _ Hpos E) as [Hlt [Hle _]].
    specialize (IH li'). destruct (execAll f r content li') as [ms final].
    simpl in *. apply IH. lia.
  - simpl. now apply exec_none in E.
Qed.

(** More fuel than [loopFuel] changes nothing: the loops of the script
    run to their end. *)
Lemma execAll_fuel (r : regex) (content : string) (li fuel : nat) :
  0 < minLen r ->
  loopFuel content <= fuel ->
  execAll fuel r content li = execAll (loopFuel content) r content li.
Proof.
  intros Hpos Hf. apply execAll_stable; [exact Hpos | | ]; unfold loopFuel in *; lia.
Qed.

(** Every capture of every match of the loop is a piece of the content. *)
Lemma execAll_infix (r : regex) (content : string) :
  0 < minLen r ->
  forall f li m n t,
    In m (fst (execAll f r content li)) -> In (n, t) m -> infix t content.
Proof.
  intros Hpos. induction f as [|f IH]; intros li m n t; simpl; [tauto|].
  destruct (exec r content li) as [[cs|] li'] eqn:E; [|simpl; tauto].
  destruct (exec_some _ _ _ _ _ Hpos E) as [_ [_ Hc]].
  specialize (IH li' m n t).
  destruct (execAll f r content li') as [ms final]. simpl in *.
  intros [Heq | Hin] Hcap.
  - subst m. now apply (Hc n t).
  - now apply IH.
Qed.

End RegexFacts.

(* ================================================================== *)
(** * Facts about the visitor *)
(* ================================================================== *)

Module VisitFacts.
Import Js Regex Mapper Props.

(** Induction on syntax trees, with the hypothesis on every child. *)
Lemma Node_induction (P : Node -> Prop) :
  (forall ty tx ch, Forall P ch -> P (mkNode ty tx ch)) ->
  forall n, P n.
Proof.
  intros step. fix self 1. intros [ty tx ch]. apply step.
  induction ch as [|c ch IH]; constructor; [apply self | exact IH].
Qed.

Lemma withFirst_ext {A : Type} (p : Node -> bool) (f g : Node -> A)
      (d : A) (l : list Node) :
  (forall x, f x = g x) -> withFirst p f d l = withFirst p g d l.
Proof.
  intros H. induction l as [|x l IH]; simpl; [reflexivity|].
  now rewrite H, IH.
Qed.

(** [withFirst] is [find] followed by the call. *)
Lemma withFirst_find {A : Type} (p : Node -> bool) (f : Node -> A)
      (d : A) (l : list Node) :
  withFirst p f d l = match find p l with Some x => f x | None => d end.
Proof.
  induction l as [|x l IH]; simpl; [reflexivity|].
  destruct (p x); [reflexivity | exact IH].
Qed.

Lemma processNode_eq (ty tx : string) (ch : list Node) (v : Visit) :
  processNode (mkNode ty tx ch) v =
  fold_left (fun acc child => processNode child acc) ch (switchOn ty ch v).
Proof.
  cbn [processNode]. unfold switchOn. f_equal.
  repeat match goal with
         | |- (if ?c then _ else _) = (if ?c then _ else _) =>
             destruct c; [reflexivity|]
         end.
  destruct ((ty =? "class_declaration")%string); [|reflexivity].
  cbv zeta.
  destruct (truthy (findText (hasType "identifier") ch)); [|reflexivity].
  apply withFirst_ext. intros [t x m]. reflexivity.
Qed.

Section Invariant.
Variable I : Visit -> Prop.
Variable S : SymbolInfo -> Prop.
Hypothesis S_plain : forall n k, S (plainSymbol n k).
Hypothesis S_extends : forall e s, S s -> S (withExtends e s).
Hypothesis S_properties : forall x l s, S s -> S (withProperties (x :: l) s).
Hypothesis S_methods : forall x l s, S s -> S (withMethods (x :: l) s).
Hypothesis I_pushSymbol : forall s v, S s -> I v -> I (pushSymbol s v).
Hypothesis I_pushImport :
  forall i v, wellFormedImport i = true -> I v -> I (pushImport i v).
Hypothesis I_setHasJsx : forall v, I v -> I (setHasJsx v).
Hypothesis I_addJsxElement :
  forall e v, customName e = true -> I v -> I (addJsxElement e v).

Local Abbreviation keepsI := (keeps I).

Lemma classMembers_keeps (members : list Node) :
  Forall keepsI members ->
  forall acc, I (fst (fst acc)) ->
              I (fst (fst (classMembers processNode members acc))).
Proof.
  induction 1 as [|m members Hm _ IH]; intros [[v props] meths] Hv;
    simpl; [exact Hv|].
  apply IH.
  repeat match goal with
         | |- context [if ?c then _ else _] => destruct c
         end; simpl; auto.
Qed.

Lemma finishClass_keeps (c : SymbolInfo) (r : Visit * list string * list string) :
  S c -> I (fst (fst r)) -> I (finishClass c r).
Proof.
  destruct r as [[v props] meths]. simpl. intros Hc Hv.
  apply I_pushSymbol; [|exact Hv].
  destruct props as [|x props]; destruct meths as [|y meths]; auto.
Qed.

Lemma onImportStatement_keeps (ch : list Node) (v : Visit) :
  I v -> I (onImportStatement ch v).
Proof.
  intros Hv. unfold onImportStatement.
  destruct (truthy _); [|exact Hv].
  destruct (filter truthy _) as [|x l]; now apply I_pushImport.
Qed.

Lemma onCallExpression_keeps (ch : list Node) (v : Visit) :
  I v -> I (onCallExpression ch v).
Proof.
  intros Hv. unfold onCallExpression.
  destruct ch as [|callee rest]; [exact Hv|].
  destruct (text callee =? "require")%string; [|exact Hv].
  destruct rest as [|args rest]; [exact Hv|].
  destruct (children args) as [|arg l]; [exact Hv|].
  destruct (hasType "string" arg); [|exact Hv].
  now apply I_pushImport.
Qed.

Lemma onJsxName_keeps (e : string) (v : Visit) :
  I v -> I (onJsxName e v).
Proof.
  intros Hv. unfold onJsxName.
  destruct (truthy e && negb (has WEB_ELEMENTS (toLowerCase e))) eqn:E.
  - apply andb_true_iff in E. destruct E as [_ E].
    apply I_addJsxElement; [exact E | now apply I_setHasJsx].
  - now apply I_setHasJsx.
Qed.

Lemma classBody_keeps (c : SymbolInfo) (ch : list Node) (v : Visit) :
  S c ->
  Forall (fun c => keepsI c /\ Forall keepsI (children c)) ch ->
  I v ->
  I (withFirst (hasType "class_body")
       (fun body =>
          finishClass c (classMembers processNode (children body) (v, [], [])))
       (pushSymbol c v) ch).
Proof.
  intros Hc Hch Hv.
  induction Hch as [|b ch [_ Hm] _ IH]; simpl.
  - now apply I_pushSymbol.
  - destruct (hasType "class_body" b); [|exact IH].
    apply finishClass_keeps; [exact Hc|]. now apply classMembers_keeps.
Qed.

Lemma switchOn_keeps (ty : string) (ch : list Node) (v : Visit) :
  Forall (fun c => keepsI c /\ Forall keepsI (children c)) ch ->
  I v -> I (switchOn ty ch v).
Proof.
  intros Hch Hv. unfold switchOn.
  destruct (ty =? "function_declaration")%string.
  { unfold onFunctionDeclaration. destruct (truthy _); auto. }
  destruct (ty =? "lexical_declaration")%string.
  { unfold onLexicalDeclaration.
    destruct (find (hasType "variable_declarator") ch); auto.
    destruct (find _ (children n)); auto.
    destruct (truthy _); auto. }
  destruct (ty =? "export_statement")%string.
  { induction Hch as [|c ch [Hc _] _ IH]; simpl; [exact Hv|].
    destruct (isExportedDeclaration c); [now apply Hc | exact IH]. }
  destruct (ty =? "class_declaration")%string.
  { cbv zeta. destruct (truthy (findText _ ch)); [|exact Hv].
    apply classBody_keeps; [|exact Hch|exact Hv].
    destruct (truthy (superclassOf ch)); auto. }
  destruct (ty =? "import_statement")%string.
  { now apply onImportStatement_keeps. }
  destruct (ty =? "call_expression")%string.
  { now apply onCallExpression_keeps. }
  destruct (ty =? "jsx_element")%string.
  { now apply onJsxName_keeps. }
  destruct (ty =? "jsx_self_closing_element")%string.
  { now apply onJsxName_keeps. }
  destruct (ty =? "jsx_fragment")%string; auto.
Qed.

Lemma fold_children_keeps (ch : list Node) :
  Forall keepsI ch ->
  forall v, I v -> I (fold_left (fun acc child => processNode child acc) ch v).
Proof.
  induction 1 as [|c ch Hc _ IH]; intros v Hv; simpl; [exact Hv|].
  apply IH. now apply Hc.
Qed.

(** The visitor keepsI every property of its accumulators that its four
    updates keep. *)
Lemma processNode_keeps (n : Node) (v : Visit) :
  I v -> I (processNode n v).
Proof.
  enough (H : keepsI n /\ Forall keepsI (children n)) by apply H.
  clear v. induction n as [ty tx ch IH] using Node_induction.
  assert (Hch : Forall keepsI ch).
  { eapply Forall_impl; [|exact IH]. intros c [Hc _]. exact Hc. }
  split; [|exact Hch].
  intros v Hv. rewrite processNode_eq.
  apply fold_children_keeps; [exact Hch|].
  now apply switchOn_keeps.
Qed.
End Invariant.

End VisitFacts.

(* ================================================================== *)
(** * Facts about the manifest expressions *)
(* ================================================================== *)

Module ManifestFacts.
Import Js Regex Mapper Props StringFacts RegexFacts.


Lemma includes_tail (c : ascii) (s l : string) :
  includes (String c s) l = false ->
  prefix l (String c s) = false /\ includes s l = false.
Proof. cbn [includes]. intros H. now apply orb_false_iff in H. Qed.



Lemma star_run {R : Type} (p : ascii -> bool) (k : string -> option R)
      (v : string) (c : ascii) (rest : string) (res : R) :
  allChars p v = true -> p c = false ->
  k (String c rest) = Some res ->
  star p (v ++ String c rest) k = Some res.
Proof.
  intros Hv Hc Hk. induction v as [|x v IH]; simpl.
  - now rewrite Hc.
  - simpl in Hv. apply andb_true_iff in Hv. destruct Hv as [Hx Hv].
    rewrite Hx. now rewrite (IH Hv).
Qed.



Lemma exec_at_suffix (r : regex) (pre s : string) :
  exec r (pre ++ s) (length pre) =
  match search r s with
  | Some (cs, rest) => (Some cs, length (pre ++ s) - length rest)
  | None => (None, 0)
  end.
Proof.
  unfold exec. rewrite drop_app_length.
  rewrite length_append.
  destruct (length pre + length s <? length pre) eqn:E; [|reflexivity].
  apply Nat.ltb_lt in E. lia.
Qed.




End ManifestFacts.

(* ================================================================== *)
(** * Facts about the extractors and the main loop *)
(* ================================================================== *)

Module ScriptFacts.
Import Js Regex Mapper Props StringFacts RegexFacts VisitFacts.

Lemma dartClassRegex_progress : 0 < minLen dartClassRegex.
Proof. cbv. lia. Qed.

(** Every expression of the script consumes at least one character. *)
Lemma script_regexes_progress :
  Forall (fun r => 0 < minLen r)
         [dartClassRegex; annotationRegex; dartImportRegex; dartPackageRegex;
          androidClassRegex; packageRegex; componentRegex].
Proof. repeat constructor; cbv; lia. Qed.

(** A scan for annotations leaves [annotationRegex.lastIndex] at 0, so
    the scan for the next class starts at the beginning of the text. *)
Lemma scanAnnotations_lastIndex (content : string) (li : nat) :
  snd (scanAnnotations content li) = 0.
Proof.
  unfold scanAnnotations.
  assert (H := execAll_final annotationRegex content ltac:(cbv; lia)
                             (loopFuel content) li).
  destruct (execAll (loopFuel content) annotationRegex content li) as [ms final].
  simpl in *. apply H. unfold loopFuel. lia.
Qed.

Lemma dartClassStep_lastIndex (content : string) (ms : list caps) :
  forall syms, snd (fold_left (dartClassStep content) ms (syms, 0)) = 0.
Proof.
  induction ms as [|m ms IH]; intros syms; simpl; [reflexivity|].
  assert (H := scanAnnotations_lastIndex content 0).
  destruct (scanAnnotations content 0) as [anns li']. simpl in H. subst li'.
  apply IH.
Qed.

Lemma find_ext {A : Type} (f g : A -> bool) (l : list A) :
  (forall x, f x = g x) -> find f l = find g l.
Proof.
  intros H. induction l as [|x l IH]; simpl; [reflexivity|].
  now rewrite H, IH.
Qed.

(** The superclass test of the state-management detection adds nothing
    when the superclass name is a piece of the file text. *)
Lemma stateManagementTest_content (content : string) (e : option string)
      (pattern : string) :
  (forall t, e = Some t -> infix t content) ->
  stateManagementTest content e pattern = includes content pattern.
Proof.
  intros He. unfold stateManagementTest.
  destruct (includes content pattern) eqn:E; [reflexivity|]. simpl.
  destruct e as [t|]; [|reflexivity].
  destruct (includes t pattern) eqn:Et; [|now rewrite andb_false_r].
  rewrite (includes_mono content t pattern (He t eq_refl) Et) in E.
  discriminate.
Qed.

(** The class loop appends one [dartClassSymbol] per match, each with the
    annotations of a scan of the whole text. *)
Lemma dartClassStep_fold (content : string) (ms : list caps) :
  forall l,
  exists l',
    fst (fold_left (dartClassStep content) ms (Some l, 0)) = Some (l ++ l')
    /\ Forall (fun s => exists m,
                  In m ms
                  /\ s = dartClassSymbol content m
                                         (fst (scanAnnotations content 0))) l'.
Proof.
  induction ms as [|m ms IH]; intros l; simpl.
  - exists []. split; [now rewrite app_nil_r | constructor].
  - assert (Hli := scanAnnotations_lastIndex content 0).
    destruct (scanAnnotations content 0) as [anns li'] eqn:E.
    simpl in Hli. subst li'.
    destruct (IH (l ++ [dartClassSymbol content m anns])) as [l' [H1 H2]].
    exists (dartClassSymbol content m anns :: l'). split.
    + rewrite H1. now rewrite <- app_assoc.
    + constructor.
      * exists m. split; [now left | reflexivity].
      * eapply Forall_impl; [|exact H2].
        intros s [m' [Hin Hs]]. exists m'. split; [now right | exact Hs].
Qed.

Section Script.
Variable readFileSync : string -> string.
Variable jsParser tsParser : string -> Node.

Local Abbreviation parseFile' := (parseFile readFileSync jsParser tsParser).
Local Abbreviation visitFile' := (visitFile readFileSync jsParser tsParser).
Local Abbreviation mainLoop' := (mainLoop readFileSync jsParser tsParser).

(** Every class symbol of a widget-language file is the object built for
    one match of the class expression. *)
Lemma dart_symbols (filePath : string) (s : SymbolInfo) :
  toLowerCase (extname filePath) = ".dart" ->
  In s (elems (symbols (parseFile' filePath))) ->
  exists m,
    In m (fst (execAll (loopFuel (readFileSync filePath)) dartClassRegex
                       (readFileSync filePath) 0))
    /\ s = dartClassSymbol (readFileSync filePath) m
                           (fst (scanAnnotations (readFileSync filePath) 0)).
Proof.
  intros Hext. unfold parseFile. rewrite Hext. cbv zeta.
  destruct (endsWith filePath "AndroidManifest.xml").
  - simpl. tauto.
  - change ((".dart" =? ".dart")%string) with true. cbv iota.
    unfold parseDartFile.
    destruct (fold_left dartImportStep _ _) as [imps sp].
    cbn [symbols initialFileInfo].
    destruct (dartClassStep_fold (readFileSync filePath)
                (fst (execAll (loopFuel (readFileSync filePath)) dartClassRegex
                              (readFileSync filePath) 0)) [])
      as [l' [H1 H2]].
    rewrite H1. simpl. intros Hin.
    rewrite Forall_forall in H2. now apply H2.
Qed.

(** The superclass of a class match is a piece of the file text. *)
Lemma dart_extends_infix (content : string) (m : caps) (t : string) :
  In m (fst (execAll (loopFuel content) dartClassRegex content 0)) ->
  group m 2 = Some t -> infix t content.
Proof.
  intros Hm Hg. apply group_In in Hg.
  exact (execAll_infix _ _ dartClassRegex_progress _ _ _ _ _ Hm Hg).
Qed.

Lemma parseFile_file (filePath : string) : file (parseFile' filePath) = filePath.
Proof.
  unfold parseFile. cbv zeta.
  destruct (endsWith filePath "AndroidManifest.xml"); [reflexivity|].
  destruct (_ =? ".dart")%string.
  - unfold parseDartFile. destruct (fold_left dartImportStep _ _). reflexivity.
  - destruct (_ && _); reflexivity.
Qed.

(** The list of reported records: the records with content, in the order
    of the files. *)
Lemma results_fold (files : list string) :
  forall pr,
    results (fold_left visitFile' files pr) =
    results pr ++ filter hasContent (map parseFile' files).
Proof.
  induction files as [|f files IH]; intros pr; cbn [fold_left map filter].
  - now rewrite app_nil_r.
  - rewrite IH. unfold visitFile. cbv zeta.
    destruct (hasContent (parseFile' f)); cbn [results]; [|reflexivity].
    now rewrite <- app_assoc.
Qed.

Lemma elements_fold (files : list string) :
  forall pr,
    allCustomElements (fold_left visitFile' files pr) =
    fold_left add
      (flat_map (fun fi => elems (jsxElements fi))
                (filter hasContent (map parseFile' files)))
      (allCustomElements pr).
Proof.
  induction files as [|f files IH]; intros pr; cbn [fold_left map filter];
    [reflexivity|].
  rewrite IH. unfold visitFile. cbv zeta.
  destruct (hasContent (parseFile' f)); cbn [allCustomElements flat_map];
    [|reflexivity].
  rewrite fold_left_app.
  destruct (jsxElements (parseFile' f)); reflexivity.
Qed.

End Script.

Lemma has_In (set : list string) (x : string) : has set x = true <-> In x set.
Proof.
  unfold has. rewrite existsb_exists. split.
  - intros [y [Hin Heq]]. apply String.eqb_eq in Heq. now subst.
  - intros Hin. exists x. split; [exact Hin | apply String.eqb_refl].
Qed.

Lemma add_In (set : list string) (x y : string) :
  In y (add set x) <-> In y set \/ y = x.
Proof.
  unfold add. destruct (has set x) eqn:E.
  - apply has_In in E. split; [tauto | intros [H | H]; [exact H | now subst]].
  - rewrite in_app_iff. simpl. split; intros [H | H]; auto.
    destruct H as [H | []]. now right.
Qed.

Lemma add_NoDup (set : list string) (x : string) :
  NoDup set -> NoDup (add set x).
Proof.
  intros Hnd. unfold add. destruct (has set x) eqn:E; [exact Hnd|].
  assert (Hnot : ~ In x set).
  { intros Hin. apply has_In in Hin. congruence. }
  clear E. induction Hnd as [|a set Ha Hnd IH]; simpl.
  - constructor; [tauto | constructor].
  - constructor.
    + rewrite in_app_iff. simpl. intros [H | [H | []]]; [tauto|].
      subst. apply Hnot. now left.
    + apply IH. intros Hin. apply Hnot. now right.
Qed.

Lemma fold_add_In (els set : list string) (y : string) :
  In y (fold_left add els set) <-> In y set \/ In y els.
Proof.
  revert set. induction els as [|e els IH]; intros set; simpl.
  - tauto.
  - rewrite IH, add_In. split; intros H; intuition (subst; auto).
Qed.

Lemma fold_add_NoDup (els set : list string) :
  NoDup set -> NoDup (fold_left add els set).
Proof.
  revert set. induction els as [|e els IH]; intros set H; simpl; [exact H|].
  apply IH. now apply add_NoDup.
Qed.

End ScriptFacts.

(* ================================================================== *)
(** * The properties of the extraction specification *)
(* ================================================================== *)

Import Js Regex Mapper Props.
Import StringFacts RegexFacts VisitFacts ManifestFacts ScriptFacts.

(** ** The embedding on the scenarios of the specification *)

Example scenario_function_declaration :
  symbols (parseFile sampleFiles sampleParser sampleParser "src/f.js")
  = Some [plainSymbol "f" "function"].
Proof. vm_compute. reflexivity. Qed.

Example scenario_stateful_widget :
  map (fun s => (name s, isWidget s, isStateful s, isStateless s))
      (elems (symbols (parseFile sampleFiles sampleParser sampleParser
                                 "lib/main.dart")))
  = [("HomePage", Some true, Some true, Some false);
     ("Counter", Some true, Some false, Some false)].
Proof. vm_compute. reflexivity. Qed.

Example scenario_manifest :
  androidManifest (parseFile sampleFiles sampleParser sampleParser
                             "app/src/main/AndroidManifest.xml")
  = Some (mkManifest (Some "com.app") [".MainActivity"; ".SyncService"]).
Proof. vm_compute. reflexivity. Qed.

(** ** Class symbols of the grammar-based extractor *)

Lemma classSymbols_push (s : SymbolInfo) (v : Visit) :
  classSymbols (v_symbols (pushSymbol s v))
  = classSymbols (v_symbols v) + (if isClassSymbol s then 1 else 0).
Proof.
  unfold classSymbols, pushSymbol. simpl.
  rewrite filter_app, length_app. simpl.
  destruct (isClassSymbol s); reflexivity.
Qed.

Lemma classMembers_without_classes (self : Node -> Visit -> Visit)
      (members : list Node) :
  forallb (fun c => negb (hasType "class_declaration" c)) members = true ->
  forall acc, fst (fst (classMembers self members acc)) = fst (fst acc).
Proof.
  induction members as [|m members IH]; intros H [[v props] meths];
    simpl; [reflexivity|].
  simpl in H. apply andb_true_iff in H. destruct H as [Hm H].
  apply negb_true_iff in Hm. rewrite (IH H), Hm.
  repeat match goal with
         | |- context [if ?c then _ else _] => destruct c
         end; reflexivity.
Qed.

Lemma finishClass_symbols (c : SymbolInfo)
      (r : Visit * list string * list string) :
  isClassSymbol c = true ->
  classSymbols (v_symbols (finishClass c r))
  = classSymbols (v_symbols (fst (fst r))) + 1.
Proof.
  destruct r as [[v props] meths]. intros Hc. unfold finishClass.
  rewrite classSymbols_push. unfold isClassSymbol in *.
  destruct props, meths; simpl; now rewrite Hc.
Qed.

(** What the [switch] adds on a tree that is visited once: one class
    symbol for a class declaration, none otherwise. *)
Lemma switchOn_classSymbols (ty : string) (ch : list Node) (v : Visit) :
  (ty =? "export_statement")%string = false ->
  (if (ty =? "class_declaration")%string
   then truthy (findText (hasType "identifier") ch) else true) = true ->
  forallb singleVisit ch = true ->
  classSymbols (v_symbols (switchOn ty ch v))
  = classSymbols (v_symbols v)
    + (if (ty =? "class_declaration")%string then 1 else 0).
Proof.
  intros Hexp Hname Hch. unfold switchOn. rewrite Hexp.
  destruct (ty =? "function_declaration")%string eqn:E1.
  { apply String.eqb_eq in E1. subst ty. simpl.
    unfold onFunctionDeclaration. destruct (truthy _); [|lia].
    now rewrite classSymbols_push. }
  destruct (ty =? "lexical_declaration")%string eqn:E2.
  { apply String.eqb_eq in E2. subst ty. simpl. clear Hname.
    unfold onLexicalDeclaration.
    destruct (find (hasType "variable_declarator") ch); [|lia].
    destruct (find _ (children n)); [|lia].
    destruct (truthy _); [|lia]. now rewrite classSymbols_push. }
  destruct (ty =? "class_declaration")%string eqn:E3.
  { cbv zeta. rewrite Hname.
    set (c := if truthy (superclassOf ch) then _ else _).
    assert (Hc : isClassSymbol c = true)
      by (unfold c; destruct (truthy (superclassOf ch)); reflexivity).
    clearbody c. clear Hname.
    induction ch as [|b ch IH]; cbn [withFirst].
    - now rewrite classSymbols_push, Hc.
    - simpl in Hch. apply andb_true_iff in Hch. destruct Hch as [Hb Hch].
      destruct (hasType "class_body" b) eqn:Eb; [|now apply IH].
      rewrite finishClass_symbols by exact Hc.
      rewrite classMembers_without_classes; [reflexivity|].
      destruct b as [t x m]. unfold hasType in Eb. simpl in Eb.
      simpl in Hb. rewrite Eb in Hb.
      apply andb_true_iff in Hb. destruct Hb as [Hb _].
      apply andb_true_iff in Hb. destruct Hb as [_ Hb]. exact Hb. }
  clear Hname.
  destruct (ty =? "import_statement")%string.
  { unfold onImportStatement. destruct (truthy _); [|lia].
    destruct (filter truthy _); simpl; lia. }
  destruct (ty =? "call_expression")%string.
  { unfold onCallExpression.
    destruct ch as [|callee rest]; [lia|].
    destruct (text callee =? "require")%string; [|lia].
    destruct rest as [|args rest]; [lia|].
    destruct (children args) as [|arg l]; [lia|].
    destruct (hasType "string" arg); simpl; lia. }
  destruct (ty =? "jsx_element")%string.
  { unfold onJsxName. destruct (_ && _); simpl; lia. }
  destruct (ty =? "jsx_self_closing_element")%string.
  { unfold onJsxName. destruct (_ && _); simpl; lia. }
  destruct (ty =? "jsx_fragment")%string; simpl; lia.
Qed.

(** On a tree that is visited once the visitor adds one class symbol per
    class declaration. *)
Lemma processNode_classSymbols (n : Node) :
  singleVisit n = true ->
  forall v,
    classSymbols (v_symbols (processNode n v))
    = classSymbols (v_symbols v) + classDeclarations n.
Proof.
  induction n as [ty tx ch IH] using Node_induction.
  intros Hs v. rewrite processNode_eq.
  simpl in Hs. apply andb_true_iff in Hs. destruct Hs as [Hs Hch].
  apply andb_true_iff in Hs. destruct Hs as [Hs _].
  apply andb_true_iff in Hs. destruct Hs as [Hexp Hname].
  apply negb_true_iff in Hexp.
  assert (Hfold : forall w,
             classSymbols (v_symbols
               (fold_left (fun acc child => processNode child acc) ch w))
             = classSymbols (v_symbols w)
               + list_sum (map (countType "class_declaration") ch)).
  { clear Hexp Hname. induction IH as [|c ch Hc _ IHch]; intros w; simpl.
    - lia.
    - simpl in Hch. apply andb_true_iff in Hch. destruct Hch as [Hc' Hch].
      rewrite (IHch Hch), (Hc Hc'). unfold classDeclarations. lia. }
  rewrite Hfold, (switchOn_classSymbols ty ch v Hexp Hname Hch).
  unfold classDeclarations. simpl. lia.
Qed.

(** C1.  The specification asks for one class symbol per class
    declaration, none of them twice.  The visitor does not deliver that:
    for [export class A {}] the export case dispatches to the class
    declaration and the recursion into the children visits it again, so
    the one declaration gives two symbols; a class declaration that is a
    member of a class body is likewise reached by the member loop and by
    the recursion into the children, so two declarations give three
    symbols. *)
Theorem C1_class_declarations_visited_twice :
  classDeclarations exportClassTree = 1
  /\ map name (filter isClassSymbol
                 (v_symbols (processNode exportClassTree emptyVisit)))
     = ["A"; "A"]
  /\ classSymbols
       (elems (symbols (parseFile sampleFiles sampleParser sampleParser "src/a.js")))
     = 2
  /\ classDeclarations nestedClassTree = 2
  /\ map name (filter isClassSymbol
                 (v_symbols (processNode nestedClassTree emptyVisit)))
     = ["Inner"; "Outer"; "Inner"].
Proof. vm_compute. repeat split. Qed.

(** ** Import entries *)

(** The grammar-based extractor only pushes bare sources and entries
    whose specifier list is present and not empty. *)
Lemma grammar_imports_wellFormed (root : Node) :
  forallb wellFormedImport (v_imports (processNode root emptyVisit)) = true.
Proof.
  apply (processNode_keeps
           (fun v => forallb wellFormedImport (v_imports v) = true)
           (fun _ => True)).
  - intros; exact I.
  - intros; exact I.
  - intros; exact I.
  - intros; exact I.
  - intros s v _ Hv. exact Hv.
  - intros i v Hi Hv. unfold pushImport; simpl.
    rewrite forallb_app, Hv. simpl. now rewrite Hi.
  - intros v Hv. exact Hv.
  - intros e v _ Hv. exact Hv.
  - reflexivity.
Qed.

(** The import loop of the widget-language extractor appends one object
    with an empty [specifiers] array per match. *)
Lemma dartImportStep_fold (ms : list caps) :
  forall l sp,
    fst (fold_left dartImportStep ms (Some l, sp))
    = Some (l ++ map (fun m => Edge (groupText m 1) (Some [])) ms).
Proof.
  induction ms as [|m ms IH]; intros l sp; cbn [fold_left map].
  - now rewrite app_nil_r.
  - unfold dartImportStep at 2. cbv zeta. cbn [optPush].
    rewrite IH. now rewrite <- app_assoc.
Qed.

(** Every import entry of every widget-language file is an object with
    an empty [specifiers] array. *)
Lemma dart_imports_are_empty_edges (readFileSync : string -> string)
      (jsParser tsParser : string -> Node) (filePath : string) (i : ImportEntry) :
  toLowerCase (extname filePath) = ".dart" ->
  In i (elems (imports (parseFile readFileSync jsParser tsParser filePath))) ->
  exists source, i = Edge source (Some []).
Proof.
  intros Hext. unfold parseFile. rewrite Hext. cbv zeta.
  destruct (endsWith filePath "AndroidManifest.xml"); [simpl; tauto|].
  change ((".dart" =? ".dart")%string) with true. cbv iota.
  unfold parseDartFile.
  assert (H := dartImportStep_fold
                 (fst (execAll (loopFuel (readFileSync filePath)) dartImportRegex
                               (readFileSync filePath) 0)) [] []).
  cbn [imports initialFileInfo].
  destruct (fold_left dartImportStep _ _) as [imps sp].
  cbn [fst] in H. subst imps. cbn [imports elems app].
  intros Hin. apply in_map_iff in Hin. destruct Hin as [m [Hm _]].
  now exists (groupText m 1).
Qed.

(** C2.  The specification asks that no import entry carries an empty
    binding list.  The widget-language extractor does not deliver that:
    every import it finds is pushed as an object whose [specifiers] is
    the empty array, as for [import 'package:flutter/material.dart';]. *)
Theorem C2_dart_import_carries_empty_specifiers :
  imports (parseFile sampleFiles sampleParser sampleParser "lib/main.dart")
  = Some [Edge "package:flutter/material.dart" (Some [])]
  /\ forallb wellFormedImport
       (elems (imports (parseFile sampleFiles sampleParser sampleParser
                                  "lib/main.dart")))
     = false.
Proof. vm_compute. split; reflexivity. Qed.

(** ** Absent and empty collections *)

Lemma androidClassStep_fold (ms : list caps) :
  forall l,
  exists l',
    fold_left androidClassStep ms (Some l) = Some (l ++ l')
    /\ Forall (fun s => memberListsOk s = true) l'.
Proof.
  induction ms as [|m ms IH]; intros l; cbn [fold_left].
  - exists []. split; [now rewrite app_nil_r | constructor].
  - destruct (IH (l ++ [mkSymbol (groupText m 1) "class" None None (group m 2)
                                 None None None
                                 (if has ANDROID_COMPONENTS (orEmpty (group m 2))
                                  then group m 2 else None)
                                 None None None None])) as [l' [H1 H2]].
    eexists (_ :: l'). split.
    + unfold androidClassStep at 2. cbn [optPush]. rewrite H1.
      now rewrite <- app_assoc.
    + constructor; [reflexivity | exact H2].
Qed.

(** What the extractors do keep absent: [properties], [methods] and
    [annotations] of a symbol and [jsxElements] of a record are never
    present and empty. *)
Lemma member_lists_absent_or_nonempty (readFileSync : string -> string)
      (jsParser tsParser : string -> Node) (filePath : string) :
  let fi := parseFile readFileSync jsParser tsParser filePath in
  absentOrNonEmpty (jsxElements fi) = true
  /\ forallb memberListsOk (elems (symbols fi)) = true.
Proof.
  unfold parseFile. cbv zeta.
  destruct (endsWith filePath "AndroidManifest.xml"); [split; reflexivity|].
  destruct (_ =? ".dart")%string.
  { unfold parseDartFile. destruct (fold_left dartImportStep _ _) as [imps sp].
    cbn [jsxElements symbols initialFileInfo]. split; [reflexivity|].
    destruct (dartClassStep_fold (readFileSync filePath)
                (fst (execAll (loopFuel (readFileSync filePath)) dartClassRegex
                              (readFileSync filePath) 0)) [])
      as [l' [H1 H2]].
    rewrite H1. simpl. apply forallb_forall. intros s Hs.
    rewrite Forall_forall in H2. destruct (H2 s Hs) as [m [_ Heq]].
    subst s. unfold memberListsOk, dartClassSymbol. simpl.
    now destruct (fst (scanAnnotations (readFileSync filePath) 0)). }
  destruct (_ && _).
  { unfold parseAndroidFile. cbn [jsxElements symbols initialFileInfo].
    split; [reflexivity|].
    destruct (androidClassStep_fold
                (fst (execAll (loopFuel (readFileSync filePath)) androidClassRegex
                              (readFileSync filePath) 0)) []) as [l' [H1 H2]].
    rewrite H1. simpl. apply forallb_forall. now apply Forall_forall. }
  set (root := (if has [".ts"; ".tsx"] _ then tsParser else jsParser) _).
  unfold storeVisit. cbn [jsxElements symbols initialFileInfo]. split.
  - destruct (v_hasJsx _); [|reflexivity].
    now destruct (v_jsxElements _).
  - assert (H : Forall (fun s => memberListsOk s = true)
                       (v_symbols (processNode root emptyVisit))).
    { apply (processNode_keeps
               (fun v => Forall (fun s => memberListsOk s = true) (v_symbols v))
               (fun s => memberListsOk s = true)).
      - reflexivity.
      - intros e s Hs. exact Hs.
      - intros x l s Hs. unfold memberListsOk in *. simpl.
        apply andb_true_iff in Hs. destruct Hs as [Hs Ha].
        apply andb_true_iff in Hs. destruct Hs as [_ Hm].
        now rewrite Hm, Ha.
      - intros x l s Hs. unfold memberListsOk in *. simpl.
        apply andb_true_iff in Hs. destruct Hs as [Hs Ha].
        apply andb_true_iff in Hs. destruct Hs as [Hp _].
        now rewrite Hp, Ha.
      - intros s v Hs Hv. unfold pushSymbol; simpl.
        apply Forall_app. split; [exact Hv | now constructor].
      - intros i v _ Hv. exact Hv.
      - intros v Hv. exact Hv.
      - intros e v _ Hv. exact Hv.
      - constructor. }
    destruct (v_symbols (processNode root emptyVisit)) eqn:E; [reflexivity|].
    cbn [elems]. apply forallb_forall. now apply Forall_forall.
Qed.

(** [symbols] and [imports] are present in every record, with or without
    elements. *)
Lemma symbols_and_imports_always_present (readFileSync : string -> string)
      (jsParser tsParser : string -> Node) (filePath : string) :
  let fi := parseFile readFileSync jsParser tsParser filePath in
  symbols fi = Some (elems (symbols fi)) /\ imports fi = Some (elems (imports fi)).
Proof.
  unfold parseFile. cbv zeta.
  destruct (endsWith filePath "AndroidManifest.xml"); [split; reflexivity|].
  destruct (_ =? ".dart")%string.
  { unfold parseDartFile.
    assert (H := dartImportStep_fold
                   (fst (execAll (loopFuel (readFileSync filePath)) dartImportRegex
                                 (readFileSync filePath) 0)) [] []).
    cbn [imports initialFileInfo].
    destruct (fold_left dartImportStep _ _) as [imps sp].
    cbn [fst] in H. subst imps. cbn [symbols imports initialFileInfo].
    destruct (dartClassStep_fold (readFileSync filePath)
                (fst (execAll (loopFuel (readFileSync filePath)) dartClassRegex
                              (readFileSync filePath) 0)) [])
      as [l' [H1 _]].
    rewrite H1. split; reflexivity. }
  destruct (_ && _).
  { unfold parseAndroidFile. cbn [symbols imports initialFileInfo].
    destruct (androidClassStep_fold
                (fst (execAll (loopFuel (readFileSync filePath)) androidClassRegex
                              (readFileSync filePath) 0)) []) as [l' [H1 _]].
    rewrite H1. split; reflexivity. }
  unfold storeVisit. cbn [symbols imports initialFileInfo].
  split; [destruct (v_symbols _) | destruct (v_imports _)]; reflexivity.
Qed.

(** C3.  The specification asks that a record never carries an empty
    collection.  [parseFile] does not deliver that: the record starts
    with [symbols: []] and [imports: []] and a later assignment only
    replaces a list that turned out non-empty, so a script file with one
    function keeps [imports: []]; a widget-language class in a file
    without package imports gets [dependencies: []]. *)
Theorem C3_empty_collections_are_carried :
  (let fi := parseFile sampleFiles sampleParser sampleParser "src/f.js" in
   map name (elems (symbols fi)) = ["f"] /\ imports fi = Some [])
  /\ (let fi := parseFile sampleFiles sampleParser sampleParser "lib/point.dart" in
      map name (elems (symbols fi)) = ["Point"]
      /\ map dependencies (elems (symbols fi)) = [Some []]
      /\ imports fi = Some []).
Proof. vm_compute. repeat split. Qed.

(** ** Widget classification *)

(** C4, counterexample.  In [twoPatternsDart] the text holds both
    [class A extends StatelessWidget] and [class A extends StatefulWidget];
    every symbol named [A] is then stateless and stateful at once. *)
Lemma C4_both_flags_true :
  includes twoPatternsDart (statelessPattern "A") = true
  /\ map (fun s => (name s, isStateless s, isStateful s))
         (elems (symbols (parseFile sampleFiles sampleParser sampleParser
                                    "lib/two.dart")))
     = [("A", Some true, Some true); ("A", Some true, Some true)].
Proof. vm_compute. split; reflexivity. Qed.

(** C4, as the script has it.  For every class symbol of a
    widget-language file, [isStateless] tells whether the file text
    contains [class <name> extends StatelessWidget] and [isStateful]
    whether it contains [class <name> extends StatefulWidget]; the two
    tests are independent of each other. *)
Theorem C4_widget_flags_are_substring_tests :
  forall (readFileSync : string -> string) (jsParser tsParser : string -> Node)
         (filePath : string) (s : SymbolInfo),
    toLowerCase (extname filePath) = ".dart" ->
    In s (elems (symbols (parseFile readFileSync jsParser tsParser filePath))) ->
    isStateless s
    = Some (includes (readFileSync filePath) (statelessPattern (name s)))
    /\ isStateful s
       = Some (includes (readFileSync filePath) (statefulPattern (name s))).
Proof.
  intros rfs jp tp filePath s Hext Hin.
  destruct (dart_symbols rfs jp tp filePath s Hext Hin) as [m [_ Hs]].
  subst s. split; reflexivity.
Qed.

(** C4, witness: the symbol of [HomePage] in [sampleDart]. *)
Lemma C4_witness :
  isStateless homePageSymbol
  = Some (includes (sampleFiles "lib/main.dart") (statelessPattern (name homePageSymbol)))
  /\ isStateful homePageSymbol
     = Some (includes (sampleFiles "lib/main.dart") (statefulPattern (name homePageSymbol))).
Proof.
  apply (C4_widget_flags_are_substring_tests
           sampleFiles sampleParser sampleParser "lib/main.dart" homePageSymbol).
  - reflexivity.
  - vm_compute. left. reflexivity.
Defined.

(** ** Manifest files and the report *)

Lemma hasContent_noContent (fi : FileInfo) : hasContent fi = negb (noContent fi).
Proof.
  unfold hasContent, noContent, nonEmpty.
  destruct (symbols fi) as [[|x l]|]; destruct (imports fi) as [[|y l']|];
    destruct (jsxElements fi) as [[|z l'']|]; reflexivity.
Qed.

Lemma parseFile_androidManifest (readFileSync : string -> string)
      (jsParser tsParser : string -> Node) (filePath : string) :
  endsWith filePath "AndroidManifest.xml" = false ->
  androidManifest (parseFile readFileSync jsParser tsParser filePath) = None.
Proof.
  intros H. unfold parseFile. cbv zeta. rewrite H.
  destruct (_ =? ".dart")%string.
  - unfold parseDartFile. destruct (fold_left dartImportStep _ _). reflexivity.
  - destruct (_ && _); reflexivity.
Qed.

(** C5.  For a path that ends in [AndroidManifest.xml], [parseFile]
    returns the initial record with the manifest data attached: its
    symbol and import lists are empty and it has no element names, so the
    content test of the main loop fails and the record is in no report;
    every record of a report has no manifest data and a path that does
    not end in [AndroidManifest.xml]. *)
Theorem C5_manifest_records_never_reported :
  forall (readFileSync : string -> string) (jsParser tsParser : string -> Node)
         (filePath : string),
    endsWith filePath "AndroidManifest.xml" = true ->
    let fi := parseFile readFileSync jsParser tsParser filePath in
    symbols fi = Some [] /\ imports fi = Some [] /\ jsxElements fi = None
    /\ androidManifest fi = Some (parseAndroidManifest (readFileSync filePath))
    /\ hasContent fi = false
    /\ (forall pr, visitFile readFileSync jsParser tsParser pr filePath = pr)
    /\ (forall files,
           ~ In fi (results (mainLoop readFileSync jsParser tsParser files)))
    /\ (forall files r,
           In r (results (mainLoop readFileSync jsParser tsParser files)) ->
           androidManifest r = None
           /\ endsWith (file r) "AndroidManifest.xml" = false).
Proof.
  intros rfs jp tp filePath Hm fi.
  assert (Hfi : fi = setAndroidManifest (parseAndroidManifest (rfs filePath))
                       (initialFileInfo filePath (rfs filePath)
                                        (toLowerCase (extname filePath)))).
  { unfold fi, parseFile. cbv zeta. now rewrite Hm. }
  assert (Hc : hasContent fi = false) by (rewrite Hfi; reflexivity).
  assert (Hres : forall files r,
             In r (results (mainLoop rfs jp tp files)) ->
             hasContent r = true /\ exists f, r = parseFile rfs jp tp f).
  { intros files r Hin. unfold mainLoop in Hin.
    rewrite results_fold in Hin. simpl in Hin.
    apply filter_In in Hin. destruct Hin as [Hin Hr].
    apply in_map_iff in Hin. destruct Hin as [f [Hf _]].
    split; [exact Hr | now exists f]. }
  split; [rewrite Hfi; reflexivity|].
  split; [rewrite Hfi; reflexivity|].
  split; [rewrite Hfi; reflexivity|].
  split; [rewrite Hfi; reflexivity|].
  split; [exact Hc|].
  split; [|split].
  - intros pr. unfold visitFile. cbv zeta. fold fi. now rewrite Hc.
  - intros files Hin. apply Hres in Hin. destruct Hin as [Hin _]. congruence.
  - intros files r Hin. destruct (Hres files r Hin) as [Hr [f Hf]]. subst r.
    assert (E : endsWith f "AndroidManifest.xml" = false).
    { destruct (endsWith f "AndroidManifest.xml") eqn:E; [|reflexivity].
      exfalso. unfold parseFile in Hr. cbv zeta in Hr. rewrite E in Hr.
      discriminate. }
    split; [now apply parseFile_androidManifest | now rewrite parseFile_file].
Qed.

(** C5, witness: the manifest of the sample files. *)
Lemma C5_witness :
  let fi := parseFile sampleFiles sampleParser sampleParser
                      "app/src/main/AndroidManifest.xml" in
  symbols fi = Some [] /\ imports fi = Some [] /\ jsxElements fi = None
  /\ androidManifest fi
     = Some (parseAndroidManifest (sampleFiles "app/src/main/AndroidManifest.xml"))
  /\ hasContent fi = false
  /\ (forall pr, visitFile sampleFiles sampleParser sampleParser pr
                           "app/src/main/AndroidManifest.xml" = pr)
  /\ (forall files,
         ~ In fi (results (mainLoop sampleFiles sampleParser sampleParser files)))
  /\ (forall files r,
         In r (results (mainLoop sampleFiles sampleParser sampleParser files)) ->
         androidManifest r = None
         /\ endsWith (file r) "AndroidManifest.xml" = false).
Proof.
  apply (C5_manifest_records_never_reported
           sampleFiles sampleParser sampleParser
           "app/src/main/AndroidManifest.xml").
  reflexivity.
Defined.

(** ** State-management detection *)

(** C6.  Every class symbol of a widget-language file carries as
    [stateManagement] the first name of the registry, in its order, that
    occurs in the file text, and nothing when none occurs: the test on
    the superclass name never adds a match, the name being a piece of the
    text.  Two class symbols of one file therefore carry the same
    value. *)
Theorem C6_state_management_is_file_scoped :
  forall (readFileSync : string -> string) (jsParser tsParser : string -> Node)
         (filePath : string) (s s' : SymbolInfo),
    toLowerCase (extname filePath) = ".dart" ->
    In s (elems (symbols (parseFile readFileSync jsParser tsParser filePath))) ->
    In s' (elems (symbols (parseFile readFileSync jsParser tsParser filePath))) ->
    stateManagement s
    = find (includes (readFileSync filePath)) DART_stateManagement
    /\ stateManagement s = stateManagement s'.
Proof.
  intros rfs jp tp filePath s s' Hext Hin Hin'.
  assert (H : forall x,
             In x (elems (symbols (parseFile rfs jp tp filePath))) ->
             stateManagement x = find (includes (rfs filePath)) DART_stateManagement).
  { intros x Hx.
    destruct (dart_symbols rfs jp tp filePath x Hext Hx) as [m [Hm Hs]].
    subst x. cbn [stateManagement dartClassSymbol].
    apply find_ext. intros pattern.
    apply stateManagementTest_content.
    intros t Ht. exact (dart_extends_infix _ m t Hm Ht). }
  split; [now apply H | now rewrite (H s), (H s')].
Qed.

(** C6, witness: the two class symbols of [sampleDart]. *)
Lemma C6_witness :
  stateManagement homePageSymbol
  = find (includes (sampleFiles "lib/main.dart")) DART_stateManagement
  /\ stateManagement homePageSymbol = stateManagement counterSymbol.
Proof.
  apply (C6_state_management_is_file_scoped
           sampleFiles sampleParser sampleParser "lib/main.dart"
           homePageSymbol counterSymbol).
  - reflexivity.
  - vm_compute. left. reflexivity.
  - vm_compute. right. left. reflexivity.
Defined.

(** ** The content test of the main loop *)

(** C7.  The main loop appends the record of a file exactly when it has
    a symbol, an import or a custom element name; a record with none of
    the three leaves the list as it is.  The list of the report is thus
    the list of the records with content, in the order of the files. *)
Theorem C7_records_without_content_are_dropped :
  forall (readFileSync : string -> string) (jsParser tsParser : string -> Node),
    (forall pr filePath,
        results (visitFile readFileSync jsParser tsParser pr filePath)
        = if noContent (parseFile readFileSync jsParser tsParser filePath)
          then results pr
          else results pr ++ [parseFile readFileSync jsParser tsParser filePath])
    /\ (forall files,
           results (mainLoop readFileSync jsParser tsParser files)
           = filter (fun fi => negb (noContent fi))
                    (map (parseFile readFileSync jsParser tsParser) files)).
Proof.
  intros rfs jp tp. split.
  - intros pr filePath. unfold visitFile. cbv zeta.
    rewrite hasContent_noContent.
    destruct (noContent (parseFile rfs jp tp filePath)); reflexivity.
  - intros files. unfold mainLoop. rewrite results_fold. simpl.
    apply filter_ext. intros fi. apply hasContent_noContent.
Qed.

(** ** The registry of custom element names *)

(** The element names a record carries passed the test against
    [WEB_ELEMENTS]. *)
Lemma parseFile_jsxElements_custom (readFileSync : string -> string)
      (jsParser tsParser : string -> Node) (filePath e : string) :
  In e (elems (jsxElements (parseFile readFileSync jsParser tsParser filePath))) ->
  customName e = true.
Proof.
  unfold parseFile. cbv zeta.
  destruct (endsWith filePath "AndroidManifest.xml"); [simpl; tauto|].
  destruct (_ =? ".dart")%string.
  { unfold parseDartFile. destruct (fold_left dartImportStep _ _).
    simpl. tauto. }
  destruct (_ && _); [simpl; tauto|].
  set (root := (if has [".ts"; ".tsx"] _ then tsParser else jsParser) _).
  assert (H : Forall (fun x => customName x = true)
                     (v_jsxElements (processNode root emptyVisit))).
  { apply (processNode_keeps
             (fun v => Forall (fun x => customName x = true) (v_jsxElements v))
             (fun _ => True)).
    - intros; exact I.
    - intros; exact I.
    - intros; exact I.
    - intros; exact I.
    - intros s v _ Hv. exact Hv.
    - intros i v _ Hv. exact Hv.
    - intros v Hv. exact Hv.
    - intros x v Hx Hv. unfold addJsxElement; simpl.
      rewrite Forall_forall in *. intros y Hy.
      apply add_In in Hy. destruct Hy as [Hy | Hy]; [now apply Hv | now subst].
    - constructor. }
  unfold storeVisit. cbn [jsxElements initialFileInfo].
  destruct (v_hasJsx (processNode root emptyVisit)); [|simpl; tauto].
  destruct (v_jsxElements (processNode root emptyVisit)) as [|x l] eqn:E;
    [simpl; tauto|].
  cbn [elems]. rewrite Forall_forall in H. apply H.
Qed.

(** The registry of the report is the union, without repetition, of the
    [jsxElements] of the reported records, and no text whose lower-case
    form is in [WEB_ELEMENTS] is in it.  This is what the main loop does
    with whatever texts the visitor recorded as element names. *)
Lemma registry_is_the_union_of_the_recorded_names :
  forall (readFileSync : string -> string) (jsParser tsParser : string -> Node)
         (files : list string),
    let pr := mainLoop readFileSync jsParser tsParser files in
    NoDup (allCustomElements pr)
    /\ (forall e,
           In e (allCustomElements pr)
           <-> exists fi, In fi (results pr) /\ In e (elems (jsxElements fi)))
    /\ (forall e,
           In e (allCustomElements pr) ->
           has WEB_ELEMENTS (toLowerCase e) = false)
    /\ (forall e f,
           In f files ->
           In e (elems (jsxElements
                          (parseFile readFileSync jsParser tsParser f))) ->
           count_occ string_dec (allCustomElements pr) e = 1)
    /\ (forall e,
           has WEB_ELEMENTS (toLowerCase e) = true ->
           count_occ string_dec (allCustomElements pr) e = 0).
Proof.
  intros rfs jp tp files pr.
  assert (Hel : allCustomElements pr
                = fold_left add
                    (flat_map (fun fi => elems (jsxElements fi)) (results pr)) []).
  { unfold pr, mainLoop. rewrite elements_fold, results_fold. reflexivity. }
  assert (Hnd : NoDup (allCustomElements pr)).
  { rewrite Hel. apply fold_add_NoDup. constructor. }
  assert (Hin : forall e,
             In e (allCustomElements pr)
             <-> exists fi, In fi (results pr) /\ In e (elems (jsxElements fi))).
  { intros e. rewrite Hel, fold_add_In, in_flat_map. simpl. tauto. }
  assert (Hres : forall fi, In fi (results pr) ->
                            hasContent fi = true
                            /\ exists f, In f files /\ fi = parseFile rfs jp tp f).
  { intros fi H. unfold pr, mainLoop in H. rewrite results_fold in H.
    simpl in H. apply filter_In in H. destruct H as [H Hc].
    apply in_map_iff in H. destruct H as [f [Hf Hf']].
    split; [exact Hc | exists f; split; [exact Hf' | now symmetry]]. }
  assert (Hcustom : forall e, In e (allCustomElements pr) ->
                              has WEB_ELEMENTS (toLowerCase e) = false).
  { intros e He. apply Hin in He. destruct He as [fi [Hfi He]].
    destruct (Hres fi Hfi) as [_ [f [_ Heq]]]. subst fi.
    apply parseFile_jsxElements_custom in He. unfold customName in He.
    now apply negb_true_iff in He. }
  split; [exact Hnd|]. split; [exact Hin|]. split; [exact Hcustom|]. split.
  - intros e f Hf He.
    apply NoDup_count_occ' with (decA := string_dec); [exact Hnd|].
    apply Hin. exists (parseFile rfs jp tp f). split; [|exact He].
    unfold pr, mainLoop. rewrite results_fold. simpl.
    apply filter_In. split; [now apply in_map|].
    unfold hasContent.
    destruct (jsxElements (parseFile rfs jp tp f)) as [[|x l]|];
      simpl in He; try tauto.
    now rewrite !orb_true_r.
  - intros e He. apply count_occ_not_In. intros Hc.
    apply Hcustom in Hc. congruence.
Qed.

(** C8.  Two files use the custom element [Foo] and one uses the
    standard element [div].  The specification wants [Foo] once in the
    registry and [div] never.  The visitor reads the name of an element
    from the first child of the element node, which is the token of the
    opening bracket, not the name: for each of the three files the
    recorded name is that token, the registry holds it and nothing else,
    [Foo] is not in the registry, and the file that only uses [div] is
    reported with a custom element like the other two. *)
Theorem C8_registry_holds_the_bracket_token :
  let pr := mainLoop markupFiles markupParser markupParser
                     ["src/one.jsx"; "src/plain.jsx"; "src/two.jsx"] in
  jsxElements (parseFile markupFiles markupParser markupParser "src/one.jsx")
  = Some ["<"]
  /\ jsxElements (parseFile markupFiles markupParser markupParser
                            "src/plain.jsx")
     = Some ["<"]
  /\ allCustomElements pr = ["<"]
  /\ count_occ string_dec (allCustomElements pr) "Foo" = 0
  /\ map file (results pr) = ["src/one.jsx"; "src/plain.jsx"; "src/two.jsx"].
Proof. vm_compute. repeat split. Qed.

(** ** The manifest extractor *)




(* ================================================================== *)
(** * Facts about captures *)
(* ================================================================== *)

Module CaptureFacts.
Import Js Regex Mapper Props MoreProps StringFacts RegexFacts.

Lemma classCapture_seq_l (r1 r2 : regex) (n : nat) (t : string) :
  classCapture r1 n t -> classCapture (Seq r1 r2) n t.
Proof.
  intros [p [Hin H]]. exists p. split; [|exact H].
  simpl. apply in_or_app. now left.
Qed.

Lemma classCapture_seq_r (r1 r2 : regex) (n : nat) (t : string) :
  classCapture r2 n t -> classCapture (Seq r1 r2) n t.
Proof.
  intros [p [Hin H]]. exists p. split; [|exact H].
  simpl. apply in_or_app. now right.
Qed.

Section Continuations.
Variable R : Type.

Lemma star_inv_class (p : ascii -> bool) (k : string -> option R)
      (s : string) (res : R) :
  star p s k = Some res ->
  exists u s', s = (u ++ s')%string /\ allChars p u = true /\ k s' = Some res.
Proof.
  induction s as [|c s IH]; simpl.
  - intros H. now exists EmptyString, EmptyString.
  - destruct (p c) eqn:Hc.
    + destruct (star p s k) as [r|] eqn:E.
      * intros H. inversion H; subst r.
        destruct (IH eq_refl) as [u [s' [Hs [Hu Hk]]]].
        exists (String c u), s'. simpl. rewrite <- Hs, Hc, Hu. auto.
      * intros H. now exists EmptyString, (String c s).
    + intros H. now exists EmptyString, (String c s).
Qed.

(** Every capture a run adds is a non-empty text of the class of its
    group. *)
Lemma run_caps (r : regex) :
  simpleGroups r = true ->
  forall (s : string) (cs : caps) (k : string -> caps -> option R) (res : R),
    run r s cs k = Some res ->
    exists s' cs',
      k s' cs' = Some res /\
      (forall n t, In (n, t) cs' -> In (n, t) cs \/ classCapture r n t).
Proof.
  induction r as [l | p | p | r1 IH1 r2 IH2 | r1 IH1 | n r1 IH1];
    intros Hs s cs k res H; simpl in H.
  - destruct (stripPrefix l s) as [s'|]; [|discriminate].
    exists s', cs. auto.
  - destruct s as [|c s']; [discriminate|].
    destruct (p c); [|discriminate]. exists s', cs. auto.
  - unfold plus in H. destruct s as [|c s0]; [discriminate|].
    destruct (p c); [|discriminate].
    apply star_inv in H. destruct H as [u [s' [_ Hk]]].
    exists s', cs. auto.
  - simpl in Hs. apply andb_true_iff in Hs. destruct Hs as [Hs1 Hs2].
    apply (IH1 Hs1) in H. destruct H as [s1 [cs1 [Hk1 Hc1]]].
    apply (IH2 Hs2) in Hk1. destruct Hk1 as [s2 [cs2 [Hk2 Hc2]]].
    exists s2, cs2. split; [exact Hk2|].
    intros m t Hin. destruct (Hc2 m t Hin) as [Hold | Hnew].
    + destruct (Hc1 m t Hold) as [Hold' | Hnew'];
        [now left | right; now apply classCapture_seq_l].
    + right. now apply classCapture_seq_r.
  - simpl in Hs. destruct (run r1 s cs k) as [res'|] eqn:E.
    + inversion H; subst res'. apply (IH1 Hs) in E.
      destruct E as [s' [cs' [Hk Hc]]]. exists s', cs'. split; [exact Hk|].
      intros m t Hin. destruct (Hc m t Hin) as [Hold | [q [Hq Hq']]];
        [now left | right; now exists q].
    + exists s, cs. auto.
  - destruct r1 as [l | p | p | r1 r2 | r1 | m r1]; try discriminate.
    clear IH1. simpl in H. unfold plus in H.
    destruct s as [|c s0]; [discriminate|].
    destruct (p c) eqn:Hc; [|discriminate].
    apply star_inv_class in H. destruct H as [u [s' [Hu [Hall Hk]]]].
    exists s', ((n, consumed (String c s0) s') :: cs). split; [exact Hk|].
    intros m t [Heq | Hin]; [|now left].
    inversion Heq; subst m t. right. exists p. split; [now left|].
    rewrite Hu.
    change (String c (u ++ s')) with (String c u ++ s')%string.
    rewrite consumed_app. simpl. now rewrite Hc, Hall.
Qed.

Lemma group_cons_other (m n : nat) (t : string) (cs : caps) :
  group cs n <> None -> group ((m, t) :: cs) n <> None.
Proof.
  simpl. destruct (Nat.eqb m n); [discriminate | auto].
Qed.

(** A run fills its mandatory groups and keeps the filled ones filled. *)
Lemma run_mandatory (r : regex) :
  forall (s : string) (cs : caps) (k : string -> caps -> option R) (res : R),
    run r s cs k = Some res ->
    exists s' cs',
      k s' cs' = Some res /\
      (forall n, In n (mandatoryGroups r) \/ group cs n <> None ->
                 group cs' n <> None).
Proof.
  induction r as [l | p | p | r1 IH1 r2 IH2 | r1 IH1 | n r1 IH1];
    intros s cs k res H; simpl in H.
  - destruct (stripPrefix l s) as [s'|]; [|discriminate].
    exists s', cs. split; [exact H|]. intros n [[] | Hn]. exact Hn.
  - destruct s as [|c s']; [discriminate|].
    destruct (p c); [|discriminate]. exists s', cs.
    split; [exact H|]. intros n [[] | Hn]. exact Hn.
  - unfold plus in H. destruct s as [|c s0]; [discriminate|].
    destruct (p c); [|discriminate].
    apply star_inv in H. destruct H as [u [s' [_ Hk]]].
    exists s', cs. split; [exact Hk|]. intros n [[] | Hn]. exact Hn.
  - apply IH1 in H. destruct H as [s1 [cs1 [Hk1 Hc1]]].
    apply IH2 in Hk1. destruct Hk1 as [s2 [cs2 [Hk2 Hc2]]].
    exists s2, cs2. split; [exact Hk2|].
    intros n [Hn | Hn].
    + simpl in Hn. apply in_app_or in Hn. destruct Hn as [Hn | Hn].
      * apply Hc2. right. apply Hc1. now left.
      * apply Hc2. now left.
    + apply Hc2. right. apply Hc1. now right.
  - destruct (run r1 s cs k) as [res'|] eqn:E.
    + inversion H; subst res'. apply IH1 in E.
      destruct E as [s' [cs' [Hk Hc]]]. exists s', cs'. split; [exact Hk|].
      intros n [[] | Hn]. apply Hc. now right.
    + exists s, cs. split; [exact H|]. intros n [[] | Hn]. exact Hn.
  - apply IH1 in H. destruct H as [s' [cs' [Hk Hc]]].
    exists s', ((n, consumed s s') :: cs'). split; [exact Hk|].
    intros m [[Hm | Hm] | Hm].
    + subst m. simpl. now rewrite Nat.eqb_refl.
    + apply group_cons_other. apply Hc. now left.
    + apply group_cons_other. apply Hc. now right.
Qed.
End Continuations.

Lemma matchAt_ok (r : regex) (s rest : string) (m : caps) :
  simpleGroups r = true -> matchAt r s = Some (m, rest) -> matchOk r m.
Proof.
  intros Hs H. unfold matchAt in H. split.
  - apply (run_caps _ r Hs) in H. destruct H as [s' [cs' [Hk Hc]]].
    inversion Hk; subst. intros n t Hin.
    destruct (Hc n t Hin) as [[] | Hn]. exact Hn.
  - apply run_mandatory in H. destruct H as [s' [cs' [Hk Hc]]].
    inversion Hk; subst. intros n Hn. apply Hc. now left.
Qed.

Lemma search_ok (r : regex) (s rest : string) (m : caps) :
  simpleGroups r = true -> search r s = Some (m, rest) -> matchOk r m.
Proof.
  intros Hs. induction s as [|c s IH]; simpl.
  - destruct (matchAt r EmptyString) as [res|] eqn:E; [|discriminate].
    intros H. inversion H; subst res. eapply matchAt_ok; eassumption.
  - destruct (matchAt r (String c s)) as [res|] eqn:E.
    + intros H. inversion H; subst res. eapply matchAt_ok; eassumption.
    + exact IH.
Qed.

Lemma execAll_ok (r : regex) (content : string) :
  simpleGroups r = true ->
  forall f li m, In m (fst (execAll f r content li)) -> matchOk r m.
Proof.
  intros Hs. induction f as [|f IH]; intros li m; simpl; [tauto|].
  unfold exec. destruct (length content <? li); [simpl; tauto|].
  destruct (search r (drop li content)) as [[cs rest]|] eqn:E; [|simpl; tauto].
  specialize (IH (length content - length rest) m).
  destruct (execAll f r content (length content - length rest)) as [ms final].
  simpl in *. intros [Heq | Hin]; [|now apply IH].
  subst m. eapply search_ok; eassumption.
Qed.

(** The text of a group whose only class in [r] is [p]. *)
Lemma capture_class (r : regex) (m : caps) (n : nat) (t : string)
      (p : ascii -> bool) :
  matchOk r m ->
  (forall q, In (n, q) (groupClasses r) -> q = p) ->
  group m n = Some t ->
  truthy t = true /\ allChars p t = true.
Proof.
  intros [Hc _] Hp Hg. apply group_In in Hg.
  destruct (Hc n t Hg) as [q [Hq [H1 H2]]].
  rewrite (Hp q Hq) in H2. now split.
Qed.

Lemma mandatory_group (r : regex) (m : caps) (n : nat) :
  matchOk r m -> In n (mandatoryGroups r) ->
  exists t, group m n = Some t /\ groupText m n = t.
Proof.
  intros [_ Hm] Hn. specialize (Hm n Hn). unfold groupText.
  destruct (group m n) as [t|]; [now exists t | contradiction].
Qed.

End CaptureFacts.


(* ================================================================== *)
(** * Facts about file discovery *)
(* ================================================================== *)

Module TraversalFacts.
Import Js Regex Mapper Traversal Props MoreProps StringFacts.

(** Induction on directory listings, with the hypothesis on every entry
    of a directory. *)
Lemma Dirent_induction (P : Dirent -> Prop) :
  (forall n, P (File n)) ->
  (forall n es, Forall P es -> P (Directory n es)) ->
  (forall n, P (Other n)) ->
  forall e, P e.
Proof.
  intros Hf Hd Ho. fix self 1. intros [n | n es | n].
  - apply Hf.
  - apply Hd. induction es as [|e es IH]; constructor; [apply self | exact IH].
  - apply Ho.
Qed.

Lemma list_ascii_append (a b : string) :
  list_ascii_of_string (a ++ b) = list_ascii_of_string a ++ list_ascii_of_string b.
Proof. induction a as [|c a IH]; simpl; [reflexivity | now rewrite IH]. Qed.

Lemma noneOf_slash (c : ascii) :
  noneOf ["/"%char] c = true <-> c <> "/"%char.
Proof.
  unfold noneOf, oneOf. simpl. rewrite orb_false_r, negb_true_iff.
  split.
  - intros H Heq. subst c. discriminate.
  - intros H. apply Ascii.eqb_neq. exact H.
Qed.

Lemma allChars_Forall (p : ascii -> bool) (s : string) :
  allChars p s = true <-> Forall (fun c => p c = true) (list_ascii_of_string s).
Proof.
  induction s as [|c s IH]; simpl.
  - split; [constructor | reflexivity].
  - rewrite andb_true_iff, IH. split.
    + intros [H1 H2]. now constructor.
    + intros H. inversion H. now split.
Qed.

Lemma stripTrailingSlashes_cons (c : ascii) (r : list ascii) :
  c <> "/"%char -> stripTrailingSlashes (c :: r) = c :: r.
Proof.
  intros H. destruct c as [[] [] [] [] [] [] [] []];
    try reflexivity; contradiction H; reflexivity.
Qed.

Lemma revSegment_cons (c : ascii) (r : list ascii) :
  c <> "/"%char -> revSegment (c :: r) = c :: revSegment r.
Proof.
  intros H. destruct c as [[] [] [] [] [] [] [] []];
    try reflexivity; contradiction H; reflexivity.
Qed.

Lemma revSegment_app (l y : list ascii) :
  Forall (fun c => c <> "/"%char) l ->
  revSegment (l ++ "/"%char :: y) = l /\ revSegment l = l.
Proof.
  induction 1 as [|c l Hc _ [IH1 IH2]]; simpl app.
  - split; reflexivity.
  - rewrite !revSegment_cons by exact Hc. now rewrite IH1, IH2.
Qed.

(** [extname] only looks at the last segment of a path. *)
Lemma extname_join (dir name : string) :
  entryName name = true -> extname (join dir name) = extname name.
Proof.
  intros Hn. unfold join. destruct (dir =? ".")%string; [reflexivity|].
  unfold entryName in Hn. rewrite !andb_true_iff in Hn.
  destruct Hn as [[[Hne Hall] _] _].
  apply allChars_Forall in Hall.
  assert (Hrev : Forall (fun c => c <> "/"%char) (rev (list_ascii_of_string name))).
  { apply Forall_rev. eapply Forall_impl; [|exact Hall].
    intros c Hc. now apply noneOf_slash. }
  unfold extname. rewrite !list_ascii_append. simpl list_ascii_of_string at 2.
  rewrite !rev_app_distr. simpl rev at 2. rewrite <- !app_assoc. simpl app at 2.
  destruct (rev (list_ascii_of_string name)) as [|c l] eqn:E.
  { destruct name; [discriminate|]. simpl in E.
    apply app_eq_nil in E. destruct E as [_ E]. discriminate. }
  inversion Hrev as [|c' l' Hc Hl]; subst.
  simpl app. rewrite !stripTrailingSlashes_cons by exact Hc.
  change (c :: l ++ "/"%char :: rev (list_ascii_of_string dir))
    with ((c :: l) ++ "/"%char :: rev (list_ascii_of_string dir)).
  destruct (revSegment_app (c :: l) (rev (list_ascii_of_string dir)) Hrev)
    as [H1 H2].
  now rewrite H1, H2.
Qed.

Lemma segmentsFrom_noslash (name : string) :
  allChars (noneOf ["/"%char]) name = true ->
  forall cur, segmentsFrom cur name = [(cur ++ name)%string].
Proof.
  induction name as [|c name IH]; intros H cur; simpl.
  - now rewrite append_empty_r.
  - simpl in H. apply andb_true_iff in H. destruct H as [Hc H].
    apply noneOf_slash in Hc. apply Ascii.eqb_neq in Hc. rewrite Hc.
    rewrite (IH H). now rewrite append_assoc.
Qed.

Lemma segmentsFrom_join (dir name : string) :
  allChars (noneOf ["/"%char]) name = true ->
  forall cur,
    segmentsFrom cur (dir ++ "/" ++ name) = segmentsFrom cur dir ++ [name].
Proof.
  intros Hn. induction dir as [|c dir IH]; intros cur; simpl.
  - now rewrite (segmentsFrom_noslash name Hn).
  - destruct (Ascii.eqb c "/"%char); simpl; now rewrite IH.
Qed.

Lemma join_not_root (dir name : string) :
  entryName name = true -> (join dir name =? ".")%string = false.
Proof.
  intros Hn. unfold entryName in Hn. rewrite !andb_true_iff in Hn.
  destruct Hn as [[_ Hdot] _]. apply negb_true_iff in Hdot.
  unfold join. destruct (dir =? ".")%string; [exact Hdot|].
  apply String.eqb_neq. intros H.
  destruct dir as [|c dir]; simpl in H; [discriminate|].
  inversion H as [[Hc Hd]]. destruct dir; discriminate.
Qed.

(** [join] adds the entry name as the last segment. *)
Lemma dirSegments_join (dir name : string) :
  entryName name = true ->
  dirSegments (join dir name) = dirSegments dir ++ [name].
Proof.
  intros Hn. unfold dirSegments at 1. rewrite (join_not_root dir name Hn).
  unfold entryName in Hn. rewrite !andb_true_iff in Hn.
  destruct Hn as [[[_ Hall] _] _].
  unfold join, dirSegments. destruct (dir =? ".")%string.
  - unfold segments. now rewrite (segmentsFrom_noslash name Hall).
  - unfold segments. now apply segmentsFrom_join.
Qed.

End TraversalFacts.

(* ================================================================== *)
(** * Further properties of the script *)
(* ================================================================== *)

Import Traversal MoreProps CaptureFacts TraversalFacts.

(** ** File discovery *)

Lemma visitEntry_extension (e : Dirent) :
  wellNamed e = true ->
  forall dir p,
    In p (visitEntry dir e) ->
    has DISCOVERED_EXTENSIONS (toLowerCase (extname p)) = true.
Proof.
  induction e as [n | n es IH | n] using Dirent_induction;
    intros Hw dir p; cbn [visitEntry].
  - destruct (has IGNORE_DIRS n); [simpl; tauto|].
    destruct (has DISCOVERED_EXTENSIONS (toLowerCase (extname n))) eqn:E;
      [|simpl; tauto].
    intros [Hp | []]. subst p. simpl in Hw. now rewrite (extname_join dir n Hw).
  - destruct (has IGNORE_DIRS n); [simpl; tauto|].
    simpl in Hw. apply andb_true_iff in Hw. destruct Hw as [_ Hes].
    rewrite forallb_forall in Hes. rewrite Forall_forall in IH.
    intros Hin. apply in_flat_map in Hin. destruct Hin as [e [He Hp]].
    exact (IH e He (Hes e He) _ _ Hp).
  - simpl. tauto.
Qed.

(** X1.  Every path [getJSFiles] yields has one of the eight extensions
    of its filter, up to case, and that is the extension of the whole
    path, the one [parseFile] later dispatches on; the test itself is
    made on the entry name alone. *)
Theorem X1_discovered_paths_have_listed_extensions :
  forall (dir : string) (entries : list Dirent) (p : string),
    forallb wellNamed entries = true ->
    In p (getJSFiles dir entries) ->
    has DISCOVERED_EXTENSIONS (toLowerCase (extname p)) = true.
Proof.
  intros dir entries p Hw Hin. unfold getJSFiles in Hin.
  apply in_flat_map in Hin. destruct Hin as [e [He Hp]].
  rewrite forallb_forall in Hw.
  exact (visitEntry_extension e (Hw e He) dir p Hp).
Qed.

(** X1, witness: the Kotlin file of [sampleTree]. *)
Lemma X1_witness :
  has DISCOVERED_EXTENSIONS (toLowerCase (extname "android/app/Main.kt")) = true.
Proof.
  apply (X1_discovered_paths_have_listed_extensions
           ROOT_DIR sampleTree "android/app/Main.kt").
  - reflexivity.
  - vm_compute. right. right. left. reflexivity.
Defined.

Lemma visitEntry_segments (e : Dirent) :
  wellNamed e = true ->
  forall dir p,
    In p (visitEntry dir e) ->
    (p =? ".")%string = false
    /\ exists mid,
         dirSegments p = dirSegments dir ++ mid
         /\ forallb (fun seg => negb (has IGNORE_DIRS seg)) mid = true.
Proof.
  induction e as [n | n es IH | n] using Dirent_induction;
    intros Hw dir p; cbn [visitEntry].
  - destruct (has IGNORE_DIRS n) eqn:Hi; [simpl; tauto|].
    destruct (has DISCOVERED_EXTENSIONS _); [|simpl; tauto].
    intros [Hp | []]. subst p. simpl in Hw. split.
    + now apply join_not_root.
    + exists [n]. split; [now apply dirSegments_join|].
      cbn [forallb]. now rewrite Hi.
  - destruct (has IGNORE_DIRS n) eqn:Hi; [simpl; tauto|].
    simpl in Hw. apply andb_true_iff in Hw. destruct Hw as [Hn Hes].
    rewrite forallb_forall in Hes. rewrite Forall_forall in IH.
    intros Hin. apply in_flat_map in Hin. destruct Hin as [e [He Hp]].
    destruct (IH e He (Hes e He) _ _ Hp) as [Hroot [mid [Hseg Hmid]]].
    split; [exact Hroot|]. exists (n :: mid). split.
    + rewrite Hseg, (dirSegments_join dir n Hn). now rewrite <- app_assoc.
    + cbn [forallb]. now rewrite Hi, Hmid.
  - simpl. tauto.
Qed.

(** X2.  No path [getJSFiles] yields from the root has a segment named
    like an ignored directory: an entry with such a name, file or
    directory, is skipped at every depth. *)
Theorem X2_no_discovered_path_crosses_an_ignored_name :
  forall (entries : list Dirent) (p : string),
    forallb wellNamed entries = true ->
    In p (getJSFiles ROOT_DIR entries) ->
    forallb (fun seg => negb (has IGNORE_DIRS seg)) (segments p) = true.
Proof.
  intros entries p Hw Hin. unfold getJSFiles in Hin.
  apply in_flat_map in Hin. destruct Hin as [e [He Hp]].
  rewrite forallb_forall in Hw.
  destruct (visitEntry_segments e (Hw e He) ROOT_DIR p Hp)
    as [Hroot [mid [Hseg Hmid]]].
  unfold dirSegments in Hseg. rewrite Hroot in Hseg. simpl in Hseg.
  now rewrite Hseg.
Qed.

(** X2, witness: the Kotlin file of [sampleTree]; the Java file under
    [android/build] is not yielded. *)
Lemma X2_witness :
  forallb (fun seg => negb (has IGNORE_DIRS seg))
          (segments "android/app/Main.kt") = true.
Proof.
  apply (X2_no_discovered_path_crosses_an_ignored_name
           sampleTree "android/app/Main.kt").
  - reflexivity.
  - vm_compute. right. right. left. reflexivity.
Defined.

(** ** The dispatcher *)

Lemma endsWith_split (s suffix : string) :
  endsWith s suffix = true -> exists u, s = (u ++ suffix)%string.
Proof.
  unfold endsWith. intros H. apply andb_true_iff in H. destruct H as [_ H].
  apply String.eqb_eq in H.
  destruct (drop_split (length s - length suffix) s) as [u [Hu _]].
  exists u. now rewrite <- H.
Qed.

(** A path that ends in [AndroidManifest.xml] has the extension [.xml]. *)
Lemma manifest_extname (filePath : string) :
  endsWith filePath "AndroidManifest.xml" = true -> extname filePath = ".xml".
Proof.
  intros H. apply endsWith_split in H. destruct H as [u Hu]. subst filePath.
  unfold extname. rewrite list_ascii_append, rev_app_distr.
  cbn [list_ascii_of_string rev app stripTrailingSlashes revSegment revExt].
  reflexivity.
Qed.

(** X3.  The test for the manifest comes first in [parseFile], and it
    never takes a file away from the widget-language or the
    platform-language extractor: a path that ends in
    [AndroidManifest.xml] has the extension [.xml], so its record is
    flagged as a platform file, not as a widget-language file, and a path
    with the extension [.dart], [.java] or [.kt] is no manifest. *)
Theorem X3_manifest_paths_have_the_xml_extension :
  forall (readFileSync : string -> string) (jsParser tsParser : string -> Node)
         (filePath : string),
    endsWith filePath "AndroidManifest.xml" = true ->
    let fi := parseFile readFileSync jsParser tsParser filePath in
    toLowerCase (extname filePath) = ".xml"
    /\ has [".dart"; ".java"; ".kt"] (toLowerCase (extname filePath)) = false
    /\ isAndroidFile fi = Some true
    /\ isDartFile fi = Some false
    /\ isFlutterFile fi = Some false.
Proof.
  intros rfs jp tp filePath H fi.
  assert (Hext : toLowerCase (extname filePath) = ".xml")
    by (now rewrite (manifest_extname filePath H)).
  unfold fi, parseFile. cbv zeta. rewrite H, Hext. repeat split.
Qed.

(** X3, witness: the manifest of [sampleTree]. *)
Lemma X3_witness :
  let fi := parseFile sampleFiles sampleParser sampleParser
                      "android/app/AndroidManifest.xml" in
  toLowerCase (extname "android/app/AndroidManifest.xml") = ".xml"
  /\ has [".dart"; ".java"; ".kt"]
         (toLowerCase (extname "android/app/AndroidManifest.xml")) = false
  /\ isAndroidFile fi = Some true
  /\ isDartFile fi = Some false
  /\ isFlutterFile fi = Some false.
Proof.
  apply (X3_manifest_paths_have_the_xml_extension
           sampleFiles sampleParser sampleParser
           "android/app/AndroidManifest.xml").
  reflexivity.
Defined.

(** ** The main loop *)

Lemma hasReactFiles_fold (readFileSync : string -> string)
      (jsParser tsParser : string -> Node) (files : list string) :
  forall pr,
    hasReactFiles (fold_left (visitFile readFileSync jsParser tsParser) files pr)
    = hasReactFiles pr
      || existsb usesReact
           (filter hasContent (map (parseFile readFileSync jsParser tsParser) files)).
Proof.
  induction files as [|f files IH]; intros pr; cbn [fold_left map filter].
  - simpl. now rewrite orb_false_r.
  - rewrite IH. unfold visitFile. cbv zeta.
    destruct (hasContent (parseFile readFileSync jsParser tsParser f));
      cbn [hasReactFiles existsb]; [|reflexivity].
    fold (usesReact (parseFile readFileSync jsParser tsParser f)).
    destruct (usesReact (parseFile readFileSync jsParser tsParser f));
      simpl; [now rewrite orb_true_r | reflexivity].
Qed.

(** X4.  [hasReact] of the output is true exactly when one of the
    reported records has embedded markup or an import whose source
    contains [react]: a file that is not reported does not count, even
    when it has markup (only standard element names, no symbol, no
    import). *)
Theorem X4_hasReact_looks_at_reported_records_only :
  forall (readFileSync : string -> string) (jsParser tsParser : string -> Node)
         (files : list string),
    hasReactFiles (mainLoop readFileSync jsParser tsParser files)
    = existsb usesReact (results (mainLoop readFileSync jsParser tsParser files)).
Proof.
  intros rfs jp tp files. unfold mainLoop.
  rewrite hasReactFiles_fold, results_fold. reflexivity.
Qed.

(** X5.  The report lists the paths of the discovered files that have
    content, each as often as it was discovered and in the order of
    discovery; the record listed for a path is the record [parseFile]
    builds for it and carries that path. *)
Theorem X5_report_follows_discovery_order :
  forall (readFileSync : string -> string) (jsParser tsParser : string -> Node)
         (files : list string),
    map file (results (mainLoop readFileSync jsParser tsParser files))
    = filter (fun p => hasContent (parseFile readFileSync jsParser tsParser p))
             files
    /\ results (mainLoop readFileSync jsParser tsParser files)
       = map (parseFile readFileSync jsParser tsParser)
             (map file (results (mainLoop readFileSync jsParser tsParser files))).
Proof.
  intros rfs jp tp files. unfold mainLoop. rewrite results_fold. simpl.
  induction files as [|f files [IH1 IH2]]; simpl; [split; reflexivity|].
  destruct (hasContent (parseFile rfs jp tp f)); simpl.
  - rewrite parseFile_file, IH1. split; [reflexivity|]. now rewrite <- IH1, <- IH2.
  - split; assumption.
Qed.

(** ** The platform-language extractor *)

(** No match of an expression that starts with a literal in a text
    without that literal. *)
Lemma search_literal_none (l : string) (r : regex) (s : string) :
  includes s l = false -> search (Seq (Lit l) r) s = None.
Proof.
  induction s as [|c s IH]; intros H.
  - cbn [includes] in H. apply orb_false_iff in H. destruct H as [H _].
    cbn [search]. unfold matchAt. cbn [run].
    now rewrite (stripPrefix_none _ _ H).
  - apply includes_tail in H. destruct H as [H1 H2].
    cbn [search]. unfold matchAt at 1. cbn [run].
    rewrite (stripPrefix_none _ _ H1). now apply IH.
Qed.

Lemma execAll_literal_none (l : string) (r : regex) (content : string) :
  includes content l = false ->
  execAll (loopFuel content) (Seq (Lit l) r) content 0 = ([], 0).
Proof.
  intros H. unfold loopFuel. cbn [execAll]. unfold exec.
  cbn [Nat.ltb Nat.leb drop]. now rewrite (search_literal_none l r content H).
Qed.

Lemma androidClassStep_map (ms : list caps) :
  forall l,
    fold_left androidClassStep ms (Some l) = Some (l ++ map androidSymbol ms).
Proof.
  induction ms as [|m ms IH]; intros l; cbn [fold_left map].
  - now rewrite app_nil_r.
  - unfold androidClassStep at 2. cbn [optPush]. fold (androidSymbol m).
    rewrite IH. now rewrite <- app_assoc.
Qed.

(** A path with the extension [.java] or [.kt] goes to
    [parseAndroidFile]. *)
Lemma parseFile_android (readFileSync : string -> string)
      (jsParser tsParser : string -> Node) (filePath : string) :
  has [".java"; ".kt"] (toLowerCase (extname filePath)) = true ->
  parseFile readFileSync jsParser tsParser filePath
  = parseAndroidFile filePath (readFileSync filePath)
      (initialFileInfo filePath (readFileSync filePath)
                       (toLowerCase (extname filePath))).
Proof.
  intros H. unfold parseFile. cbv zeta.
  destruct (endsWith filePath "AndroidManifest.xml") eqn:E.
  { rewrite (manifest_extname filePath E) in H. discriminate. }
  apply has_In in H. destruct H as [H | [H | []]]; rewrite <- H; reflexivity.
Qed.

Lemma androidClassRegex_simple : simpleGroups androidClassRegex = true.
Proof. reflexivity. Qed.

Lemma androidSymbol_platform (m : caps) :
  matchOk androidClassRegex m -> platformSymbol (androidSymbol m) = true.
Proof.
  intros Hm.
  destruct (mandatory_group androidClassRegex m 1 Hm ltac:(simpl; auto))
    as [t [Hg Ht]].
  assert (H1 : truthy t = true /\ allChars word t = true).
  { apply (capture_class androidClassRegex m 1 t word Hm); [|exact Hg].
    simpl. intros q Hq.
    repeat (destruct Hq as [Hq | Hq]; [inversion Hq; reflexivity|]).
    destruct Hq. }
  unfold platformSymbol, androidSymbol. cbn [name kind extends properties
    methods isWidget isStateful isStateless stateManagement hasTests
    annotations dependencies absent].
  rewrite Ht. unfold wordText at 1. destruct H1 as [-> ->].
  destruct (group m 2) as [e|] eqn:He; [|reflexivity].
  assert (H2 : truthy e = true /\ allChars word e = true).
  { apply (capture_class androidClassRegex m 2 e word Hm); [|exact He].
    simpl. intros q Hq.
    repeat (destruct Hq as [Hq | Hq]; [inversion Hq; reflexivity|]).
    destruct Hq. }
  cbn [absentOrWord]. unfold wordText. destruct H2 as [-> ->]. reflexivity.
Qed.

(** X6.  Every symbol of a [.java] or [.kt] file is a class whose name
    is a non-empty word, whose superclass, when there is one, is a
    non-empty word, and which has no member list and no widget field;
    its [androidComponent] is its superclass when that is one of the six
    names of [ANDROID_COMPONENTS], and absent otherwise. *)
Theorem X6_platform_symbols :
  forall (readFileSync : string -> string) (jsParser tsParser : string -> Node)
         (filePath : string) (s : SymbolInfo),
    has [".java"; ".kt"] (toLowerCase (extname filePath)) = true ->
    In s (elems (symbols (parseFile readFileSync jsParser tsParser filePath))) ->
    platformSymbol s = true
    /\ androidComponent s
       = (if has ANDROID_COMPONENTS (orEmpty (extends s)) then extends s
          else None)
    /\ (forall c, androidComponent s = Some c ->
                  extends s = Some c /\ In c ANDROID_COMPONENTS).
Proof.
  intros rfs jp tp filePath s Hext Hin.
  rewrite (parseFile_android rfs jp tp filePath Hext) in Hin.
  unfold parseAndroidFile in Hin. cbn [symbols initialFileInfo] in Hin.
  rewrite androidClassStep_map in Hin. cbn [elems app] in Hin.
  apply in_map_iff in Hin. destruct Hin as [m [Hs Hm]]. subst s.
  apply (execAll_ok _ _ androidClassRegex_simple) in Hm.
  split; [now apply androidSymbol_platform|].
  split; [reflexivity|].
  intros c. cbn [androidComponent extends androidSymbol].
  destruct (has ANDROID_COMPONENTS (orEmpty (group m 2))) eqn:E;
    [|discriminate].
  intros Hc. split; [exact Hc|].
  rewrite Hc in E. now apply has_In in E.
Qed.

(** X6, witness: the activity of [sampleJava]. *)
Lemma X6_witness :
  platformSymbol mainActivitySymbol = true
  /\ androidComponent mainActivitySymbol
     = (if has ANDROID_COMPONENTS (orEmpty (extends mainActivitySymbol))
        then extends mainActivitySymbol else None)
  /\ (forall c, androidComponent mainActivitySymbol = Some c ->
                extends mainActivitySymbol = Some c /\ In c ANDROID_COMPONENTS).
Proof.
  apply (X6_platform_symbols moreFiles sampleParser sampleParser
                             "app/src/MainActivity.java" mainActivitySymbol).
  - reflexivity.
  - vm_compute. left. reflexivity.
Defined.

(** X7.  The record of a [.java] or [.kt] file never has an import, an
    element name, markup, manifest data or a state pattern, so it is
    reported exactly when a class was found; a text without the word
    [class] gives no symbol and the file is not reported. *)
Theorem X7_platform_records :
  forall (readFileSync : string -> string) (jsParser tsParser : string -> Node)
         (filePath : string),
    has [".java"; ".kt"] (toLowerCase (extname filePath)) = true ->
    let fi := parseFile readFileSync jsParser tsParser filePath in
    imports fi = Some [] /\ hasJsx fi = None /\ jsxElements fi = None
    /\ androidManifest fi = None /\ statePattern fi = None
    /\ hasContent fi = negb (isNil (elems (symbols fi)))
    /\ (includes (readFileSync filePath) "class" = false ->
        symbols fi = Some [] /\ hasContent fi = false).
Proof.
  intros rfs jp tp filePath Hext fi. unfold fi.
  rewrite (parseFile_android rfs jp tp filePath Hext).
  unfold parseAndroidFile. cbn [symbols imports hasJsx jsxElements
    androidManifest statePattern initialFileInfo].
  rewrite androidClassStep_map. cbn [app].
  repeat (split; [reflexivity|]). split.
  - unfold hasContent. cbn [symbols imports jsxElements nonEmpty elems].
    now destruct (map androidSymbol _).
  - intros Hc. unfold androidClassRegex.
    rewrite (execAll_literal_none _ _ _ Hc). split; reflexivity.
Qed.

(** X7, witness: the Java file of the sample inputs. *)
Lemma X7_witness :
  let fi := parseFile moreFiles sampleParser sampleParser
                      "app/src/MainActivity.java" in
  imports fi = Some [] /\ hasJsx fi = None /\ jsxElements fi = None
  /\ androidManifest fi = None /\ statePattern fi = None
  /\ hasContent fi = negb (isNil (elems (symbols fi)))
  /\ (includes (moreFiles "app/src/MainActivity.java") "class" = false ->
      symbols fi = Some [] /\ hasContent fi = false).
Proof.
  apply (X7_platform_records moreFiles sampleParser sampleParser
                             "app/src/MainActivity.java").
  reflexivity.
Defined.

(** ** The widget-language extractor *)

Lemma dartClassRegex_simple : simpleGroups dartClassRegex = true.
Proof. reflexivity. Qed.

(** The name and the superclass of a class match are non-empty words. *)
Lemma dartClass_words (m : caps) :
  matchOk dartClassRegex m ->
  wordText (groupText m 1) = true /\ group m 1 = Some (groupText m 1)
  /\ absentOrWord (group m 2) = true.
Proof.
  intros Hm.
  destruct (mandatory_group dartClassRegex m 1 Hm ltac:(simpl; auto))
    as [t [Hg Ht]].
  assert (H1 : truthy t = true /\ allChars word t = true).
  { apply (capture_class dartClassRegex m 1 t word Hm); [|exact Hg].
    simpl. intros q Hq.
    repeat (destruct Hq as [Hq | Hq]; [inversion Hq; reflexivity|]).
    destruct Hq. }
  rewrite Ht. split; [|split; [exact Hg|]].
  - unfold wordText. destruct H1 as [-> ->]. reflexivity.
  - destruct (group m 2) as [e|] eqn:He; [|reflexivity].
    assert (H2 : truthy e = true /\ allChars word e = true).
    { apply (capture_class dartClassRegex m 2 e word Hm); [|exact He].
      simpl. intros q Hq.
      repeat (destruct Hq as [Hq | Hq]; [inversion Hq; reflexivity|]).
      destruct Hq. }
    unfold absentOrWord, wordText. destruct H2 as [-> ->]. reflexivity.
Qed.

(** X8.  Every symbol of a [.dart] file is a class whose name is a
    non-empty word of the file text and whose superclass, when there is
    one, is a non-empty word of the file text; it carries the three
    widget flags and the dependencies of the file, and no member list;
    it is a widget exactly when its superclass is one of
    [FLUTTER_WIDGETS] or one of its two widget patterns is in the text. *)
Theorem X8_widget_symbols :
  forall (readFileSync : string -> string) (jsParser tsParser : string -> Node)
         (filePath : string) (s : SymbolInfo),
    toLowerCase (extname filePath) = ".dart" ->
    In s (elems (symbols (parseFile readFileSync jsParser tsParser filePath))) ->
    widgetSymbol s = true
    /\ isWidget s
       = Some (has FLUTTER_WIDGETS (orEmpty (extends s))
               || flag (isStateless s) || flag (isStateful s))
    /\ infix (name s) (readFileSync filePath)
    /\ (forall e, extends s = Some e -> infix e (readFileSync filePath))
    /\ dependencies s = Some (getDartDependencies (readFileSync filePath)).
Proof.
  intros rfs jp tp filePath s Hext Hin.
  destruct (dart_symbols rfs jp tp filePath s Hext Hin) as [m [Hm Hs]].
  assert (Hok := execAll_ok _ _ dartClassRegex_simple _ _ _ Hm).
  destruct (dartClass_words m Hok) as [Hname [Hg1 Hext2]].
  subst s. cbn [name extends isWidget isStateless isStateful dependencies
                dartClassSymbol flag].
  split; [|split; [reflexivity|split; [|split; [|reflexivity]]]].
  - unfold widgetSymbol, dartClassSymbol. cbv zeta.
    cbn [name kind extends properties methods isWidget isStateful isStateless
         dependencies androidComponent hasTests absent negb].
    rewrite Hname, Hext2. reflexivity.
  - apply group_In in Hg1.
    exact (execAll_infix _ _ dartClassRegex_progress _ _ _ _ _ Hm Hg1).
  - intros e He. exact (dart_extends_infix (rfs filePath) m e Hm He).
Qed.

(** X8, witness: the first class of [annotatedDart]. *)
Lemma X8_witness :
  widgetSymbol annotatedSymbol = true
  /\ isWidget annotatedSymbol
     = Some (has FLUTTER_WIDGETS (orEmpty (extends annotatedSymbol))
             || flag (isStateless annotatedSymbol)
             || flag (isStateful annotatedSymbol))
  /\ infix (name annotatedSymbol) (moreFiles "lib/a.dart")
  /\ (forall e, extends annotatedSymbol = Some e ->
                infix e (moreFiles "lib/a.dart"))
  /\ dependencies annotatedSymbol
     = Some (getDartDependencies (moreFiles "lib/a.dart")).
Proof.
  apply (X8_widget_symbols moreFiles sampleParser sampleParser "lib/a.dart"
                           annotatedSymbol).
  - reflexivity.
  - vm_compute. left. reflexivity.
Defined.

(** A path with the extension [.dart] goes to [parseDartFile]. *)
Lemma parseFile_dart (readFileSync : string -> string)
      (jsParser tsParser : string -> Node) (filePath : string) :
  toLowerCase (extname filePath) = ".dart" ->
  parseFile readFileSync jsParser tsParser filePath
  = parseDartFile filePath (readFileSync filePath)
      (initialFileInfo filePath (readFileSync filePath) ".dart").
Proof.
  intros H. unfold parseFile. cbv zeta. rewrite H.
  destruct (endsWith filePath "AndroidManifest.xml") eqn:E; [|reflexivity].
  rewrite (manifest_extname filePath E) in H. discriminate.
Qed.

(** What a property of every leftmost match at every position gives for
    the matches of a loop. *)
Lemma execAll_search (r : regex) (content : string) (P : caps -> Prop) :
  (forall li cs rest,
      search r (drop li content) = Some (cs, rest) -> P cs) ->
  forall f li m, In m (fst (execAll f r content li)) -> P m.
Proof.
  intros HP. induction f as [|f IH]; intros li m; simpl; [tauto|].
  unfold exec. destruct (length content <? li); [simpl; tauto|].
  destruct (search r (drop li content)) as [[cs rest]|] eqn:E; [|simpl; tauto].
  specialize (IH (length content - length rest) m).
  destruct (execAll f r content (length content - length rest)) as [ms final].
  simpl in *. intros [Heq | Hin]; [|now apply IH].
  subst m. exact (HP li cs rest E).
Qed.

(** A match of the annotation expression is the sign [@] followed by the
    text of its group. *)
Lemma matchAt_annotation (s rest : string) (cs : caps) :
  matchAt annotationRegex s = Some (cs, rest) ->
  exists t, cs = [(1, t)] /\ s = ("@" ++ t ++ rest)%string.
Proof.
  unfold matchAt, annotationRegex. cbn [run].
  destruct (stripPrefix "@" s) as [s1|] eqn:E; [|discriminate].
  apply stripPrefix_some in E. subst s. unfold plus.
  destruct s1 as [|c s1]; [discriminate|].
  destruct (alpha c); [|discriminate].
  intros H. apply star_inv in H. destruct H as [u [s' [Hs Hk]]].
  subst s1. change (String c (u ++ s')) with (String c u ++ s')%string in Hk.
  rewrite consumed_app in Hk. inversion Hk; subst.
  exists (String c u). split; reflexivity.
Qed.

Lemma search_annotation (s rest : string) (cs : caps) :
  search annotationRegex s = Some (cs, rest) ->
  exists t, cs = [(1, t)] /\ infix ("@" ++ t) s.
Proof.
  induction s as [|c s IH]; cbn [search].
  - destruct (matchAt annotationRegex EmptyString) as [res|] eqn:E;
      [|discriminate].
    intros H. inversion H; subst res.
    destruct (matchAt_annotation _ _ _ E) as [t [Hc Hs]]. discriminate.
  - destruct (matchAt annotationRegex (String c s)) as [res|] eqn:E.
    + intros H. inversion H; subst res.
      destruct (matchAt_annotation _ _ _ E) as [t [Hc Hs]].
      exists t. split; [exact Hc|]. rewrite Hs.
      exists EmptyString, rest. reflexivity.
    + intros H. destruct (IH H) as [t [Hc Hi]]. exists t.
      split; [exact Hc|].
      exact (infix_app_r _ (String c EmptyString) s Hi).
Qed.

(** Every annotation a scan recognises is one of [DART_annotations] and
    occurs in the text. *)
Lemma scanAnnotations_sound (content : string) (li : nat) (a : string) :
  In a (fst (scanAnnotations content li)) ->
  In a DART_annotations /\ infix a content.
Proof.
  unfold scanAnnotations.
  assert (H := execAll_search annotationRegex content
                 (fun m => exists t, m = [(1, t)] /\ infix ("@" ++ t) content)).
  destruct (execAll (loopFuel content) annotationRegex content li)
    as [ms final] eqn:E.
  cbn [fst]. intros Hin. apply filter_In in Hin. destruct Hin as [Hin Hhas].
  split; [now apply has_In|].
  apply in_map_iff in Hin. destruct Hin as [m [Ha Hm]].
  assert (Hm' : In m (fst (execAll (loopFuel content) annotationRegex content li)))
    by now rewrite E.
  apply H in Hm'.
  - destruct Hm' as [t [Hmt Hi]]. subst m a. exact Hi.
  - intros li' cs rest Hs. apply search_annotation in Hs.
    destruct Hs as [t [Hc Hi]]. exists t. split; [exact Hc|].
    destruct (drop_split li' content) as [u [Hu _]].
    rewrite Hu. now apply infix_app_r.
Qed.

(** X9.  Every annotation recorded for a class of a [.dart] file is one
    of the nine names of [DART_PATTERNS.annotations] and occurs in the
    file text, and every class of the file carries the same
    annotations. *)
Theorem X9_annotations_are_registered_and_in_the_text :
  forall (readFileSync : string -> string) (jsParser tsParser : string -> Node)
         (filePath : string) (s : SymbolInfo),
    toLowerCase (extname filePath) = ".dart" ->
    In s (elems (symbols (parseFile readFileSync jsParser tsParser filePath))) ->
    (forall a, In a (elems (annotations s)) ->
               In a DART_annotations /\ infix a (readFileSync filePath))
    /\ (forall s',
           In s' (elems (symbols (parseFile readFileSync jsParser tsParser
                                            filePath))) ->
           annotations s' = annotations s).
Proof.
  intros rfs jp tp filePath s Hext Hin.
  destruct (dart_symbols rfs jp tp filePath s Hext Hin) as [m [Hm Hs]].
  split.
  - intros a Ha. apply (scanAnnotations_sound (rfs filePath) 0).
    subst s. cbn [annotations dartClassSymbol] in Ha.
    destruct (fst (scanAnnotations (rfs filePath) 0)); [destruct Ha | exact Ha].
  - intros s' Hin'.
    destruct (dart_symbols rfs jp tp filePath s' Hext Hin') as [m' [_ Hs']].
    subst s s'. reflexivity.
Qed.

(** X9, witness: the first class of [annotatedDart]. *)
Lemma X9_witness :
  (forall a, In a (elems (annotations annotatedSymbol)) ->
             In a DART_annotations /\ infix a (moreFiles "lib/a.dart"))
  /\ (forall s',
         In s' (elems (symbols (parseFile moreFiles sampleParser sampleParser
                                          "lib/a.dart"))) ->
         annotations s' = annotations annotatedSymbol).
Proof.
  apply (X9_annotations_are_registered_and_in_the_text
           moreFiles sampleParser sampleParser "lib/a.dart" annotatedSymbol).
  - reflexivity.
  - vm_compute. left. reflexivity.
Defined.

(** ** Dependencies *)

Lemma fold_add_map {A : Type} (f : A -> string) (ms : list A) :
  forall l,
    fold_left (fun deps m => add deps (f m)) ms l
    = fold_left add (map f ms) l.
Proof.
  induction ms as [|m ms IH]; intros l; simpl; [reflexivity | apply IH].
Qed.

Lemma dartPackageRegex_simple : simpleGroups dartPackageRegex = true.
Proof. reflexivity. Qed.

(** The characters an import directive has between the first letter of
    its word [import] and the name of the package are not the letter
    [i]. *)
Lemma allChars_app (p : ascii -> bool) (u v : string) :
  allChars p (u ++ v) = allChars p u && allChars p v.
Proof.
  induction u as [|c u IH]; simpl; [reflexivity|].
  now rewrite IH, andb_assoc.
Qed.

Lemma allChars_impl (p q : ascii -> bool) (s : string) :
  (forall c, p c = true -> q c = true) ->
  allChars p s = true -> allChars q s = true.
Proof.
  intros H. induction s as [|c s IH]; simpl; [reflexivity|].
  intros Hs. apply andb_true_iff in Hs. destruct Hs as [Hc Hs].
  now rewrite (H c Hc), (IH Hs).
Qed.

Lemma allChars_suffix_head (p : ascii -> bool) (u : string) (c : ascii)
      (m : string) :
  allChars p (u ++ String c m) = true -> p c = true.
Proof.
  rewrite allChars_app. intros H. apply andb_true_iff in H.
  destruct H as [_ H]. simpl in H. now apply andb_true_iff in H.
Qed.

Lemma ws_notI (c : ascii) : ws c = true -> notI c = true.
Proof.
  unfold notI. destruct (Ascii.eqb c "i"%char) eqn:E; [|reflexivity].
  apply Ascii.eqb_eq in E. subst c. discriminate.
Qed.

Lemma quote_notI (c : ascii) : oneOf quote2 c = true -> notI c = true.
Proof.
  unfold notI. destruct (Ascii.eqb c "i"%char) eqn:E; [|reflexivity].
  apply Ascii.eqb_eq in E. subst c. discriminate.
Qed.

Lemma quote_not_ws (c : ascii) : oneOf quote2 c = true -> ws c = false.
Proof.
  unfold oneOf, quote2. cbn [existsb]. rewrite orb_false_r. intros H.
  apply orb_true_iff in H.
  destruct H as [H | H]; apply Ascii.eqb_eq in H; subst c; reflexivity.
Qed.

(** A match of the package expression is the word [import], white space,
    a quote and the text [package:], in that order. *)
Lemma matchAt_package_inv (s rest : string) (cs : caps) :
  matchAt dartPackageRegex s = Some (cs, rest) ->
  exists (w : string) (q : ascii) (t : string),
    s = ("import" ++ w ++ String q ("package:" ++ t))%string
    /\ allChars ws w = true /\ oneOf quote2 q = true.
Proof.
  unfold matchAt, dartPackageRegex. cbn [run].
  destruct (stripPrefix "import" s) as [s1|] eqn:E; [|discriminate].
  apply stripPrefix_some in E. subst s. unfold plus at 1.
  destruct s1 as [|c s1]; [discriminate|].
  destruct (ws c) eqn:Hc; [|discriminate].
  intros H. apply star_inv_class in H.
  destruct H as [u [s' [Hs [Hu Hk]]]].
  destruct s' as [|q s2]; [discriminate|].
  destruct (oneOf quote2 q) eqn:Hq; [|discriminate].
  destruct (stripPrefix "package:" s2) as [s3|] eqn:E2; [|discriminate].
  apply stripPrefix_some in E2. subst s1 s2.
  exists (String c u), q, s3. split; [reflexivity|].
  split; [|exact Hq]. cbn [allChars]. now rewrite Hc, Hu.
Qed.

(** No match starts in a text without [package:] that is followed by the
    word [import]. *)
Lemma no_package_match_before (b rest : string) :
  truthy b = true ->
  includes b "package:" = false ->
  matchAt dartPackageRegex (b ++ "import" ++ rest) = None.
Proof.
  intros Hb Hinc.
  destruct (matchAt dartPackageRegex (b ++ "import" ++ rest))
    as [[cs r]|] eqn:E; [exfalso | reflexivity].
  apply matchAt_package_inv in E. destruct E as [w [q [t [Hs [Hw Hq]]]]].
  assert (Hno : forall e, ~ b = (("import" ++ w ++ String q EmptyString)
                                   ++ "package:" ++ e)%string).
  { intros e He.
    assert (Hi : includes b "package:" = true).
    { apply includes_iff.
      exists ("import" ++ w ++ String q EmptyString)%string, e. exact He. }
    congruence. }
  assert (HX : allChars notI ("mport" ++ w ++ String q EmptyString) = true).
  { rewrite !allChars_app, (allChars_impl ws notI w ws_notI Hw).
    cbn [allChars]. now rewrite (quote_notI q Hq). }
  assert (Hs' : (b ++ "import" ++ rest)%string
                = (("import" ++ w ++ String q EmptyString)
                     ++ "package:" ++ t)%string).
  { rewrite Hs. rewrite !append_assoc. reflexivity. }
  symmetry in Hs'. apply append_eq_append in Hs'.
  destruct Hs' as [[d [Hb1 Hd]] | [d [HX1 Hd]]].
  - apply append_eq_append in Hd.
    destruct Hd as [[e [Hde _]] | [e [Hp He]]].
    + subst d. exact (Hno e Hb1).
    + destruct e as [|c e].
      * rewrite append_empty_r in Hp. subst d.
        apply (Hno EmptyString). now rewrite append_empty_r.
      * cbn [append] in He. inversion He; subst c.
        assert (Hc : notI "i"%char = true).
        { apply (allChars_suffix_head notI d "i"%char e).
          now rewrite <- Hp. }
        discriminate.
  - destruct d as [|c d].
    + cbn [append] in Hd. discriminate.
    + cbn [append] in Hd. inversion Hd; subst c.
      destruct b as [|a b]; [discriminate|].
      cbn [append] in HX1. inversion HX1 as [[Ha Ht]].
      assert (Hc : notI "i"%char = true).
      { apply (allChars_suffix_head notI b "i"%char d).
        now rewrite <- Ht. }
      discriminate.
Qed.

Lemma search_package_skip (before rest : string) :
  includes before "package:" = false ->
  search dartPackageRegex (before ++ "import" ++ rest)
  = search dartPackageRegex ("import" ++ rest).
Proof.
  induction before as [|c before IH]; intros H; [reflexivity|].
  assert (Hm := no_package_match_before (String c before) rest eq_refl H).
  apply includes_tail in H. destruct H as [_ H].
  change (String c before ++ "import" ++ rest)%string
    with (String c (before ++ "import" ++ rest)) in *.
  cbn [search]. rewrite Hm. now apply IH.
Qed.

(** At an import directive the expression captures the package name. *)
Lemma matchAt_package (w : string) (q : ascii) (n : string) (d : ascii)
      (rest : string) :
  truthy w = true -> allChars ws w = true -> oneOf quote2 q = true ->
  truthy n = true -> allChars (noneOf ("/"%char :: quote2)) n = true ->
  oneOf ("/"%char :: quote2) d = true ->
  matchAt dartPackageRegex
    ("import" ++ w ++ String q ("package:" ++ n ++ String d rest))
  = Some ([(1, n)], String d rest).
Proof.
  intros Hw Hws Hq Hn Hall Hd.
  unfold matchAt, dartPackageRegex. cbn [run].
  rewrite stripPrefix_app.
  destruct w as [|c w]; [discriminate|].
  cbn [allChars] in Hws. apply andb_true_iff in Hws. destruct Hws as [Hc Hws].
  unfold plus at 1. cbn [append]. rewrite Hc.
  apply star_run; [exact Hws | now apply quote_not_ws |].
  rewrite Hq. simpl (stripPrefix _ _).
  destruct n as [|x n]; [discriminate|].
  cbn [allChars] in Hall. apply andb_true_iff in Hall.
  destruct Hall as [Hx Hall].
  unfold plus. cbn [append]. rewrite Hx.
  apply star_run; [exact Hall | unfold noneOf; now rewrite Hd |].
  change (String x (n ++ String d rest))
    with (String x n ++ String d rest)%string.
  now rewrite consumed_app.
Qed.

Lemma search_packageImportAt (content n rest : string) :
  packageImportAt content n rest ->
  search dartPackageRegex content = Some ([(1, n)], rest)
  /\ exists pre, content = (pre ++ rest)%string.
Proof.
  intros [before [w [q [d [rest' [Hc [Hr [Hb [Hw [Hws [Hq [Hn [Hall Hd]]]]]]]]]]]]].
  subst rest. split.
  - rewrite Hc, (search_package_skip _ _ Hb).
    assert (Hm := matchAt_package w q n d rest' Hw Hws Hq Hn Hall Hd).
    cbn [append search]. cbn [append] in Hm. now rewrite Hm.
  - exists (before ++ "import" ++ w ++ String q ("package:" ++ n))%string.
    rewrite Hc. rewrite !append_assoc. cbn [append].
    rewrite ?append_assoc. reflexivity.
Qed.

Lemma search_package_infix (s rest : string) (cs : caps) :
  search dartPackageRegex s = Some (cs, rest) -> infix "package:" s.
Proof.
  induction s as [|c s IH]; cbn [search].
  - destruct (matchAt dartPackageRegex EmptyString) as [res|] eqn:E;
      [|discriminate].
    destruct res as [cs' r']. apply matchAt_package_inv in E.
    destruct E as [w [q [t [Hs _]]]]. discriminate.
  - destruct (matchAt dartPackageRegex (String c s)) as [res|] eqn:E.
    + destruct res as [cs' r']. apply matchAt_package_inv in E.
      destruct E as [w [q [t [Hs _]]]]. intros _. rewrite Hs.
      exists ("import" ++ w ++ String q EmptyString)%string, t.
      rewrite !append_assoc. reflexivity.
    + intros H. exact (infix_app_r _ (String c EmptyString) s (IH H)).
Qed.

Lemma search_no_package (s : string) :
  includes s "package:" = false -> search dartPackageRegex s = None.
Proof.
  intros H. destruct (search dartPackageRegex s) as [[cs rest]|] eqn:E;
    [|reflexivity].
  apply search_package_infix in E. apply includes_iff in E. congruence.
Qed.

(** The dependency loop collects the package names of the import
    directives in source order. *)
Lemma execAll_packages (names : list string) :
  forall pre s,
    packageImports s names ->
    execAll (loopFuel (pre ++ s)) dartPackageRegex (pre ++ s) (length pre)
    = (map (fun n => [(1, n)]) names, 0).
Proof.
  assert (Hpos : 0 < minLen dartPackageRegex) by (cbv; lia).
  induction names as [|n names IH]; intros pre s H.
  - rewrite execAll_step by exact Hpos.
    rewrite exec_at_suffix, (search_no_package _ H). reflexivity.
  - destruct H as [rest [Hat Hrest]].
    destruct (search_packageImportAt _ _ _ Hat) as [Hs [pre' Hpre']].
    rewrite execAll_step by exact Hpos.
    rewrite exec_at_suffix, Hs.
    assert (Hlen : length (pre ++ s) - length rest = length (pre ++ pre')).
    { rewrite Hpre', !length_append. lia. }
    assert (Hc : (pre ++ s)%string = ((pre ++ pre') ++ rest)%string).
    { rewrite Hpre'. now rewrite append_assoc. }
    rewrite Hlen, Hc, (IH (pre ++ pre')%string rest Hrest).
    reflexivity.
Qed.

(** X10.  [getDartDependencies] returns the package names of the import
    directives of the text, each once, in the order of their first
    occurrence.  Whatever the text, the names are listed without
    repetition, each is a non-empty piece of the text without a slash
    and without a quote, and a text without the word [import] has none;
    and when every [package:] of the text stands in an import directive
    ([import], white space, a quote, [package:], the name, then a slash
    or a quote), the result is exactly the names of these directives,
    in source order, a repeated name kept at its first place. *)
Theorem X10_dependencies :
  forall content : string,
    NoDup (getDartDependencies content)
    /\ (forall d, In d (getDartDependencies content) ->
                  truthy d = true
                  /\ allChars (noneOf ("/"%char :: quote2)) d = true
                  /\ infix d content)
    /\ (includes content "import" = false -> getDartDependencies content = [])
    /\ (forall names,
           packageImports content names ->
           getDartDependencies content = fold_left add names []
           /\ forall n, In n names <-> In n (getDartDependencies content)).
Proof.
  intros content. unfold getDartDependencies. rewrite fold_add_map.
  split; [apply fold_add_NoDup; constructor|]. split; [|split].
  - intros d Hd. apply fold_add_In in Hd. destruct Hd as [[] | Hd].
    apply in_map_iff in Hd. destruct Hd as [m [Hd Hm]].
    assert (Hok := execAll_ok _ _ dartPackageRegex_simple _ _ _ Hm).
    destruct (mandatory_group dartPackageRegex m 1 Hok ltac:(simpl; auto))
      as [t [Hg Ht]].
    rewrite Ht in Hd. subst t.
    destruct (capture_class dartPackageRegex m 1 d
                (noneOf ("/"%char :: quote2)) Hok) as [H1 H2].
    + simpl. intros q [Hq | []]. now inversion Hq.
    + exact Hg.
    + split; [exact H1|]. split; [exact H2|].
      apply group_In in Hg.
      refine (execAll_infix _ _ _ _ _ _ _ _ Hm Hg). cbv. lia.
  - intros Hc. unfold dartPackageRegex.
    now rewrite (execAll_literal_none _ _ _ Hc).
  - intros names Hn.
    assert (H := execAll_packages names EmptyString content Hn).
    cbn [append length] in H. rewrite H. cbn [fst].
    rewrite map_map. cbn [groupText group Nat.eqb]. rewrite map_id.
    split; [reflexivity|].
    intros n. rewrite fold_add_In. simpl. tauto.
Qed.

(** X10, witness: the two import directives of [annotatedDart]. *)
Lemma X10_witness :
  getDartDependencies annotatedDart = fold_left add ["provider"; "flutter"] []
  /\ forall n, In n ["provider"; "flutter"]
               <-> In n (getDartDependencies annotatedDart).
Proof.
  apply (proj2 (proj2 (proj2 (X10_dependencies annotatedDart)))).
  exists (drop 24 annotatedDart). split.
  - exists EmptyString, " ", "'"%char, "/"%char, (drop 25 annotatedDart).
    repeat split; reflexivity.
  - exists (drop 64 annotatedDart). split.
    + exists (substring 0 17 (drop 24 annotatedDart)), " ",
        "'"%char, "/"%char, (drop 65 annotatedDart).
      repeat split; reflexivity.
    + reflexivity.
Defined.

(** ** Imports and state patterns of the widget language *)

Lemma dartImportRegex_simple : simpleGroups dartImportRegex = true.
Proof. reflexivity. Qed.

(** The import loop of [parseDartFile], field by field. *)
Lemma parseDartFile_imports (filePath content ext : string) :
  imports (parseDartFile filePath content (initialFileInfo filePath content ext))
  = Some (map (fun m => Edge (groupText m 1) (Some []))
              (fst (execAll (loopFuel content) dartImportRegex content 0))).
Proof.
  unfold parseDartFile.
  assert (H := dartImportStep_fold
                 (fst (execAll (loopFuel content) dartImportRegex content 0))
                 [] []).
  cbn [imports initialFileInfo].
  destruct (fold_left dartImportStep _ _) as [imps sp].
  cbn [fst] in H. subst imps. reflexivity.
Qed.

Lemma parseDartFile_statePattern (filePath content ext : string) :
  statePattern (parseDartFile filePath content
                              (initialFileInfo filePath content ext))
  = match snd (fold_left dartImportStep
                 (fst (execAll (loopFuel content) dartImportRegex content 0))
                 (Some [], [])) with
    | [] => None
    | x :: l => Some (Js.join ", " (x :: l))
    end.
Proof.
  unfold parseDartFile. cbn [imports initialFileInfo].
  destruct (fold_left dartImportStep _ _) as [imps sp].
  cbn [statePattern snd initialFileInfo]. destruct sp; reflexivity.
Qed.

Lemma parseDartFile_symbols (filePath content ext : string) :
  symbols (parseDartFile filePath content (initialFileInfo filePath content ext))
  = fst (fold_left (dartClassStep content)
           (fst (execAll (loopFuel content) dartClassRegex content 0))
           (Some [], 0)).
Proof.
  unfold parseDartFile. cbn [imports initialFileInfo].
  destruct (fold_left dartImportStep _ _) as [imps sp]. reflexivity.
Qed.

(** X11.  Every import entry of a [.dart] file is an object with an empty
    [specifiers] array whose source is a non-empty piece of the file
    text without a quote; a text without the word [import] has none. *)
Theorem X11_widget_imports :
  forall (readFileSync : string -> string) (jsParser tsParser : string -> Node)
         (filePath : string),
    toLowerCase (extname filePath) = ".dart" ->
    (forall i,
        In i (elems (imports (parseFile readFileSync jsParser tsParser
                                        filePath))) ->
        i = Edge (importSource i) (Some [])
        /\ truthy (importSource i) = true
        /\ allChars (noneOf quote2) (importSource i) = true
        /\ infix (importSource i) (readFileSync filePath))
    /\ (includes (readFileSync filePath) "import" = false ->
        imports (parseFile readFileSync jsParser tsParser filePath) = Some []).
Proof.
  intros rfs jp tp filePath Hext.
  rewrite (parseFile_dart rfs jp tp filePath Hext), parseDartFile_imports.
  split.
  - cbn [elems]. intros i Hi. apply in_map_iff in Hi.
    destruct Hi as [m [Hi Hm]]. subst i. cbn [importSource].
    assert (Hok := execAll_ok _ _ dartImportRegex_simple _ _ _ Hm).
    destruct (mandatory_group dartImportRegex m 1 Hok ltac:(simpl; auto))
      as [t [Hg Ht]].
    rewrite Ht.
    destruct (capture_class dartImportRegex m 1 t (noneOf quote2) Hok)
      as [H1 H2].
    + simpl. intros q [Hq | []]. now inversion Hq.
    + exact Hg.
    + split; [reflexivity|]. split; [exact H1|]. split; [exact H2|].
      apply group_In in Hg.
      refine (execAll_infix _ _ _ _ _ _ _ _ Hm Hg). cbv. lia.
  - intros Hc. unfold dartImportRegex.
    now rewrite (execAll_literal_none _ _ _ Hc).
Qed.

(** X11, witness: the file [lib/a.dart] of the sample inputs. *)
Lemma X11_witness :
  (forall i,
      In i (elems (imports (parseFile moreFiles sampleParser sampleParser
                                      "lib/a.dart"))) ->
      i = Edge (importSource i) (Some [])
      /\ truthy (importSource i) = true
      /\ allChars (noneOf quote2) (importSource i) = true
      /\ infix (importSource i) (moreFiles "lib/a.dart"))
  /\ (includes (moreFiles "lib/a.dart") "import" = false ->
      imports (parseFile moreFiles sampleParser sampleParser "lib/a.dart")
      = Some []).
Proof.
  apply (X11_widget_imports moreFiles sampleParser sampleParser "lib/a.dart").
  reflexivity.
Defined.

(** A conditional [add]. *)
Lemma addIf_In (b : bool) (sp : list string) (x n : string) :
  In n (if b then add sp x else sp) <-> In n sp \/ (b = true /\ n = x).
Proof.
  destruct b.
  - rewrite add_In. intuition.
  - intuition discriminate.
Qed.

Lemma addIf_NoDup (b : bool) (sp : list string) (x : string) :
  NoDup sp -> NoDup (if b then add sp x else sp).
Proof. intros H. destruct b; [now apply add_NoDup | exact H]. Qed.

(** One turn of the import loop adds the names of the table whose
    fragment is in the path. *)
Lemma dartImportStep_patterns (imps : option (list ImportEntry))
      (sp : list string) (m : caps) :
  NoDup sp ->
  NoDup (snd (dartImportStep (imps, sp) m))
  /\ forall n,
       In n (snd (dartImportStep (imps, sp) m))
       <-> In n sp \/ patternName [groupText m 1] n.
Proof.
  intros Hnd. unfold dartImportStep. cbv zeta. cbn [snd]. split.
  - repeat apply addIf_NoDup. exact Hnd.
  - intros n. rewrite !addIf_In. unfold patternName, patternFound.
    cbn [existsb]. split.
    + intros H.
      repeat match goal with
             | H : _ \/ _ |- _ => destruct H as [H | [H ->]]
             end;
        [now left | right ..].
      * exists "provider". rewrite H. split; [simpl; auto 10 | reflexivity].
      * exists "bloc". rewrite H. split; [simpl; auto 10 | reflexivity].
      * exists "get". rewrite H. split; [simpl; auto 10 | reflexivity].
      * exists "mobx". rewrite H. split; [simpl; auto 10 | reflexivity].
      * exists "riverpod". rewrite H. split; [simpl; auto 10 | reflexivity].
    + intros [H | [frag [Hin Hf]]]; [tauto|].
      rewrite orb_false_r in Hf. simpl in Hin.
      repeat match goal with
             | H : _ \/ _ |- _ => destruct H as [H | H]
             end;
        inversion Hin; subst; tauto.
Qed.

Lemma patternName_cons (x : string) (l : list string) (n : string) :
  patternName (x :: l) n <-> patternName [x] n \/ patternName l n.
Proof.
  unfold patternName, patternFound. cbn [existsb]. split.
  - intros [frag [Hin Hf]]. apply orb_true_iff in Hf.
    destruct Hf as [Hf | Hf]; [left | right]; exists frag;
      (split; [exact Hin|]); [now rewrite Hf | exact Hf].
  - intros [[frag [Hin Hf]] | [frag [Hin Hf]]]; exists frag;
      (split; [exact Hin|]).
    + rewrite orb_false_r in Hf. now rewrite Hf.
    + rewrite Hf. apply orb_true_r.
Qed.

Lemma dartImportStep_patterns_fold (ms : list caps) :
  forall imps sp,
    NoDup sp ->
    NoDup (snd (fold_left dartImportStep ms (imps, sp)))
    /\ forall n,
         In n (snd (fold_left dartImportStep ms (imps, sp)))
         <-> In n sp \/ patternName (map (fun m => groupText m 1) ms) n.
Proof.
  induction ms as [|m ms IH]; intros imps sp Hnd; cbn [fold_left map].
  - split; [exact Hnd|]. intros n. split; [now left|].
    intros [H | [frag [_ Hf]]]; [exact H | discriminate].
  - destruct (dartImportStep_patterns imps sp m Hnd) as [H1 H2].
    destruct (dartImportStep (imps, sp) m) as [imps' sp'] eqn:E.
    cbn [snd] in H1, H2.
    destruct (IH imps' sp' H1) as [H3 H4]. split; [exact H3|].
    intros n.
    rewrite H4, H2,
      (patternName_cons (groupText m 1) (map (fun m => groupText m 1) ms)).
    tauto.
Qed.

(** X12.  The state pattern of a [.dart] file is made of the pattern
    names of the table [provider -> Provider], [bloc -> BLoC],
    [get -> GetX], [mobx -> MobX], [riverpod -> Riverpod] one of whose
    fragments occurs in the source of an import of the file: each such
    name once, joined by a comma and a space; the field is absent when
    there is no such name. *)
Theorem X12_state_pattern_of_the_imports :
  forall (readFileSync : string -> string) (jsParser tsParser : string -> Node)
         (filePath : string),
    toLowerCase (extname filePath) = ".dart" ->
    let fi := parseFile readFileSync jsParser tsParser filePath in
    exists names : list string,
      NoDup names
      /\ (forall n,
             In n names
             <-> patternName (map importSource (elems (imports fi))) n)
      /\ statePattern fi
         = (if isNil names then None else Some (Js.join ", " names)).
Proof.
  intros rfs jp tp filePath Hext fi. unfold fi.
  rewrite (parseFile_dart rfs jp tp filePath Hext).
  rewrite parseDartFile_imports, parseDartFile_statePattern.
  cbn [elems]. rewrite map_map. cbn [importSource].
  destruct (dartImportStep_patterns_fold
              (fst (execAll (loopFuel (rfs filePath)) dartImportRegex
                            (rfs filePath) 0)) (Some []) [] (NoDup_nil _))
    as [H1 H2].
  exists (snd (fold_left dartImportStep
                 (fst (execAll (loopFuel (rfs filePath)) dartImportRegex
                               (rfs filePath) 0)) (Some [], []))).
  split; [exact H1|]. split.
  - intros n. rewrite H2. simpl. tauto.
  - destruct (snd _); reflexivity.
Qed.

(** X12, witness: [lib/a.dart] imports [provider] and [widgets]. *)
Lemma X12_witness :
  let fi := parseFile moreFiles sampleParser sampleParser "lib/a.dart" in
  exists names : list string,
    NoDup names
    /\ (forall n,
           In n names
           <-> patternName (map importSource (elems (imports fi))) n)
    /\ statePattern fi
       = (if isNil names then None else Some (Js.join ", " names)).
Proof.
  apply (X12_state_pattern_of_the_imports moreFiles sampleParser sampleParser
                                          "lib/a.dart").
  reflexivity.
Defined.

(** The import of [widgets.dart] is read as a use of [GetX]: the
    fragment [get] is in the word [widgets]. *)
Example widgets_import_counts_as_GetX :
  statePattern (parseFile moreFiles sampleParser sampleParser "lib/a.dart")
  = Some "Provider, GetX".
Proof. vm_compute. reflexivity. Qed.

(** X13.  The record of a [.dart] file never has markup fields or
    manifest data, and it is reported exactly when a class or an import
    was found; a text with neither the word [class] nor the word
    [import] gives a record without symbols, imports and state pattern,
    which is not reported. *)
Theorem X13_widget_records :
  forall (readFileSync : string -> string) (jsParser tsParser : string -> Node)
         (filePath : string),
    toLowerCase (extname filePath) = ".dart" ->
    let fi := parseFile readFileSync jsParser tsParser filePath in
    hasJsx fi = None /\ jsxElements fi = None /\ androidManifest fi = None
    /\ hasContent fi
       = negb (isNil (elems (symbols fi))) || negb (isNil (elems (imports fi)))
    /\ (includes (readFileSync filePath) "class" = false ->
        includes (readFileSync filePath) "import" = false ->
        symbols fi = Some [] /\ imports fi = Some []
        /\ statePattern fi = None /\ hasContent fi = false).
Proof.
  intros rfs jp tp filePath Hext fi. unfold fi.
  rewrite (parseFile_dart rfs jp tp filePath Hext).
  assert (Hf : forall fi0 : FileInfo,
             jsxElements fi0 = None ->
             hasContent fi0
             = negb (isNil (elems (symbols fi0)))
               || negb (isNil (elems (imports fi0)))).
  { intros fi0 Hj. unfold hasContent. rewrite Hj.
    destruct (symbols fi0) as [[|x l]|]; destruct (imports fi0) as [[|y l']|];
      reflexivity. }
  assert (Hj : jsxElements (parseDartFile filePath (rfs filePath)
                 (initialFileInfo filePath (rfs filePath) ".dart")) = None).
  { unfold parseDartFile. now destruct (fold_left dartImportStep _ _). }
  split; [unfold parseDartFile; now destruct (fold_left dartImportStep _ _)|].
  split; [exact Hj|].
  split; [unfold parseDartFile; now destruct (fold_left dartImportStep _ _)|].
  split; [now apply Hf|].
  intros Hc Hi. rewrite (Hf _ Hj).
  rewrite parseDartFile_symbols, parseDartFile_imports,
    parseDartFile_statePattern.
  unfold dartClassRegex, dartImportRegex.
  rewrite (execAll_literal_none _ _ _ Hc), (execAll_literal_none _ _ _ Hi).
  repeat split.
Qed.

(** X13, witness: the file [lib/a.dart] of the sample inputs. *)
Lemma X13_witness :
  let fi := parseFile moreFiles sampleParser sampleParser "lib/a.dart" in
  hasJsx fi = None /\ jsxElements fi = None /\ androidManifest fi = None
  /\ hasContent fi
     = negb (isNil (elems (symbols fi))) || negb (isNil (elems (imports fi)))
  /\ (includes (moreFiles "lib/a.dart") "class" = false ->
      includes (moreFiles "lib/a.dart") "import" = false ->
      symbols fi = Some [] /\ imports fi = Some []
      /\ statePattern fi = None /\ hasContent fi = false).
Proof.
  apply (X13_widget_records moreFiles sampleParser sampleParser "lib/a.dart").
  reflexivity.
Defined.

(** ** The grammar-based extractor *)

Lemma grammarVisit_iff (v : Visit) :
  grammarVisit v = true
  <-> forallb grammarSymbol (v_symbols v) = true
      /\ forallb grammarImport (v_imports v) = true
      /\ forallb truthy (v_jsxElements v) = true.
Proof. unfold grammarVisit. rewrite !andb_true_iff. tauto. Qed.

Lemma grammar_pushSymbol (s : SymbolInfo) (v : Visit) :
  grammarSymbol s = true -> grammarVisit v = true ->
  grammarVisit (pushSymbol s v) = true.
Proof.
  rewrite !grammarVisit_iff. intros Hs [H1 [H2 H3]]. cbn [pushSymbol v_symbols
    v_imports v_jsxElements].
  rewrite forallb_app, H1. cbn [forallb]. rewrite Hs. auto.
Qed.

Lemma grammar_pushImport (i : ImportEntry) (v : Visit) :
  grammarImport i = true -> grammarVisit v = true ->
  grammarVisit (pushImport i v) = true.
Proof.
  rewrite !grammarVisit_iff. intros Hi [H1 [H2 H3]]. cbn [pushImport v_symbols
    v_imports v_jsxElements].
  rewrite forallb_app, H2. cbn [forallb]. rewrite Hi. auto.
Qed.

Lemma grammar_onJsxName (e : string) (v : Visit) :
  grammarVisit v = true -> grammarVisit (onJsxName e v) = true.
Proof.
  rewrite !grammarVisit_iff. intros [H1 [H2 H3]]. unfold onJsxName.
  destruct (truthy e) eqn:E; cbn [andb]; [|auto].
  destruct (negb _); [|auto].
  cbn [addJsxElement setHasJsx v_symbols v_imports v_jsxElements].
  split; [exact H1|]. split; [exact H2|].
  unfold add. destruct (has (v_jsxElements v) e); [exact H3|].
  rewrite forallb_app, H3. cbn [forallb]. now rewrite E.
Qed.

(** The class object of [case 'class_declaration'], with the member
    lists of its body attached. *)
Lemma grammar_finishClass (n e : string) (b : bool)
      (r : Visit * list string * list string) :
  truthy n = true -> (b = true -> truthy e = true) ->
  grammarVisit (fst (fst r)) = true ->
  forallb truthy (snd (fst r)) = true ->
  forallb truthy (snd r) = true ->
  grammarVisit
    (finishClass (if b then withExtends e (plainSymbol n "class")
                  else plainSymbol n "class") r) = true.
Proof.
  destruct r as [[v props] meths]. cbn [fst snd]. intros Hn He Hv Hp Hm.
  unfold finishClass. apply grammar_pushSymbol; [|exact Hv].
  assert (He' : (if b then truthy e else true) = true)
    by (destruct b; [now apply He | reflexivity]).
  destruct b; destruct props as [|x props]; destruct meths as [|y meths];
    unfold grammarSymbol; cbn -[truthy forallb];
    rewrite ?Hn, ?He', ?Hp, ?Hm; reflexivity.
Qed.

Lemma grammar_classMembers (members : list Node) :
  Forall (keeps (fun v => grammarVisit v = true)) members ->
  forall acc,
    grammarVisit (fst (fst acc)) = true ->
    forallb truthy (snd (fst acc)) = true ->
    forallb truthy (snd acc) = true ->
    grammarVisit (fst (fst (classMembers processNode members acc))) = true
    /\ forallb truthy (snd (fst (classMembers processNode members acc))) = true
    /\ forallb truthy (snd (classMembers processNode members acc)) = true.
Proof.
  induction 1 as [|m members Hm _ IH]; intros [[v props] meths] Hv Hp Hq;
    cbn [classMembers]; [auto|].
  cbn [fst snd] in Hv, Hp, Hq.
  apply IH;
    repeat match goal with
           | |- context [if ?c then _ else _] => destruct c eqn:?
           end; cbn [fst snd]; auto;
    rewrite forallb_app; cbn [forallb];
    repeat match goal with
           | H : _ = true |- _ => rewrite H
           end; reflexivity.
Qed.

Lemma grammar_classBody (n e : string) (b : bool) (ch : list Node) (v : Visit) :
  truthy n = true -> (b = true -> truthy e = true) ->
  Forall (fun c => Forall (keeps (fun v => grammarVisit v = true))
                          (children c)) ch ->
  grammarVisit v = true ->
  grammarVisit
    (withFirst (hasType "class_body")
       (fun body =>
          finishClass (if b then withExtends e (plainSymbol n "class")
                       else plainSymbol n "class")
            (classMembers processNode (children body) (v, [], [])))
       (pushSymbol (if b then withExtends e (plainSymbol n "class")
                    else plainSymbol n "class") v) ch) = true.
Proof.
  intros Hn He Hch Hv.
  induction Hch as [|body ch Hm _ IH]; cbn [withFirst].
  - exact (grammar_finishClass n e b (v, [], []) Hn He Hv eq_refl eq_refl).
  - destruct (hasType "class_body" body); [|exact IH].
    destruct (grammar_classMembers (children body) Hm (v, [], []) Hv
                eq_refl eq_refl) as [H1 [H2 H3]].
    now apply grammar_finishClass.
Qed.

Lemma grammar_switchOn (ty : string) (ch : list Node) (v : Visit) :
  Forall (fun c => keeps (fun v => grammarVisit v = true) c
                   /\ Forall (keeps (fun v => grammarVisit v = true))
                             (children c)) ch ->
  grammarVisit v = true -> grammarVisit (switchOn ty ch v) = true.
Proof.
  intros Hch Hv. unfold switchOn.
  destruct (ty =? "function_declaration")%string.
  { unfold onFunctionDeclaration.
    destruct (truthy (findText (hasType "identifier") ch)) eqn:E; [|exact Hv].
    apply grammar_pushSymbol; [|exact Hv].
    unfold grammarSymbol. cbn -[truthy]. now rewrite E. }
  destruct (ty =? "lexical_declaration")%string.
  { unfold onLexicalDeclaration.
    destruct (find (hasType "variable_declarator") ch) as [d|]; [|exact Hv].
    destruct (find _ (children d)); [|exact Hv].
    destruct (truthy (findText (hasType "identifier") (children d))) eqn:E;
      [|exact Hv].
    apply grammar_pushSymbol; [|exact Hv].
    unfold grammarSymbol. cbn -[truthy]. now rewrite E. }
  destruct (ty =? "export_statement")%string.
  { induction Hch as [|c ch [Hc _] _ IH]; cbn [withFirst]; [exact Hv|].
    destruct (isExportedDeclaration c); [now apply Hc | exact IH]. }
  destruct (ty =? "class_declaration")%string.
  { cbv zeta.
    destruct (truthy (findText (hasType "identifier") ch)) eqn:E; [|exact Hv].
    apply grammar_classBody; [exact E | auto | | exact Hv].
    eapply Forall_impl; [|exact Hch]. intros c [_ Hc]. exact Hc. }
  destruct (ty =? "import_statement")%string.
  { unfold onImportStatement. cbv zeta.
    destruct (truthy (slice_1_m1 (findText (hasType "string") ch))) eqn:E;
      [|exact Hv].
    destruct (filter truthy _) as [|x l] eqn:F;
      (apply grammar_pushImport; [|exact Hv]); [reflexivity|].
    cbn [grammarImport]. rewrite E. cbn [andb]. rewrite <- F.
    apply forallb_forall. intros y Hy. now apply filter_In in Hy. }
  destruct (ty =? "call_expression")%string.
  { unfold onCallExpression.
    destruct ch as [|callee rest]; [exact Hv|].
    destruct (text callee =? "require")%string; [|exact Hv].
    destruct rest as [|args rest]; [exact Hv|].
    destruct (children args) as [|arg l]; [exact Hv|].
    destruct (hasType "string" arg); [|exact Hv].
    now apply grammar_pushImport. }
  destruct (ty =? "jsx_element")%string.
  { now apply grammar_onJsxName. }
  destruct (ty =? "jsx_self_closing_element")%string.
  { now apply grammar_onJsxName. }
  destruct (ty =? "jsx_fragment")%string; [|exact Hv].
  exact Hv.
Qed.

(** The visitor keeps the shape of its accumulators. *)
Lemma grammar_processNode (n : Node) (v : Visit) :
  grammarVisit v = true -> grammarVisit (processNode n v) = true.
Proof.
  enough (H : keeps (fun v => grammarVisit v = true) n
              /\ Forall (keeps (fun v => grammarVisit v = true)) (children n))
    by apply H.
  clear v. induction n as [ty tx ch IH] using Node_induction.
  assert (Hch : Forall (keeps (fun v => grammarVisit v = true)) ch).
  { eapply Forall_impl; [|exact IH]. intros c [Hc _]. exact Hc. }
  split; [|exact Hch].
  intros v Hv. rewrite processNode_eq.
  assert (Hs := grammar_switchOn ty ch v IH Hv).
  revert Hs. generalize (switchOn ty ch v). clear Hv v IH.
  induction Hch as [|c ch Hc _ IHch]; intros v Hv; cbn [fold_left];
    [exact Hv|].
  apply IHch. now apply Hc.
Qed.

(** A path of the grammar-based extractor goes to [processNode]. *)
Lemma parseFile_grammar (readFileSync : string -> string)
      (jsParser tsParser : string -> Node) (filePath : string) :
  grammarPath filePath = true ->
  parseFile readFileSync jsParser tsParser filePath
  = storeVisit
      (initialFileInfo filePath (readFileSync filePath)
                       (toLowerCase (extname filePath)))
      (processNode
         ((if has [".ts"; ".tsx"] (toLowerCase (extname filePath))
           then tsParser else jsParser) (readFileSync filePath))
         emptyVisit).
Proof.
  unfold grammarPath, parseFile. cbv zeta. intros H.
  apply andb_true_iff in H. destruct H as [H1 H2].
  apply negb_true_iff in H1. apply negb_true_iff in H2. rewrite H1.
  cbn [has existsb] in H2. rewrite !orb_false_iff in H2.
  destruct H2 as [Hd [Hj [Hk _]]].
  rewrite Hd. cbn [has existsb]. rewrite Hj, Hk. cbn [orb].
  destruct (toLowerCase (extname filePath) =? ".xml")%string; reflexivity.
Qed.

(** X14.  On every path [parseFile] hands to the grammar-based extractor
    (the script extensions, and an [.xml] file other than a manifest)
    every symbol has a non-empty name, the kind [function] or [class],
    non-empty member and superclass names, none of the fields of the
    heuristic extractors, and a function has no member list and no
    superclass; every import entry is a bare source or an object with a
    non-empty source and a non-empty list of non-empty names; every
    element name is non-empty; the record has no test, state-pattern or
    manifest field. *)
Theorem X14_grammar_records :
  forall (readFileSync : string -> string) (jsParser tsParser : string -> Node)
         (filePath : string),
    grammarPath filePath = true ->
    let fi := parseFile readFileSync jsParser tsParser filePath in
    forallb grammarSymbol (elems (symbols fi)) = true
    /\ forallb grammarImport (elems (imports fi)) = true
    /\ forallb truthy (elems (jsxElements fi)) = true
    /\ isTestFile fi = None /\ hasWidgetTests fi = None
    /\ statePattern fi = None /\ androidManifest fi = None.
Proof.
  intros rfs jp tp filePath Hp fi. unfold fi.
  rewrite (parseFile_grammar rfs jp tp filePath Hp).
  set (root := (if has [".ts"; ".tsx"] _ then tp else jp) _).
  assert (H := grammar_processNode root emptyVisit eq_refl).
  apply grammarVisit_iff in H. destruct H as [H1 [H2 H3]].
  unfold storeVisit.
  cbn [symbols imports jsxElements isTestFile hasWidgetTests statePattern
       androidManifest initialFileInfo].
  repeat split.
  - destruct (v_symbols (processNode root emptyVisit)); [reflexivity|exact H1].
  - destruct (v_imports (processNode root emptyVisit)); [reflexivity|exact H2].
  - destruct (v_hasJsx (processNode root emptyVisit)); [|reflexivity].
    destruct (v_jsxElements (processNode root emptyVisit));
      [reflexivity|exact H3].
Qed.

(** X14, witness: the script [export class A {}]. *)
Lemma X14_witness :
  let fi := parseFile sampleFiles sampleParser sampleParser "src/a.js" in
  forallb grammarSymbol (elems (symbols fi)) = true
  /\ forallb grammarImport (elems (imports fi)) = true
  /\ forallb truthy (elems (jsxElements fi)) = true
  /\ isTestFile fi = None /\ hasWidgetTests fi = None
  /\ statePattern fi = None /\ androidManifest fi = None.
Proof.
  apply (X14_grammar_records sampleFiles sampleParser sampleParser "src/a.js").
  reflexivity.
Defined.

(** X15.  In the record of every path the flag [hasJsx] is absent or
    true, never false; element names are only carried together with
    [hasJsx] true, never as an empty array, and each name once. *)
Theorem X15_markup_fields :
  forall (readFileSync : string -> string) (jsParser tsParser : string -> Node)
         (filePath : string),
    let fi := parseFile readFileSync jsParser tsParser filePath in
    hasJsx fi <> Some false
    /\ (jsxElements fi <> None -> hasJsx fi = Some true)
    /\ jsxElements fi <> Some []
    /\ NoDup (elems (jsxElements fi)).
Proof.
  intros rfs jp tp filePath. cbv zeta. unfold parseFile. cbv zeta.
  destruct (endsWith filePath "AndroidManifest.xml").
  { cbn. repeat split; try discriminate; try tauto. constructor. }
  destruct (_ =? ".dart")%string.
  { unfold parseDartFile. destruct (fold_left dartImportStep _ _).
    cbn. repeat split; try discriminate; try tauto. constructor. }
  destruct (_ && _).
  { cbn. repeat split; try discriminate; try tauto. constructor. }
  set (root := (if has [".ts"; ".tsx"] _ then tp else jp) _).
  assert (H : NoDup (v_jsxElements (processNode root emptyVisit))).
  { apply (processNode_keeps (fun v => NoDup (v_jsxElements v))
                             (fun _ => True)).
    - intros; exact I.
    - intros; exact I.
    - intros; exact I.
    - intros; exact I.
    - intros s v _ Hv. exact Hv.
    - intros i v _ Hv. exact Hv.
    - intros v Hv. exact Hv.
    - intros e v _ Hv. now apply add_NoDup.
    - constructor. }
  unfold storeVisit. cbn [hasJsx jsxElements initialFileInfo].
  destruct (v_hasJsx (processNode root emptyVisit)).
  - destruct (v_jsxElements (processNode root emptyVisit)) as [|x l];
      cbn [elems]; repeat split; try discriminate; try tauto.
  - cbn [elems]. repeat split; try discriminate; try tauto. constructor.
Qed.

(** ** The manifest *)

(** A match of a manifest expression is its head, the captured value
    and a closing double quote. *)
Lemma matchAt_attribute_inv (head s rest : string) (cs : caps) :
  matchAt (attrRegex head) s = Some (cs, rest) ->
  exists v, cs = [(1, v)] /\ s = (head ++ v ++ dq ++ rest)%string.
Proof.
  unfold matchAt, attrRegex. cbn [run].
  destruct (stripPrefix head s) as [s1|] eqn:E; [|discriminate].
  apply stripPrefix_some in E. subst s. unfold plus.
  destruct s1 as [|c s1]; [discriminate|].
  destruct (noneOf ["034"%char] c); [|discriminate].
  intros H. apply star_inv in H. destruct H as [u [s' [Hs Hk]]].
  destruct (stripPrefix dq s') as [s2|] eqn:E2; [|discriminate].
  apply stripPrefix_some in E2. subst s1 s'.
  change (String c (u ++ dq ++ s2)) with (String c u ++ dq ++ s2)%string in Hk.
  rewrite consumed_app in Hk. inversion Hk; subst.
  exists (String c u). split; reflexivity.
Qed.

Lemma search_attribute_inv (head s rest : string) (cs : caps) :
  search (attrRegex head) s = Some (cs, rest) ->
  exists v, cs = [(1, v)] /\ attributeValue v = true
            /\ infix (head ++ v ++ dq) s.
Proof.
  intros H.
  assert (Hok := search_ok (attrRegex head) s rest cs eq_refl H).
  assert (Hs : exists v, cs = [(1, v)] /\ infix (head ++ v ++ dq) s).
  { clear Hok. revert H. induction s as [|c s IH]; cbn [search].
    - destruct (matchAt (attrRegex head) EmptyString) as [res|] eqn:E;
        [|discriminate].
      intros H. inversion H; subst res.
      destruct (matchAt_attribute_inv _ _ _ _ E) as [v [Hc Hs]].
      exists v. split; [exact Hc|]. rewrite Hs.
      exists EmptyString, rest. cbn [append]. now rewrite !append_assoc.
    - destruct (matchAt (attrRegex head) (String c s)) as [res|] eqn:E.
      + intros H. inversion H; subst res.
        destruct (matchAt_attribute_inv _ _ _ _ E) as [v [Hc Hs]].
        exists v. split; [exact Hc|]. rewrite Hs.
        exists EmptyString, rest. cbn [append]. now rewrite !append_assoc.
      + intros H. destruct (IH H) as [v [Hc Hi]]. exists v.
        split; [exact Hc|].
        exact (infix_app_r _ (String c EmptyString) s Hi). }
  destruct Hs as [v [Hc Hi]]. exists v. split; [exact Hc|].
  split; [|exact Hi]. subst cs.
  destruct (capture_class (attrRegex head) [(1, v)] 1 v
              (noneOf ["034"%char]) Hok) as [H1 H2].
  - simpl. intros q [Hq | []]. now inversion Hq.
  - reflexivity.
  - unfold attributeValue. now rewrite H1, H2.
Qed.

(** X16.  Every component name of a manifest, and its package when there
    is one, is the value of an attribute of the text: a non-empty text
    without a double quote that stands in the text between the head of
    the expression ([android:name=DQ], [package=DQ]) and a closing
    double quote. *)
Theorem X16_manifest_values_are_attribute_values :
  forall content : string,
    (forall c, In c (components (parseAndroidManifest content)) ->
               attributeValue c = true
               /\ infix (componentHead ++ c ++ dq) content)
    /\ (forall p, package (parseAndroidManifest content) = Some p ->
                  attributeValue p = true
                  /\ infix (packageHead ++ p ++ dq) content).
Proof.
  intros content. unfold parseAndroidManifest. cbn [components package]. split.
  - intros c Hc. apply in_map_iff in Hc. destruct Hc as [m [Hc Hm]].
    change componentRegex with (attrRegex componentHead) in Hm.
    apply (execAll_search (attrRegex componentHead) content
             (fun m => exists v, m = [(1, v)] /\ attributeValue v = true
                                 /\ infix (componentHead ++ v ++ dq) content))
      in Hm.
    + destruct Hm as [v [Hmv [Hv Hi]]]. subst m c. now split.
    + intros li cs rest Hs. apply search_attribute_inv in Hs.
      destruct Hs as [v [Hcs [Hv Hi]]]. exists v.
      split; [exact Hcs|]. split; [exact Hv|].
      destruct (drop_split li content) as [u [Hu _]].
      rewrite Hu. now apply infix_app_r.
  - intros p. unfold firstMatch.
    change packageRegex with (attrRegex packageHead).
    destruct (search (attrRegex packageHead) content) as [[cs rest]|] eqn:E;
      [|discriminate].
    apply search_attribute_inv in E. destruct E as [v [Hcs [Hv Hi]]].
    subst cs. cbn [group Nat.eqb]. intros Hp. inversion Hp; subst p.
    now split.
Qed.

(** ** What the visitor never does *)

(** X17.  The visitor only appends: after a node is processed, the
    symbols and the imports collected before are a prefix of the
    collected ones, every element name collected before is still
    collected, and [hasJsx], once true, stays true. *)
Theorem X17_the_visitor_only_appends :
  forall (n : Node) (v : Visit),
    (exists l, v_symbols (processNode n v) = v_symbols v ++ l)
    /\ (exists l, v_imports (processNode n v) = v_imports v ++ l)
    /\ incl (v_jsxElements v) (v_jsxElements (processNode n v))
    /\ (v_hasJsx v = true -> v_hasJsx (processNode n v) = true).
Proof.
  intros n v.
  apply (processNode_keeps
           (fun w => (exists l, v_symbols w = v_symbols v ++ l)
                     /\ (exists l, v_imports w = v_imports v ++ l)
                     /\ incl (v_jsxElements v) (v_jsxElements w)
                     /\ (v_hasJsx v = true -> v_hasJsx w = true))
           (fun _ => True)).
  - intros; exact I.
  - intros; exact I.
  - intros; exact I.
  - intros; exact I.
  - intros s w _ [[l Hl] H]. split; [|exact H].
    exists (l ++ [s]). cbn [pushSymbol v_symbols]. now rewrite Hl, app_assoc.
  - intros i w _ [H1 [[l Hl] H]]. split; [exact H1|]. split; [|exact H].
    exists (l ++ [i]). cbn [pushImport v_imports]. now rewrite Hl, app_assoc.
  - intros w [H1 [H2 [H3 H4]]]. repeat split; auto.
  - intros e w _ [H1 [H2 [H3 H4]]]. repeat split; auto.
    cbn [addJsxElement v_jsxElements]. intros x Hx. apply add_In. left.
    now apply H3.
  - repeat split; auto.
    + exists []. now rewrite app_nil_r.
    + exists []. now rewrite app_nil_r.
    + apply incl_refl.
Qed.

(** On a tree without a node of a visited type the visitor changes
    nothing. *)
Lemma processNode_plainTree (n : Node) :
  plainTree n = true -> forall v, processNode n v = v.
Proof.
  induction n as [ty tx ch IH] using Node_induction.
  cbn [plainTree]. intros H v. apply andb_true_iff in H.
  destruct H as [Hty Hch]. rewrite processNode_eq.
  assert (Hs : switchOn ty ch v = v).
  { apply negb_true_iff in Hty. cbn [has existsb visitedTypes] in Hty.
    rewrite !orb_false_iff in Hty.
    destruct Hty as [H1 [H2 [H3 [H4 [H5 [H6 [H7 [H8 [H9 _]]]]]]]]].
    unfold switchOn.
    now rewrite H1, H2, H3, H4, H5, H6, H7, H8, H9. }
  rewrite Hs. clear Hs Hty. revert v.
  induction IH as [|c ch Hc _ IHch]; intros v; cbn [fold_left];
    [reflexivity|].
  cbn [forallb] in Hch. apply andb_true_iff in Hch. destruct Hch as [H1 H2].
  rewrite (Hc H1). now apply IHch.
Qed.

(** X18.  A script whose tree has no function, lexical, export, class or
    import node, no call and no markup node gives a record without
    symbols, imports and markup fields, and the file is not reported. *)
Theorem X18_scripts_without_declarations_are_not_reported :
  forall (readFileSync : string -> string) (jsParser tsParser : string -> Node)
         (filePath : string),
    grammarPath filePath = true ->
    plainTree (parserFor jsParser tsParser filePath (readFileSync filePath))
    = true ->
    let fi := parseFile readFileSync jsParser tsParser filePath in
    symbols fi = Some [] /\ imports fi = Some []
    /\ hasJsx fi = None /\ jsxElements fi = None
    /\ hasContent fi = false
    /\ results (mainLoop readFileSync jsParser tsParser [filePath]) = [].
Proof.
  intros rfs jp tp filePath Hp Hplain fi.
  assert (Hfi : fi = storeVisit
                       (initialFileInfo filePath (rfs filePath)
                                        (toLowerCase (extname filePath)))
                       emptyVisit).
  { unfold fi. rewrite (parseFile_grammar rfs jp tp filePath Hp).
    unfold parserFor in Hplain. now rewrite (processNode_plainTree _ Hplain). }
  assert (Hc : hasContent fi = false) by (rewrite Hfi; reflexivity).
  repeat split; try (rewrite Hfi; reflexivity).
  unfold mainLoop. cbn [fold_left]. unfold visitFile. cbv zeta.
  fold fi. now rewrite Hc.
Qed.

(** X18, witness: an empty script. *)
Lemma X18_witness :
  let fi := parseFile moreFiles sampleParser sampleParser "src/none.js" in
  symbols fi = Some [] /\ imports fi = Some []
  /\ hasJsx fi = None /\ jsxElements fi = None
  /\ hasContent fi = false
  /\ results (mainLoop moreFiles sampleParser sampleParser ["src/none.js"]) = [].
Proof.
  apply (X18_scripts_without_declarations_are_not_reported
           moreFiles sampleParser sampleParser "src/none.js");
    reflexivity.
Defined.
